(** * Resource allocation and status transitions of the community platform

    A shallow embedding of the Firestore-backed handlers of the React
    client: volunteer sign-up and cancellation, food-donation claiming
    (src/pages/Volunteer.tsx, in src/src/App.tsx), food-request
    verification and donation withdrawal (the [Dashboard] component of
    src/unnamed/part_001 and src/pages/RestaurantDashboard.tsx), the
    donation counter (src/pages/Success.tsx) and the issue feed of an NGO
    (src/components/dashboard/NgoIssuesView.tsx).

    A Firestore collection is a finite map from document ids to documents;
    a handler is a function from the collection and the component state it
    reads to the new collection, the new component state and the toast it
    shows.  Server timestamps are passed in as [now]. *)

From Stdlib Require Import ZArith Lia Ascii QArith.
From stdpp Require Import base option list gmap strings sorting.

(** ** JavaScript idioms *)

Module Js.
(** Truthiness of an optional string: [undefined], [null] and the empty
    string are falsy. *)
Definition truthy (o : option string) : bool :=
  match o with
  | Some s => negb (bool_decide (s = ""))
  | None => false
  end.

(** [a || b] on optional strings. *)
Definition or (a b : option string) : option string :=
  if truthy a then a else b.

(** [a || 'literal']. *)
Definition or_lit (a : option string) (b : string) : string :=
  if truthy a then default b a else b.

(** *** Numbers *)

(** A number is NaN, an infinity, the negative zero, or a finite double
    given by its value, a rational in lowest terms. *)
Inductive number :=
| NaN
| Infinity (negative : bool)
| NegZero
| Finite (q : Q).

#[global] Instance Q_eq_dec : EqDecision Q.
Proof. solve_decision. Defined.

#[global] Instance number_eq_dec : EqDecision number.
Proof. solve_decision. Defined.

Definition isNaN (n : number) : bool :=
  match n with NaN => true | _ => false end.

(** [n <= 0] *)
Definition le_zero (n : number) : bool :=
  match n with
  | NaN => false
  | Infinity negative => negative
  | NegZero => true
  | Finite q => bool_decide (Qnum q ≤ 0)%Z
  end.

(** Rounding to the nearest double, ties to even.  A decimal literal is
    rounded from its exact value, however many digits it has, as browsers
    do. *)

(** [n / d] to the nearest integer, ties to the even one. *)
Definition round_even (n d : Z) : Z :=
  let q := (n / d)%Z in
  let r := (n mod d)%Z in
  if bool_decide (2 * r < d)%Z then q
  else if bool_decide (d < 2 * r)%Z then (q + 1)%Z
  else if Z.even q then q else (q + 1)%Z.

(** The fraction [(n / d) / 2^k]. *)
Definition scale (n d k : Z) : Z * Z :=
  if bool_decide (0 ≤ k)%Z then (n, d * 2 ^ k)%Z else (n * 2 ^ (- k), d)%Z.

(** The integer part of the binary logarithm of [n / d]. *)
Definition floor_log2 (n d : Z) : Z :=
  let k := (Z.log2 n - Z.log2 d)%Z in
  let '(n', d') := scale n d k in
  if bool_decide (d' ≤ n')%Z then k else (k - 1)%Z.

(** The value [m * 2^p]. *)
Definition dyadic (m p : Z) : Q :=
  if bool_decide (0 ≤ p)%Z then inject_Z (m * 2 ^ p)
  else Qred (m # Z.to_pos (2 ^ (- p))).

(** The zero of either sign. *)
Definition zero (negative : bool) : number :=
  if negative then NegZero else Finite 0.

(** The double nearest to [± n / d], for [0 ≤ n] and [0 < d]: 53 bits of
    precision, least exponent -1074, overflow at [2^1024]. *)
Definition round (negative : bool) (n d : Z) : number :=
  if bool_decide (n = 0)%Z then zero negative
  else
    let p := Z.max (floor_log2 n d - 52) (-1074) in
    let '(n', d') := scale n d p in
    let m := round_even n' d' in
    if bool_decide (m = 0)%Z then zero negative
    else if bool_decide (2 ^ 1024 ≤ m * 2 ^ p)%Z then Infinity negative
    else Finite (dyadic (if negative then - m else m) p).

(** The double nearest to a rational. *)
Definition of_Q (q : Q) : number :=
  round (bool_decide (Qnum q < 0)%Z) (Z.abs (Qnum q)) (Zpos (Qden q)).

(** [a + b] *)
Definition add (a b : number) : number :=
  match a, b with
  | NaN, _ | _, NaN => NaN
  | Infinity s, Infinity s' => if bool_decide (s = s') then Infinity s else NaN
  | Infinity s, _ | _, Infinity s => Infinity s
  | NegZero, x | x, NegZero => x
  | Finite x, Finite y => of_Q (Qred (x + y))
  end.

(** The client's [isSafeInteger(n)]: an integer other than the negative
    zero, of magnitude at most [2^53 - 1]. *)
Definition isSafeInteger (n : number) : bool :=
  match n with
  | Finite q =>
      bool_decide (Qden q = 1%positive)
      && bool_decide (- (2 ^ 53 - 1) ≤ Qnum q ≤ 2 ^ 53 - 1)%Z
  | _ => false
  end.

(** The integer a safe integer is. *)
Definition integer (n : number) : Z :=
  match n with
  | Finite q => Qnum q
  | _ => 0%Z
  end.

(** *** [Number(s)] on a string

    A string is the sequence of its UTF-8 bytes. *)

(** The string with the given bytes. *)

Definition bytes (l : list N) : string :=
  foldr (λ b s, String (ascii_of_N b) s) EmptyString l.

(** The white space and line terminators [Number] strips at both ends. *)
Definition StrWhiteSpaceChar : list string :=
  [ bytes [9]; bytes [10]; bytes [11]; bytes [12]; bytes [13]; bytes [32];
    bytes [194; 160];
    bytes [225; 154; 128];
    bytes [226; 128; 128]; bytes [226; 128; 129]; bytes [226; 128; 130];
    bytes [226; 128; 131]; bytes [226; 128; 132]; bytes [226; 128; 133];
    bytes [226; 128; 134]; bytes [226; 128; 135]; bytes [226; 128; 136];
    bytes [226; 128; 137]; bytes [226; 128; 138];
    bytes [226; 128; 168]; bytes [226; 128; 169]; bytes [226; 128; 175];
    bytes [226; 129; 159];
    bytes [227; 128; 128];
    bytes [239; 187; 191] ]%N.

(** [s] without its prefix [p], if it starts with [p]. *)
Fixpoint strip_prefix (p s : string) : option string :=
  match p, s with
  | EmptyString, _ => Some s
  | String a p', String b s' => if bool_decide (a = b) then strip_prefix p' s' else None
  | String _ _, EmptyString => None
  end.

(** [s] without one of [ws] at its start, if it starts with one; then
    without any number of them. *)
Definition strip_one (ws : list string) (s : string) : option string :=
  foldr (λ w r, match strip_prefix w s with Some s' => Some s' | None => r end)
    None ws.

Fixpoint strip (fuel : nat) (ws : list string) (s : string) : string :=
  match fuel with
  | O => s
  | S fuel =>
      match strip_one ws s with
      | Some s' => strip fuel ws s'
      | None => s
      end
  end.

Definition trimStart (s : string) : string :=
  strip (String.length s) StrWhiteSpaceChar s.

Definition trimEnd (s : string) : string :=
  String.rev (strip (String.length s) (String.rev <$> StrWhiteSpaceChar) (String.rev s)).

Definition trim (s : string) : string := trimEnd (trimStart s).

(** The value of a digit in radix 16, if it is one. *)
Definition hex_digit (a : ascii) : option Z :=
  let n := Z.of_N (N_of_ascii a) in
  if bool_decide (48 ≤ n ≤ 57)%Z then Some (n - 48)%Z
  else if bool_decide (97 ≤ n ≤ 102)%Z then Some (n - 87)%Z
  else if bool_decide (65 ≤ n ≤ 70)%Z then Some (n - 55)%Z
  else None.

(** The value of a digit in the given radix, if it is one. *)
Definition digit (radix : Z) (a : ascii) : option Z :=
  match hex_digit a with
  | Some d => if bool_decide (d < radix)%Z then Some d else None
  | None => None
  end.

(** The longest run of digits at the start of [s]: its value after [acc],
    its length, and the rest of [s]. *)
Fixpoint digits (radix : Z) (acc : Z) (len : nat) (s : string) : Z * nat * string :=
  match s with
  | EmptyString => (acc, len, s)
  | String a s' =>
      match digit radix a with
      | Some d => digits radix (radix * acc + d)%Z (S len) s'
      | None => (acc, len, s)
      end
  end.

(** [0x], [0o], [0b] literals: at least one digit and nothing after them. *)
Definition NonDecimalIntegerLiteral (radix : Z) (s : string) : number :=
  match digits radix 0 0 s with
  | (v, S _, EmptyString) => round false v 1
  | _ => NaN
  end.

(** The exponent part after [e] or [E]: an optional sign and at least one
    digit, up to the end of the string. *)
Definition ExponentPart (s : string) : option Z :=
  let '(negative, s') :=
    match s with
    | String "-" s' => (true, s')
    | String "+" s' => (false, s')
    | _ => (false, s)
    end in
  match digits 10 0 0 s' with
  | (v, S _, EmptyString) => Some (if negative then - v else v)%Z
  | _ => None
  end.

(** [Infinity], or digits with an optional fraction and exponent; at
    least one digit before or after the point. *)
Definition StrUnsignedDecimalLiteral (negative : bool) (s : string) : number :=
  if bool_decide (s = "Infinity") then Infinity negative
  else
    let '(i, ilen, r) := digits 10 0 0 s in
    let '(v, flen, r') :=
      match r with
      | String "." f => digits 10 i 0 f
      | _ => (i, 0, r)
      end in
    if bool_decide (ilen + flen = 0) then NaN
    else
      let exponent :=
        match r' with
        | EmptyString => Some 0%Z
        | String "e" x | String "E" x => ExponentPart x
        | _ => None
        end in
      match exponent with
      | None => NaN
      | Some x =>
          let k := (x - Z.of_nat flen)%Z in
          if bool_decide (0 ≤ k)%Z then round negative (v * 10 ^ k) 1
          else round negative v (10 ^ (- k))
      end.

(** [Number(s)]: white space is stripped at both ends; what is left is
    empty (zero), a literal in radix 16, 8 or 2, or a decimal literal with
    an optional sign; anything else is NaN. *)
Definition Number (s : string) : number :=
  match trim s with
  | EmptyString => Finite 0
  | String "0" (String "x" h) | String "0" (String "X" h) =>
      NonDecimalIntegerLiteral 16 h
  | String "0" (String "o" h) | String "0" (String "O" h) =>
      NonDecimalIntegerLiteral 8 h
  | String "0" (String "b" h) | String "0" (String "B" h) =>
      NonDecimalIntegerLiteral 2 h
  | String "-" u => StrUnsignedDecimalLiteral true u
  | String "+" u => StrUnsignedDecimalLiteral false u
  | u => StrUnsignedDecimalLiteral false u
  end.
End Js.

(** ** The document store *)

Module Firestore.

(** The one failure of [updateDoc] that depends on the store alone: the
    document does not exist. *)
Inductive FirestoreError := not_found.

Definition error_message (e : FirestoreError) : string :=
  match e with not_found => "No document to update" end.

Section Collection.
Context {D : Type}.

(** [getDoc(ref)]: [None] is a snapshot whose [exists()] is false. *)
Definition getDoc (db : gmap string D) (id : string) : option D := db !! id.

(** [updateDoc(ref, payload)]: the payload is the function its field
    operations denote on a document.  No precondition on the stored
    document other than its existence. *)
Definition updateDoc (db : gmap string D) (id : string) (payload : D → D)
  : FirestoreError + gmap string D :=
  match db !! id with
  | Some d => inr (<[id := payload d]> db)
  | None => inl not_found
  end.

(** [query(collection, where(..), orderBy(key, "desc"), limit(n))].
    The order among documents with equal keys is not relied upon. *)
Definition newer (key : D → Z) : relation (string * D) :=
  λ a b, (key b.2 ≤ key a.2)%Z.

#[global] Instance newer_dec key : RelDecision (newer key).
Proof. intros a b. unfold newer. apply _. Defined.

Definition query (db : gmap string D) (P : D → bool) (key : D → Z) (n : nat)
  : list (string * D) :=
  take n (merge_sort (newer key)
            (filter (λ kv, P kv.2 = true) (map_to_list db))).

(** The same query without [limit]. *)
Definition query_all (db : gmap string D) (P : D → bool) (key : D → Z)
  : list (string * D) :=
  merge_sort (newer key) (filter (λ kv, P kv.2 = true) (map_to_list db)).

(** [addDoc(collection, data)], [id] being the id the store generates. *)
Definition addDoc (db : gmap string D) (id : string) (data : D) : gmap string D :=
  <[id := data]> db.
End Collection.

(** Field operations.  An absent array field counts as empty. *)
Definition arrayUnion (x : string) (field : option (list string)) : option (list string) :=
  let l := default [] field in
  Some (if bool_decide (x ∈ l) then l else l ++ [x]).

Definition arrayRemove (x : string) (field : option (list string)) : option (list string) :=
  Some (filter (λ y, y ≠ x) (default [] field)).

(** A stored number is a 64-bit integer or a double. *)
Inductive number :=
| integerValue (z : Z)
| doubleValue (d : Js.number).

#[global] Instance number_eq_dec : EqDecision number.
Proof. solve_decision. Defined.

(** How the client sends a JavaScript number: a safe integer as an integer,
    any other number as a double. *)
Definition toNumber (n : Js.number) : number :=
  if Js.isSafeInteger n then integerValue (Js.integer n) else doubleValue n.

(** What a stored number is as a double. *)
Definition toDouble (v : number) : Js.number :=
  match v with
  | integerValue z => Js.of_Q (inject_Z z)
  | doubleValue d => d
  end.

(** Integer sums stay within 64 bits: an overflow gives the integer of
    largest magnitude. *)
Definition saturate (z : Z) : Z := Z.max (- 2 ^ 63) (Z.min (2 ^ 63 - 1) z).

(** [increment(n)]: an absent field is set to the operand; two integers are
    added as integers; with a double on either side both are taken as
    doubles. *)
Definition increment (n : Js.number) (field : option number) : option number :=
  Some match field, toNumber n with
       | None, operand => operand
       | Some (integerValue t), integerValue a => integerValue (saturate (t + a))
       | Some v, operand => doubleValue (Js.add (toDouble v) (toDouble operand))
       end.

End Firestore.

(** ** Authenticated user, toasts *)

Record User := mkUser {
  uid : string;
  displayName : option string;
  email : option string
}.

(** The role claim of the signed-in user ([userRole] of the auth context). *)
Inductive Role := citizen | volunteer | ngo | restaurant | superadmin.

#[global] Instance Role_eq_dec : EqDecision Role.
Proof. solve_decision. Defined.

Record Toast := mkToast {
  title : string;
  description : option string
}.

Definition toast (t : string) : option Toast := Some (mkToast t None).
Definition toast_d (t d : string) : option Toast := Some (mkToast t (Some d)).

(** What a [catch (err)] block receives: an [Error] thrown by the handler
    itself, or a rejection of the store. *)
Inductive Caught :=
| Thrown (msg : string)
| Rejected (e : Firestore.FirestoreError).

Definition message (c : Caught) : string :=
  match c with
  | Thrown msg => msg
  | Rejected e => Firestore.error_message e
  end.

(** ** Documents *)

Module Opportunity.
Inductive Status := open | full | closed.

#[global] Instance Status_eq_dec : EqDecision Status.
Proof. solve_decision. Defined.

Record t := mk {
  title : string;
  description : string;
  category : string;
  location : string;
  date : string;
  time : string;
  spots : Z;
  orgId : string;
  orgName : string;
  createdAt : Z;
  status : Status;
  signedUpVolunteers : option (list string)
}.

Definition set_status (s : Status) (o : t) : t :=
  mk (title o) (description o) (category o) (location o) (date o) (time o)
     (spots o) (orgId o) (orgName o) (createdAt o) s (signedUpVolunteers o).

Definition set_signedUpVolunteers (v : option (list string)) (o : t) : t :=
  mk (title o) (description o) (category o) (location o) (date o) (time o)
     (spots o) (orgId o) (orgName o) (createdAt o) (status o) v.

(** [opp.signedUpVolunteers || []] *)
Definition volunteers (o : t) : list string := default [] (signedUpVolunteers o).
End Opportunity.

Module FoodDonation.
Inductive Status := available | claimed | unavailable.

#[global] Instance Status_eq_dec : EqDecision Status.
Proof. solve_decision. Defined.

Record t := mk {
  restaurantId : string;
  restaurantName : string;
  foodType : string;
  quantity : string;
  pickupLocation : string;
  pickupInstructions : option string;
  bestBefore : option Z;
  status : Status;
  createdAt : Z;
  claimedByVolunteerId : option string;
  volunteerName : option string;
  claimedAt : option Z;
  volunteerPickupNotes : option string;
  volunteerPhoneNumber : option string
}.

Definition set_status (s : Status) (d : t) : t :=
  mk (restaurantId d) (restaurantName d) (foodType d) (quantity d)
     (pickupLocation d) (pickupInstructions d) (bestBefore d) s (createdAt d)
     (claimedByVolunteerId d) (volunteerName d) (claimedAt d)
     (volunteerPickupNotes d) (volunteerPhoneNumber d).
End FoodDonation.

Module FoodRequest.
Inductive Status := pending | accepted | rejected.

#[global] Instance Status_eq_dec : EqDecision Status.
Proof. solve_decision. Defined.

(** [restaurantId], [restaurantName] and [updatedAt] are not part of the
    interface: [handleVerification] adds them to the document. *)
Record t := mk {
  ngoId : string;
  foodType : string;
  quantity : Z;
  description : string;
  status : Status;
  createdAt : Z;
  ngoName : option string;
  restaurantId : option string;
  restaurantName : option string;
  updatedAt : option Z
}.
End FoodRequest.

(** ** src/pages/Volunteer.tsx *)

Module Volunteer.
Import Firestore.

(** [{ id: doc.id, ...doc.data() }] *)
Abbreviation OppCard := (string * Opportunity.t)%type.
Abbreviation DonationCard := (string * FoodDonation.t)%type.

(** The "more robust check" of [fetchOpportunities]: [title], [orgId] and
    [status] truthy ([createdAt] is a timestamp by its type). *)
Definition robust (o : Opportunity.t) : bool :=
  negb (bool_decide (Opportunity.title o = ""))
  && negb (bool_decide (Opportunity.orgId o = "")).

Definition fetchOpportunities (db : gmap string Opportunity.t) : list OppCard :=
  filter (λ kv, robust kv.2 = true)
    (query db (λ o, bool_decide (Opportunity.status o = Opportunity.open))
       Opportunity.createdAt 15).

Definition fetchFoodDonations (db : gmap string FoodDonation.t) : list DonationCard :=
  query db (λ d, bool_decide (FoodDonation.status d = FoodDonation.available))
    FoodDonation.createdAt 15.

(** *** handleSignUp *)

(** The optional [status] entry of the update payload. *)
Definition signUp_status (signedUpVolunteers : list string) (currentSpots : Z)
  : option Opportunity.Status :=
  if bool_decide (currentSpots ≤ Z.of_nat (length signedUpVolunteers) + 1)%Z
  then Some Opportunity.full else None.

(** [{ signedUpVolunteers: arrayUnion(user.uid), status?: 'full' }] applied
    to the stored document. *)
Definition signUp_payload (u : string) (st : option Opportunity.Status)
    (d : Opportunity.t) : Opportunity.t :=
  let d' := Opportunity.set_signedUpVolunteers
              (arrayUnion u (Opportunity.signedUpVolunteers d)) d in
  match st with
  | Some s => Opportunity.set_status s d'
  | None => d'
  end.

(** The [setOpportunities] update after a successful sign-up. *)
Definition signUp_local (u : string) (st : option Opportunity.Status)
    (opportunityId : string) (opp : OppCard) : OppCard :=
  if bool_decide (opp.1 = opportunityId)
  then (opp.1,
        Opportunity.set_status (default (Opportunity.status opp.2) st)
          (Opportunity.set_signedUpVolunteers
             (Some (Opportunity.volunteers opp.2 ++ [u])) opp.2))
  else opp.

Definition handleSignUp (user : option User)
    (db : gmap string Opportunity.t) (opportunities : list OppCard)
    (opportunityId : string) (currentSpots : Z)
    (signedUpVolunteers_arg : option (list string))
  : gmap string Opportunity.t * list OppCard * option Toast :=
  let signedUpVolunteers := default [] signedUpVolunteers_arg in
  match user with
  | None =>
      (db, opportunities,
       toast_d "Please Login" "You need to be logged in to sign up.")
  | Some user =>
      if bool_decide (uid user ∈ signedUpVolunteers)
      then (db, opportunities, toast "Already Signed Up")
      else if bool_decide (currentSpots ≤ Z.of_nat (length signedUpVolunteers))%Z
      then (db, opportunities, toast "Opportunity Full")
      else
        let st := signUp_status signedUpVolunteers currentSpots in
        match updateDoc db opportunityId (signUp_payload (uid user) st) with
        | inr db' =>
            (db', signUp_local (uid user) st opportunityId <$> opportunities,
             toast_d "Sign Up Successful!" "You're registered for the opportunity.")
        | inl err =>
            (db, opportunities,
             toast_d "Sign Up Failed"
               (Js.or_lit (Some (message (Rejected err))) "Could not sign up."))
        end
  end.

(** *** handleCancelSignUp *)

(** [{ signedUpVolunteers: arrayRemove(user.uid), status: 'open' }] *)
Definition cancel_payload (u : string) (d : Opportunity.t) : Opportunity.t :=
  Opportunity.set_status Opportunity.open
    (Opportunity.set_signedUpVolunteers
       (arrayRemove u (Opportunity.signedUpVolunteers d)) d).

Definition cancel_local (u : string) (opportunityId : string) (opp : OppCard)
  : OppCard :=
  if bool_decide (opp.1 = opportunityId)
  then (opp.1,
        Opportunity.set_status Opportunity.open
          (Opportunity.set_signedUpVolunteers
             (Some (filter (λ x, x ≠ u) (Opportunity.volunteers opp.2))) opp.2))
  else opp.

Definition handleCancelSignUp (user : option User)
    (db : gmap string Opportunity.t) (opportunities : list OppCard)
    (opportunityId : string)
  : gmap string Opportunity.t * list OppCard * option Toast :=
  match user with
  | None => (db, opportunities, None)
  | Some user =>
      match updateDoc db opportunityId (cancel_payload (uid user)) with
      | inr db' =>
          (db', cancel_local (uid user) opportunityId <$> opportunities,
           toast_d "Sign Up Cancelled" "You are no longer registered.")
      | inl err =>
          (db, opportunities,
           toast_d "Cancellation Failed"
             (Js.or_lit (Some (message (Rejected err)))
                "Could not cancel sign up."))
      end
  end.

(** *** The opportunity card: which button is rendered *)

Definition isUserSignedUp (user : option User) (opportunity : Opportunity.t) : bool :=
  match user with
  | Some u => bool_decide (uid u ∈ Opportunity.volunteers opportunity)
  | None => false
  end.

(** The [disabled] attribute of the "Sign Up" button. *)
Definition signUp_disabled (user : option User) (opportunity : Opportunity.t) : bool :=
  bool_decide (Opportunity.spots opportunity
               ≤ Z.of_nat (length (Opportunity.volunteers opportunity)))%Z
  || negb (bool_decide (Opportunity.status opportunity = Opportunity.open))
  || negb (bool_decide (is_Some user)).

(** *** handleClaimFood *)

(** The profile document of the signed-in user, as far as it is used. *)
Record Profile := mkProfile { name : option string }.

(** Component state read or written by [handleClaimFood]. *)
Record ClaimState := mkClaimState {
  foodDonations : list DonationCard;
  claimingFoodId : option string;
  pickupNotes : string;
  pickupPhoneNumber : string
}.

(** [userProfile?.name || user.displayName || user.email || 'Unknown Volunteer'] *)
Definition claimant_name (user : User) (userProfile : option Profile) : string :=
  Js.or_lit (Js.or (Js.or (userProfile ≫= name) (displayName user)) (email user))
    "Unknown Volunteer".

(** The update payload applied to the stored document. *)
Definition claim_payload (user : User) (userProfile : option Profile) (now : Z)
    (notes phoneNumber : string) (d : FoodDonation.t) : FoodDonation.t :=
  FoodDonation.mk
    (FoodDonation.restaurantId d) (FoodDonation.restaurantName d)
    (FoodDonation.foodType d) (FoodDonation.quantity d)
    (FoodDonation.pickupLocation d) (FoodDonation.pickupInstructions d)
    (FoodDonation.bestBefore d)
    FoodDonation.claimed
    (FoodDonation.createdAt d)
    (Some (uid user))
    (Some (claimant_name user userProfile))
    (Some now)
    (Some notes)
    (Some phoneNumber).

Definition not_available_msg : string :=
  "This donation is no longer available or does not exist.".

(** The body of the [try] block: the read, the check and the write.  [inl]
    is what reaches the [catch]. *)
Definition claim_attempt (user : User) (userProfile : option Profile) (now : Z)
    (db : gmap string FoodDonation.t) (donationId notes phoneNumber : string)
  : Caught + gmap string FoodDonation.t :=
  match getDoc db donationId with
  | Some d =>
      if bool_decide (FoodDonation.status d = FoodDonation.available)
      then match updateDoc db donationId
                   (claim_payload user userProfile now notes phoneNumber) with
           | inr db' => inr db'
           | inl err => inl (Rejected err)
           end
      else inl (Thrown not_available_msg)
  | None => inl (Thrown not_available_msg)
  end.

Definition handleClaimFood (user : option User) (userProfile : option Profile)
    (now : Z) (db : gmap string FoodDonation.t) (st : ClaimState)
    (donationId notes phoneNumber : string)
  : gmap string FoodDonation.t * ClaimState * option Toast :=
  match user with
  | None =>
      (db, st, toast_d "Please Login" "You need to be logged in to claim.")
  | Some user =>
      match claim_attempt user userProfile now db donationId notes phoneNumber with
      | inr db' =>
          (db',
           mkClaimState
             (filter (λ d : DonationCard, d.1 ≠ donationId) (foodDonations st))
             None "" "",
           toast_d "Donation Claimed!" "Please arrange pickup as per instructions.")
      | inl err =>
          (db,
           mkClaimState (foodDonations st) None (pickupNotes st) (pickupPhoneNumber st),
           toast_d "Claim Failed"
             (Js.or_lit (Some (message err)) "Could not claim donation."))
      end
  end.

(** *** The updates the store receives

    [handleSignUp] and [handleCancelSignUp] send one update each and read
    nothing of the store.  Whatever cards the volunteers look at and
    whichever calls are under way at the same time, the stored
    opportunities go through these updates one after the other, each with
    the arguments its call was made with. *)
Inductive Write :=
| SignUp (u : User) (opportunityId : string) (currentSpots : Z)
    (signedUpVolunteers : option (list string))
| CancelSignUp (u : User) (opportunityId : string).

Definition cancels (opportunityId : string) (w : Write) : bool :=
  match w with
  | CancelSignUp _ id => bool_decide (id = opportunityId)
  | SignUp _ _ _ _ => false
  end.

Definition write (db : gmap string Opportunity.t) (w : Write)
  : gmap string Opportunity.t :=
  match w with
  | SignUp u opportunityId currentSpots signedUpVolunteers =>
      (handleSignUp (Some u) db [] opportunityId currentSpots
         signedUpVolunteers).1.1
  | CancelSignUp u opportunityId =>
      (handleCancelSignUp (Some u) db [] opportunityId).1.1
  end.

Definition writes (db : gmap string Opportunity.t) (ws : list Write)
  : gmap string Opportunity.t :=
  foldl write db ws.

(** *** Several volunteers on one store

    Every signed-in volunteer has a page of their own, whose
    [opportunities] state is what their last load fetched, updated by their
    own clicks only.  Here a click is taken as a whole: its update reaches
    the store and its call resumes before the next event.  Clicks made while
    earlier calls of the same page are still under way are the subject of
    [Session] below. *)

Record World := mkWorld {
  db : gmap string Opportunity.t;
  pages : gmap string (list OppCard)
}.

Inductive Event :=
| Load (u : User)
| ClickSignUp (u : User) (opportunityId : string)
| ClickCancel (u : User) (opportunityId : string).

Definition page (w : World) (u : User) : list OppCard :=
  default [] (pages w !! uid u).

(** The card rendered for an opportunity id, if any. *)
Definition card (opportunities : list OppCard) (opportunityId : string)
  : option Opportunity.t :=
  snd <$> head (filter (λ kv : OppCard, kv.1 = opportunityId) opportunities).

(** A card shows "Cancel Sign Up" when [isUserSignedUp], otherwise "Sign Up",
    possibly disabled. *)
Definition step (w : World) (e : Event) : World :=
  match e with
  | Load u => mkWorld (db w) (<[uid u := fetchOpportunities (db w)]> (pages w))
  | ClickSignUp u opportunityId =>
      match card (page w u) opportunityId with
      | Some opportunity =>
          if isUserSignedUp (Some u) opportunity then w
          else if signUp_disabled (Some u) opportunity then w
          else
            let r := handleSignUp (Some u) (db w) (page w u) opportunityId
                       (Opportunity.spots opportunity)
                       (Opportunity.signedUpVolunteers opportunity) in
            mkWorld r.1.1 (<[uid u := r.1.2]> (pages w))
      | None => w
      end
  | ClickCancel u opportunityId =>
      match card (page w u) opportunityId with
      | Some opportunity =>
          if isUserSignedUp (Some u) opportunity then
            let r := handleCancelSignUp (Some u) (db w) (page w u) opportunityId in
            mkWorld r.1.1 (<[uid u := r.1.2]> (pages w))
          else w
      | None => w
      end
  end.

Definition run (w : World) (es : list Event) : World := foldl step w es.

(** The capacity bound on every stored opportunity. *)
Definition within_capacity (o : Opportunity.t) : Prop :=
  (Z.of_nat (length (Opportunity.volunteers o)) ≤ Opportunity.spots o)%Z.

#[global] Instance within_capacity_dec o : Decision (within_capacity o).
Proof. unfold within_capacity. apply _. Defined.

Definition capacity_respected (db : gmap string Opportunity.t) : Prop :=
  map_Forall (λ _ o, within_capacity o) db.

#[global] Instance capacity_respected_dec db : Decision (capacity_respected db).
Proof. unfold capacity_respected. apply _. Defined.

(** The card a click acts on shows the stored sign-ups and capacity. *)
Definition up_to_date (w : World) (e : Event) : Prop :=
  match e with
  | ClickSignUp u opportunityId =>
      match card (page w u) opportunityId, db w !! opportunityId with
      | Some opportunity, Some d =>
          Opportunity.volunteers opportunity = Opportunity.volunteers d
          ∧ Opportunity.spots opportunity = Opportunity.spots d
      | _, _ => True
      end
  | _ => True
  end.

#[global] Instance up_to_date_dec w e : Decision (up_to_date w e).
Proof.
  unfold up_to_date. destruct e; [apply _| |apply _].
  destruct (card _ _); [|apply _]. destruct (_ !! _); apply _.
Defined.

Fixpoint all_up_to_date (w : World) (es : list Event) : Prop :=
  match es with
  | [] => True
  | e :: es' => up_to_date w e ∧ all_up_to_date (step w e) es'
  end.

#[global] Instance all_up_to_date_dec w es : Decision (all_up_to_date w es).
Proof. revert w. induction es as [|e es IH]; intros w; simpl; apply _. Defined.

(** Every card on the volunteer's page is the stored document. *)
Definition synced (w : World) (u : User) : Prop :=
  ∀ id o, (id, o) ∈ page w u → db w !! id = Some o.

(** No stored opportunity lists a volunteer twice. *)
Definition no_duplicates (db : gmap string Opportunity.t) : Prop :=
  map_Forall (λ _ o, NoDup (Opportunity.volunteers o)) db.

#[global] Instance no_duplicates_dec db : Decision (no_duplicates db).
Proof. unfold no_duplicates. apply _. Defined.

(** *** One volunteer, with calls under way

    A click calls the handler with the arguments of the card as it is
    shown.  The update of the call reaches the store some time later, and
    later still the call resumes and updates the cards.  No button is
    blocked in between: the volunteer may click again, on the same card
    too, before an earlier call has resumed.  Updates reach the store, and
    calls resume, in the order of the clicks.  A reload shows what is
    stored by then; the calls of the page left behind still reach the
    store, and resume without a page to update. *)

Record Session := mkSession {
  store : gmap string Opportunity.t;
  shown : list OppCard;
  (** updates on their way, oldest first, and whether the page that sent
      them is still the one shown *)
  sent : list (Write * bool);
  (** calls about to resume, oldest first, with the store as their update
      found it *)
  landed : list (Write * gmap string Opportunity.t)
}.

Inductive Action :=
| PressSignUp (opportunityId : string)
| PressCancel (opportunityId : string)
| Land
| Resume
| Reload.

(** The [setOpportunities] of a call that resumes. *)
Definition resume (db : gmap string Opportunity.t) (w : Write)
    (opportunities : list OppCard) : list OppCard :=
  match w with
  | SignUp u opportunityId currentSpots signedUpVolunteers =>
      (handleSignUp (Some u) db opportunities opportunityId currentSpots
         signedUpVolunteers).1.2
  | CancelSignUp u opportunityId =>
      (handleCancelSignUp (Some u) db opportunities opportunityId).1.2
  end.

Definition press (s : Session) (w : Write) : Session :=
  mkSession (store s) (shown s) (sent s ++ [(w, true)]) (landed s).

Definition act (u : User) (s : Session) (a : Action) : Session :=
  match a with
  | PressSignUp opportunityId =>
      match card (shown s) opportunityId with
      | Some opportunity =>
          if isUserSignedUp (Some u) opportunity then s
          else if signUp_disabled (Some u) opportunity then s
          else press s (SignUp u opportunityId (Opportunity.spots opportunity)
                          (Opportunity.signedUpVolunteers opportunity))
      | None => s
      end
  | PressCancel opportunityId =>
      match card (shown s) opportunityId with
      | Some opportunity =>
          if isUserSignedUp (Some u) opportunity
          then press s (CancelSignUp u opportunityId)
          else s
      | None => s
      end
  | Land =>
      match sent s with
      | (w, mounted) :: rest =>
          mkSession (write (store s) w) (shown s) rest
            (if mounted : bool then landed s ++ [(w, store s)] else landed s)
      | [] => s
      end
  | Resume =>
      match landed s with
      | (w, db) :: rest =>
          mkSession (store s) (resume db w (shown s)) (sent s) rest
      | [] => s
      end
  | Reload =>
      mkSession (store s) (fetchOpportunities (store s))
        ((λ c : Write * bool, (c.1, false)) <$> sent s) []
  end.

(** The volunteer opens the page, then acts. *)
Definition arrive (db : gmap string Opportunity.t) : Session :=
  mkSession db (fetchOpportunities db) [] [].

Definition session (u : User) (db : gmap string Opportunity.t)
    (actions : list Action) : Session :=
  foldl (act u) (arrive db) actions.

(** Two lists of sign-ups that differ in [u] at most. *)
Definition same_others (u : string) (l l' : list string) : Prop :=
  filter (λ x, x ≠ u) l = filter (λ x, x ≠ u) l'.

(** What a card, or the arguments of a call, say of an opportunity is what
    is stored, but for the sign-up of the volunteer and the status. *)
Definition agrees_with (u : User) (db : gmap string Opportunity.t)
    (opportunityId : string) (currentSpots : Z) (l : list string) : Prop :=
  ∀ d, db !! opportunityId = Some d →
       currentSpots = Opportunity.spots d
       ∧ same_others (uid u) l (Opportunity.volunteers d).

Definition own (u : User) (w : Write) : Prop :=
  match w with
  | SignUp v _ _ _ => v = u
  | CancelSignUp v _ => v = u
  end.

Definition write_agrees (u : User) (db : gmap string Opportunity.t) (w : Write)
  : Prop :=
  own u w
  ∧ match w with
    | SignUp _ opportunityId currentSpots signedUpVolunteers =>
        agrees_with u db opportunityId currentSpots (default [] signedUpVolunteers)
    | CancelSignUp _ _ => True
    end.

Definition consistent (u : User) (s : Session) : Prop :=
  Forall (λ c : OppCard,
            agrees_with u (store s) c.1 (Opportunity.spots c.2)
              (Opportunity.volunteers c.2)) (shown s)
  ∧ Forall (λ c : Write * bool, write_agrees u (store s) c.1) (sent s)
  ∧ Forall (λ c : Write * gmap string Opportunity.t, own u c.1) (landed s).

End Volunteer.

(** ** src/pages/RestaurantDashboard.tsx and the [Dashboard] component

    [updatingId] is set while a handler runs and null when it returns; it
    is left out of the state. *)

Module Verdict.
(** The [status: 'accepted' | 'rejected'] parameter of [handleVerification]. *)
Inductive t := accepted | rejected.

Definition to_status (v : t) : FoodRequest.Status :=
  match v with
  | accepted => FoodRequest.accepted
  | rejected => FoodRequest.rejected
  end.

Definition to_string (v : t) : string :=
  match v with
  | accepted => "accepted"
  | rejected => "rejected"
  end.
End Verdict.

(** [{ status, restaurantId: user.uid,
       restaurantName: user.displayName || user.email || 'Restaurant',
       updatedAt: serverTimestamp() }] applied to the stored request. *)
Definition verification_payload (user : User) (status : Verdict.t) (now : Z)
    (r : FoodRequest.t) : FoodRequest.t :=
  FoodRequest.mk
    (FoodRequest.ngoId r) (FoodRequest.foodType r) (FoodRequest.quantity r)
    (FoodRequest.description r)
    (Verdict.to_status status)
    (FoodRequest.createdAt r) (FoodRequest.ngoName r)
    (Some (uid user))
    (Some (Js.or_lit (Js.or (displayName user) (email user)) "Restaurant"))
    (Some now).

Module RestaurantDashboard.
Import Firestore.

Abbreviation RequestCard := (string * FoodRequest.t)%type.

Definition fetchRequests (db : gmap string FoodRequest.t) : list RequestCard :=
  query db (λ r, bool_decide (FoodRequest.status r = FoodRequest.pending))
    FoodRequest.createdAt 10.

Definition handleVerification (user : option User) (now : Z)
    (db : gmap string FoodRequest.t) (foodRequests : list RequestCard)
    (requestId : string) (status : Verdict.t)
  : gmap string FoodRequest.t * list RequestCard * option Toast :=
  match user with
  | None => (db, foodRequests, None)
  | Some user =>
      match updateDoc db requestId (verification_payload user status now) with
      | inr db' =>
          (db', filter (λ req : RequestCard, req.1 ≠ requestId) foodRequests,
           toast_d ("Request " +:+ Verdict.to_string status)
             ("Food request has been " +:+ Verdict.to_string status +:+ "."))
      | inl err =>
          (db, foodRequests, toast_d "Update Failed" (message (Rejected err)))
      end
  end.

(** The page renders for [userRole === 'restaurant'] only ("Access
    Denied" otherwise); the "Accept" and "Reject" buttons sit on the cards
    of [foodRequests]. *)
Definition click_verification (userRole : option Role) (user : option User)
    (now : Z) (db : gmap string FoodRequest.t) (foodRequests : list RequestCard)
    (requestId : string) (status : Verdict.t)
  : gmap string FoodRequest.t * list RequestCard * option Toast :=
  if bool_decide (userRole = Some restaurant)
     && bool_decide (requestId ∈ foodRequests.*1)
  then handleVerification user now db foodRequests requestId status
  else (db, foodRequests, None).
End RestaurantDashboard.

Module Dashboard.
Import Firestore.

Abbreviation RequestCard := (string * FoodRequest.t)%type.
Abbreviation DonationCard := (string * FoodDonation.t)%type.

Definition fetchRequests (db : gmap string FoodRequest.t) : list RequestCard :=
  query db (λ r, bool_decide (FoodRequest.status r = FoodRequest.pending))
    FoodRequest.createdAt 15.

Definition fetchMyDonations (user : User) (db : gmap string FoodDonation.t)
  : list DonationCard :=
  query db (λ d, bool_decide (FoodDonation.restaurantId d = uid user))
    FoodDonation.createdAt 50.

Definition handleVerification (user : option User) (now : Z)
    (db : gmap string FoodRequest.t) (foodRequests : list RequestCard)
    (requestId : string) (status : Verdict.t)
  : gmap string FoodRequest.t * list RequestCard * option Toast :=
  match user with
  | None => (db, foodRequests, None)
  | Some user =>
      match updateDoc db requestId (verification_payload user status now) with
      | inr db' =>
          (db', filter (λ req : RequestCard, req.1 ≠ requestId) foodRequests,
           toast_d ("Request " +:+ Verdict.to_string status)
             ("Food request has been " +:+ Verdict.to_string status +:+ "."))
      | inl err =>
          (db, foodRequests, toast_d "Update Failed" (message (Rejected err)))
      end
  end.

(** [setMyDonations(prev => prev.map(d => d.id === donationId
      ? {...d, status: 'unavailable'} : d))] *)
Definition unavailable_local (donationId : string) (d : DonationCard) : DonationCard :=
  if bool_decide (d.1 = donationId)
  then (d.1, FoodDonation.set_status FoodDonation.unavailable d.2)
  else d.

Definition markDonationUnavailable
    (db : gmap string FoodDonation.t) (myDonations : list DonationCard)
    (donationId : string)
  : gmap string FoodDonation.t * list DonationCard * option Toast :=
  match updateDoc db donationId (FoodDonation.set_status FoodDonation.unavailable) with
  | inr db' =>
      (db', unavailable_local donationId <$> myDonations,
       toast_d "Donation Updated" "Marked as unavailable.")
  | inl err =>
      (db, myDonations, toast_d "Update Failed" (message (Rejected err)))
  end.

(** The "Available" tab lists the cards whose shown status is [available];
    only these carry the "Mark as Unavailable" button. *)
Definition availableDonations (myDonations : list DonationCard) : list DonationCard :=
  filter (λ d : DonationCard, FoodDonation.status d.2 = FoodDonation.available)
    myDonations.

(** The restaurant content is rendered in the [case 'restaurant'] branch of
    the role switch; "Accept" and "Reject" sit on the cards of
    [foodRequests], "Mark as Unavailable" on those of [availableDonations]. *)
Definition click_verification (userRole : option Role) (user : option User)
    (now : Z) (db : gmap string FoodRequest.t) (foodRequests : list RequestCard)
    (requestId : string) (status : Verdict.t)
  : gmap string FoodRequest.t * list RequestCard * option Toast :=
  if bool_decide (userRole = Some restaurant)
     && bool_decide (requestId ∈ foodRequests.*1)
  then handleVerification user now db foodRequests requestId status
  else (db, foodRequests, None).

Definition claimedDonations (myDonations : list DonationCard) : list DonationCard :=
  filter (λ d : DonationCard, FoodDonation.status d.2 = FoodDonation.claimed)
    myDonations.

Definition unavailableDonations (myDonations : list DonationCard) : list DonationCard :=
  filter (λ d : DonationCard, FoodDonation.status d.2 = FoodDonation.unavailable)
    myDonations.

Definition click_markUnavailable (userRole : option Role)
    (db : gmap string FoodDonation.t) (myDonations : list DonationCard)
    (donationId : string)
  : gmap string FoodDonation.t * list DonationCard * option Toast :=
  if bool_decide (userRole = Some restaurant)
     && bool_decide (donationId ∈ (availableDonations myDonations).*1)
  then markDonationUnavailable db myDonations donationId
  else (db, myDonations, None).
End Dashboard.

(** ** src/pages/Success.tsx *)

Module Success.
Import Firestore.

Inductive UpdateStatus := idle | pending | success | error.

#[global] Instance UpdateStatus_eq_dec : EqDecision UpdateStatus.
Proof. solve_decision. Defined.

Record State := mkState {
  updateStatus : UpdateStatus;
  errorMessage : option string
}.

(** [useState('idle')], [useState(null)]: the state of a freshly loaded page. *)
Definition mount : State := mkState idle None.

(** The query string of the success URL. *)
Record SearchParams := mkParams {
  session_id : option string;
  amount : option string
}.

(** A document of the [users] collection. *)
Record UserDoc := mkUserDoc {
  name : option string;
  role : string;
  totalDonated : option Firestore.number;
  photoURL : option string
}.

(** [{ totalDonated: increment(amount) }] *)
Definition donation_payload (amount : Js.number) (d : UserDoc) : UserDoc :=
  mkUserDoc (name d) (role d) (increment amount (totalDonated d)) (photoURL d).

(** The flag [isMounted] as the code after [await updateDoc] reads it.  The
    effect lists [updateStatus] among its dependencies, so a change of
    [updateStatus] re-renders the component and runs the cleanup of the
    effect, which clears the flag, before the awaited write settles; [st] is
    the state the effect ran in, [st'] the state it has set by then. *)
Definition isMounted (st st' : State) : bool :=
  bool_decide (updateStatus st' = updateStatus st).

(** [updateDonationCount].  Up to the [await] the function runs within the
    effect, where [isMounted] is still true and the state it sets last is
    the one rendered. *)
Definition updateDonationCount (authLoading : bool) (user : option User)
    (searchParams : SearchParams) (db : gmap string UserDoc) (st : State)
  : gmap string UserDoc * State * option Toast :=
  match user with
  | Some user =>
      if authLoading || negb (bool_decide (updateStatus st = idle))
      then (db, st, None)
      else
        let st' := mkState pending None in
        let amountStr := amount searchParams in
        if negb (Js.truthy (session_id searchParams))
        then (db,
              mkState error
                (Some "Missing payment session info. Leaderboard update skipped."),
              None)
        else if negb (Js.truthy amountStr)
                || Js.isNaN (Js.Number (default "" amountStr))
        then (db,
              mkState error (Some "Missing amount info. Leaderboard update skipped."),
              None)
        else
          let amount := Js.Number (default "" amountStr) in
          if Js.le_zero amount
          then (db, mkState error (Some "Invalid donation amount received."), None)
          else
            match updateDoc db (uid user) (donation_payload amount) with
            | inr db' =>
                if isMounted st st'
                then (db', mkState success (errorMessage st'),
                      toast_d "Leaderboard Updated" "Your contribution is reflected!")
                else (db', st', None)
            | inl _ =>
                if isMounted st st'
                then (db,
                      mkState error (Some "Failed to update leaderboard status."),
                      toast_d "Leaderboard Update Failed"
                        "Could not update your donation status on the leaderboard.")
                else (db, st', None)
            end
  | None => (db, st, None)
  end.

(** The effect runs after the first render and again whenever one of its
    dependencies changes; [envs] lists the authentication state seen by
    each run. *)
Definition effects (searchParams : SearchParams)
    (envs : list (bool * option User)) (db : gmap string UserDoc) (st : State)
  : gmap string UserDoc * State :=
  foldl (λ acc env, (updateDonationCount env.1 env.2 searchParams acc.1 acc.2).1)
    (db, st) envs.

(** One load of the success page: a fresh component, then its effect runs. *)
Definition visit (searchParams : SearchParams)
    (envs : list (bool * option User)) (db : gmap string UserDoc)
  : gmap string UserDoc :=
  (effects searchParams envs db mount).1.
End Success.

(** ** src/components/dashboard/NgoIssuesView.tsx *)

Module Issue.
Inductive Status := pending | in_progress | resolved.

#[global] Instance Status_eq_dec : EqDecision Status.
Proof. solve_decision. Defined.

Record t := mk {
  title : string;
  description : string;
  category : string;
  location : string;
  imageUrl : option string;
  reporterId : string;
  timestamp : Z;
  status : Status;
  updatedAt : option Z
}.

#[global] Instance t_eq_dec : EqDecision t.
Proof. solve_decision. Defined.
End Issue.

Module NgoIssuesView.
Import Firestore.

Abbreviation IssueCard := (string * Issue.t)%type.

Record NgoProfileData := mkProfile {
  focusAreas : option (list string);
  orgName : option string
}.

Record State := mkState {
  issues : list IssueCard;
  ngoProfile : option NgoProfileData;
  loading : bool;
  error : option string
}.

(** [useState([])], [useState(null)], [useState(true)], [useState(null)] *)
Definition mount : State := mkState [] None true None.

(** The "in" limit of the store and the result limit of the query. *)
Definition in_limit : nat := 30.
Definition result_limit : nat := 50.

(** [areasToQuery]: all focus areas, or the first 30 of them when there are
    more ("More than 30 focus areas. Querying first 30."). *)
Definition areasToQuery (fetchedFocusAreas : list string) : list string :=
  if bool_decide (in_limit < length fetchedFocusAreas)
  then take in_limit fetchedFocusAreas
  else fetchedFocusAreas.

Definition targetStatuses : list Issue.Status := [Issue.pending; Issue.in_progress].

(** [where("category", "in", areasToQuery), where("status", "in", targetStatuses)] *)
Definition matches (areas : list string) (i : Issue.t) : bool :=
  bool_decide (Issue.category i ∈ areas)
  && bool_decide (Issue.status i ∈ targetStatuses).

(** The "basic validation for required fields" of a fetched document
    ([timestamp] and [status] hold by their types). *)
Definition well_formed (i : Issue.t) : bool :=
  negb (bool_decide (Issue.title i = ""))
  && negb (bool_decide (Issue.category i = ""))
  && negb (bool_decide (Issue.location i = ""))
  && negb (bool_decide (Issue.reporterId i = "")).

Definition fetchedIssues (areas : list string) (issues_db : gmap string Issue.t)
  : list IssueCard :=
  filter (λ kv : IssueCard, well_formed kv.2 = true)
    (query issues_db (matches areas) Issue.timestamp result_limit).

(** [fetchData], on a mounted component.  Rejections of the two reads are
    not modelled, so the [catch] block is never entered; [finally] clears
    [loading] on every path that passed the first guard. *)
Definition fetchData (ngoId : string)
    (ngo_profiles : gmap string NgoProfileData) (issues_db : gmap string Issue.t)
    (st : State) : State :=
  if bool_decide (ngoId = "") then st
  else
    match getDoc ngo_profiles ngoId with
    | None =>
        mkState (issues st) (ngoProfile st) false
          (Some "Your NGO profile could not be found. Cannot load relevant issues.")
    | Some profileData =>
        let fetchedFocusAreas := default [] (focusAreas profileData) in
        if bool_decide (length fetchedFocusAreas = 0)
        then mkState [] (Some profileData) false None
        else
          mkState (fetchedIssues (areasToQuery fetchedFocusAreas) issues_db)
            (Some profileData) false None
    end.

(** What the card shows. *)
Definition join_comma (l : list string) : string :=
  match l with
  | [] => ""
  | x :: xs => foldl (λ acc y, acc +:+ ", " +:+ y) x xs
  end.

Definition cardDescription (st : State) : string :=
  match ngoProfile st ≫= focusAreas with
  | Some (a :: l) =>
      "Showing issues matching your focus areas: " +:+ join_comma (a :: l)
  | _ => "No focus areas set in your profile to filter issues."
  end.

(** The paragraph "No actionable issues found matching your focus areas
    right now." is rendered. *)
Definition shows_no_issues (st : State) : bool :=
  negb (loading st) && negb (bool_decide (is_Some (error st)))
  && bool_decide (length (issues st) = 0).

(** The issues listed on the card. *)
Definition listed (st : State) : list IssueCard :=
  if negb (loading st) && negb (bool_decide (is_Some (error st)))
  then issues st else [].

(** *** handleUpdateStatus *)

(** The [newStatus: 'in-progress' | 'resolved'] parameter. *)
Inductive NewStatus := to_in_progress | to_resolved.

Definition new_status (n : NewStatus) : Issue.Status :=
  match n with
  | to_in_progress => Issue.in_progress
  | to_resolved => Issue.resolved
  end.

(** [newStatus.replace('-', ' ')] *)
Definition new_status_words (n : NewStatus) : string :=
  match n with
  | to_in_progress => "in progress"
  | to_resolved => "resolved"
  end.

Definition set_status (s : Issue.Status) (i : Issue.t) : Issue.t :=
  Issue.mk (Issue.title i) (Issue.description i) (Issue.category i)
    (Issue.location i) (Issue.imageUrl i) (Issue.reporterId i)
    (Issue.timestamp i) s (Issue.updatedAt i).

(** [{ status: newStatus, updatedAt: serverTimestamp() }] *)
Definition update_payload (n : NewStatus) (now : Z) (i : Issue.t) : Issue.t :=
  Issue.mk (Issue.title i) (Issue.description i) (Issue.category i)
    (Issue.location i) (Issue.imageUrl i) (Issue.reporterId i)
    (Issue.timestamp i) (new_status n) (Some now).

(** [issue.id === issueId ? { ...issue, status: newStatus } : issue] *)
Definition update_local (issueId : string) (n : NewStatus) (issue : IssueCard)
  : IssueCard :=
  if bool_decide (issue.1 = issueId)
  then (issue.1, set_status (new_status n) issue.2)
  else issue.

Definition handleUpdateStatus (ngoId : string) (now : Z)
    (issues_db : gmap string Issue.t) (issues : list IssueCard)
    (issueId : string) (newStatus : NewStatus)
  : gmap string Issue.t * list IssueCard * option Toast :=
  if bool_decide (ngoId = "") then (issues_db, issues, None)
  else
    match updateDoc issues_db issueId (update_payload newStatus now) with
    | inr db' =>
        (db', update_local issueId newStatus <$> issues,
         toast_d "Status Updated"
           ("Issue marked as " +:+ new_status_words newStatus +:+ "."))
    | inl err =>
        (issues_db, issues,
         toast_d "Update Failed"
           ("Could not update issue status: " +:+ message (Rejected err)))
    end.

(** The status updates the store receives, from any reviewer and any card:
    [handleUpdateStatus] sends one update and reads nothing of the store. *)
Record Update := mkUpdate {
  update_ngoId : string;
  update_now : Z;
  update_issueId : string;
  update_newStatus : NewStatus
}.

Definition update (issues_db : gmap string Issue.t) (w : Update)
  : gmap string Issue.t :=
  (handleUpdateStatus (update_ngoId w) (update_now w) issues_db []
     (update_issueId w) (update_newStatus w)).1.1.


(** The buttons of an issue card: "Start Progress" on a pending issue,
    "Mark Resolved" (after confirmation) on a pending or in-progress one. *)
Definition button_shown (n : NewStatus) (issue : Issue.t) : bool :=
  match n with
  | to_in_progress => bool_decide (Issue.status issue = Issue.pending)
  | to_resolved =>
      bool_decide (Issue.status issue = Issue.pending)
      || bool_decide (Issue.status issue = Issue.in_progress)
  end.

(** How far an issue has come. *)
Definition progress (s : Issue.Status) : nat :=
  match s with
  | Issue.pending => 0
  | Issue.in_progress => 1
  | Issue.resolved => 2
  end.

(** The same card, shown at least as far along. *)
Definition not_behind (before after : IssueCard) : Prop :=
  after.1 = before.1
  ∧ progress (Issue.status before.2) ≤ progress (Issue.status after.2).

(** *** Status updates under way

    A click calls [handleUpdateStatus], which marks the issue as being
    updated and sends its update.  The update reaches the store some time
    later, and later still the call resumes, changes the card and clears the
    mark.  The buttons of a card are disabled while the mark is on that
    card; the mark is one id, so a click on another card, or the end of
    another call, enables them again.  Updates reach the store, and calls
    resume, in the order of the clicks. *)

Record View := mkView {
  stored : gmap string Issue.t;
  state : State;
  updatingIssueId : option string;
  (** updates on their way, oldest first *)
  sent : list (string * NewStatus);
  (** calls about to resume, oldest first, with the store as their update
      found it *)
  landed : list (Update * gmap string Issue.t)
}.

Inductive Action :=
| Press (k : nat) (newStatus : NewStatus)
| Land (now : Z)
| Resume.

(** [disabled={updatingIssueId === issue.id}] *)
Definition disabled (updatingIssueId : option string) (issue : IssueCard) : bool :=
  bool_decide (updatingIssueId = Some issue.1).

Definition act (ngoId : string) (v : View) (a : Action) : View :=
  match a with
  | Press k newStatus =>
      match listed (state v) !! k with
      | Some issue =>
          if button_shown newStatus issue.2
             && negb (disabled (updatingIssueId v) issue)
             && negb (bool_decide (ngoId = ""))
          then mkView (stored v) (state v) (Some issue.1)
                 (sent v ++ [(issue.1, newStatus)]) (landed v)
          else v
      | None => v
      end
  | Land now =>
      match sent v with
      | (issueId, newStatus) :: rest =>
          let w := mkUpdate ngoId now issueId newStatus in
          mkView (update (stored v) w) (state v) (updatingIssueId v) rest
            (landed v ++ [(w, stored v)])
      | [] => v
      end
  | Resume =>
      match landed v with
      | (w, db) :: rest =>
          let st := state v in
          mkView (stored v)
            (mkState
               (handleUpdateStatus (update_ngoId w) (update_now w) db (issues st)
                  (update_issueId w) (update_newStatus w)).1.2
               (ngoProfile st) (loading st) (error st))
            None (sent v) rest
      | [] => v
      end
  end.

(** The component once its fetch has completed. *)
Definition opened (ngoId : string) (ngo_profiles : gmap string NgoProfileData)
    (issues_db : gmap string Issue.t) : View :=
  mkView issues_db (fetchData ngoId ngo_profiles issues_db mount) None [] [].

Definition view (ngoId : string) (v : View) (actions : list Action) : View :=
  foldl (act ngoId) v actions.

(** No call is under way. *)
Definition quiet (v : View) : Prop :=
  length (sent v) = 0 ∧ length (landed v) = 0.

#[global] Instance quiet_dec v : Decision (quiet v).
Proof. unfold quiet. apply _. Defined.

(** Every click is made while no call is under way. *)
Fixpoint unhurried (ngoId : string) (v : View) (actions : list Action) : Prop :=
  match actions with
  | [] => True
  | a :: rest =>
      match a with
      | Press _ _ => quiet v
      | _ => True
      end
      ∧ unhurried ngoId (act ngoId v a) rest
  end.

#[global] Instance unhurried_dec ngoId v actions : Decision (unhurried ngoId v actions).
Proof.
  revert v. induction actions as [|a actions IH]; intros v; simpl; [apply _|].
  destruct a; apply _.
Defined.

(** The calls under way, oldest last among those sent. *)
Definition under_way (v : View) : list (string * NewStatus) :=
  ((λ c : Update * gmap string Issue.t,
      (update_issueId c.1, update_newStatus c.1)) <$> landed v) ++ sent v.

(** At most one call is under way, and it moves its card forward. *)
Definition orderly (v : View) : Prop :=
  NoDup (issues (state v)).*1
  ∧ length (under_way v) ≤ 1
  ∧ Forall (λ c : string * NewStatus,
              ∀ card : IssueCard,
                card ∈ issues (state v) → card.1 = c.1 →
                progress (Issue.status card.2) ≤ progress (new_status c.2))
      (under_way v).
End NgoIssuesView.

(** ** src/pages/LeaderboardPage.tsx *)

Module Leaderboard.
Import Firestore.

(** The fields of a [users] document this page reads. *)
Record UserData := mkUserData {
  name : option string;
  email : option string;
  totalDonated : option Z;
  photoURL : option string
}.

(** The field of a [restaurant_profiles] document this page reads. *)
Record RestaurantProfile := mkRestaurantProfile { restName : option string }.

Record RestaurantLeaderboardEntry := mkRestaurantEntry {
  r_id : string;
  r_name : string;
  donationCount : nat;
  r_photoURL : option string
}.

Record DonorLeaderboardEntry := mkDonorEntry {
  d_id : string;
  d_name : string;
  d_totalDonated : Z;
  d_photoURL : option string
}.

Record State := mkState {
  restaurantLeaderboard : list RestaurantLeaderboardEntry;
  donorLeaderboard : list DonorLeaderboardEntry;
  loadingRestaurants : bool;
  loadingDonors : bool;
  error : option string
}.

Definition mount : State := mkState [] [] true true None.

(** [`${label} (${id.substring(0, 5)}...)`] *)
Definition fallback_name (label id : string) : string :=
  label +:+ " (" +:+ String.substring 0 5 id +:+ "...)".

(** [query(collection(db, "food_donations"), where("status", "==", "claimed"))] *)
Definition claimedDonationsQuery (food_donations : gmap string FoodDonation.t)
  : list (string * FoodDonation.t) :=
  filter (λ kv : string * FoodDonation.t,
            FoodDonation.status kv.2 = FoodDonation.claimed)
    (map_to_list food_donations).

(** One step of the [forEach] that aggregates the counts:
    [restaurantCounts[id] = (restaurantCounts[id] || 0) + 1] for a truthy
    [restaurantId]. *)
Definition count_donation (restaurantCounts : gmap string nat)
    (doc : string * FoodDonation.t) : gmap string nat :=
  let id := FoodDonation.restaurantId doc.2 in
  if Js.truthy (Some id)
  then <[id := default 0 (restaurantCounts !! id) + 1]> restaurantCounts
  else restaurantCounts.

Definition restaurantCounts (snapshot : list (string * FoodDonation.t))
  : gmap string nat :=
  foldl count_donation ∅ snapshot.

(** The name of a restaurant: the name on the user document, else the
    [restName] of the restaurant profile, else the fallback. *)
Definition restaurant_name (users : gmap string UserData)
    (restaurant_profiles : gmap string RestaurantProfile) (id : string) : string :=
  let userData_name := getDoc users id ≫= name in
  if Js.truthy userData_name
  then Js.or_lit userData_name (fallback_name "Restaurant" id)
  else
    match getDoc restaurant_profiles id with
    | Some profile =>
        if Js.truthy (restName profile)
        then default "" (restName profile)
        else fallback_name "Restaurant" id
    | None => fallback_name "Restaurant" id
    end.

Definition restaurant_entry (users : gmap string UserData)
    (restaurant_profiles : gmap string RestaurantProfile)
    (counted : string * nat) : RestaurantLeaderboardEntry :=
  mkRestaurantEntry counted.1
    (restaurant_name users restaurant_profiles counted.1)
    counted.2
    (if Js.truthy (getDoc users counted.1 ≫= photoURL)
     then getDoc users counted.1 ≫= photoURL else None).

(** [(a, b) => b.donationCount - a.donationCount] *)
Definition more_donations : relation RestaurantLeaderboardEntry :=
  λ a b, donationCount b ≤ donationCount a.

#[global] Instance more_donations_dec : RelDecision more_donations.
Proof. intros a b. unfold more_donations. apply _. Defined.

(** The entries are pushed as the profile reads complete, so their order
    before the sort, and with it the order among equal counts, is not
    fixed by the code; it is not relied upon. *)
Definition restaurant_board (food_donations : gmap string FoodDonation.t)
    (users : gmap string UserData)
    (restaurant_profiles : gmap string RestaurantProfile)
  : list RestaurantLeaderboardEntry :=
  take 10
    (merge_sort more_donations
       (restaurant_entry users restaurant_profiles
          <$> map_to_list (restaurantCounts (claimedDonationsQuery food_donations)))).

(** The number of claimed donations of a restaurant in the store. *)
Definition claimed_count (food_donations : gmap string FoodDonation.t)
    (id : string) : nat :=
  length (filter (λ kv : string * FoodDonation.t, FoodDonation.restaurantId kv.2 = id)
            (claimedDonationsQuery food_donations)).

Definition fetchRestaurantData (authLoading : bool) (user : option User)
    (food_donations : gmap string FoodDonation.t) (users : gmap string UserData)
    (restaurant_profiles : gmap string RestaurantProfile) (st : State) : State :=
  if authLoading
  then mkState (restaurantLeaderboard st) (donorLeaderboard st) true
         (loadingDonors st) (error st)
  else
    match user with
    | None =>
        mkState [] (donorLeaderboard st) false (loadingDonors st)
          (Some "Please login to view leaderboards.")
    | Some _ =>
        mkState (restaurant_board food_donations users restaurant_profiles)
          (donorLeaderboard st) false (loadingDonors st) None
    end.

(** [data.name || data.email || `User (${doc.id.substring(0, 5)}...)`] *)
Definition donor_entry (doc : string * UserData) : DonorLeaderboardEntry :=
  mkDonorEntry doc.1
    (Js.or_lit (Js.or (name doc.2) (email doc.2)) (fallback_name "User" doc.1))
    (default 0%Z (totalDonated doc.2))
    (photoURL doc.2).

(** [where("totalDonated", ">", 0), orderBy("totalDonated", "desc"), limit(10)];
    a document without the field does not match. *)
Definition has_donated (d : UserData) : bool :=
  match totalDonated d with
  | Some t => bool_decide (0 < t)%Z
  | None => false
  end.

Definition donor_board (users : gmap string UserData) : list DonorLeaderboardEntry :=
  donor_entry <$> query users has_donated (λ d, default 0%Z (totalDonated d)) 10.

Definition fetchDonorData (authLoading : bool) (user : option User)
    (users : gmap string UserData) (st : State) : State :=
  if authLoading
  then mkState (restaurantLeaderboard st) (donorLeaderboard st)
         (loadingRestaurants st) true (error st)
  else
    match user with
    | None =>
        mkState (restaurantLeaderboard st) [] (loadingRestaurants st) false
          (Some (Js.or_lit (error st) "Please login to view leaderboards."))
    | Some _ =>
        mkState (restaurantLeaderboard st) (donor_board users)
          (loadingRestaurants st) false None
    end.
End Leaderboard.

(** ** src/components/dashboard/MyReportedIssues.tsx *)

Module MyReportedIssues.
Import Firestore.

Record State := mkState {
  myIssues : list (string * Issue.t);
  loading : bool;
  error : option string
}.

Definition mount : State := mkState [] true None.

(** The "basic validation": [title] and [location] truthy. *)
Definition valid (i : Issue.t) : bool :=
  negb (bool_decide (Issue.title i = ""))
  && negb (bool_decide (Issue.location i = "")).

(** The effect: [where("reporterId", "==", user.uid), orderBy("timestamp",
    "desc")], no limit. *)
Definition fetchMyIssues (user : option User) (issues_db : gmap string Issue.t)
    (st : State) : State :=
  match user with
  | None => mkState (myIssues st) false (error st)
  | Some user =>
      mkState
        (filter (λ kv : string * Issue.t, valid kv.2 = true)
           (query_all issues_db
              (λ i, bool_decide (Issue.reporterId i = uid user)) Issue.timestamp))
        false None
  end.

(** [issue.location.startsWith('coords:') ? 'Location Marked on Map'
     : issue.location] *)
Definition location_shown (i : Issue.t) : string :=
  if String.prefix "coords:" (Issue.location i)
  then "Location Marked on Map" else Issue.location i.

Definition shown (st : State) : list (string * Issue.t) :=
  if negb (loading st) && negb (bool_decide (is_Some (error st)))
  then myIssues st else [].
End MyReportedIssues.

(** ** src/components/dashboard/AddFoodDonationForm.tsx *)

Module AddFoodDonationForm.
Import Firestore.

Record FormData := mkFormData {
  foodType : string;
  quantity : string;
  pickupLocation : string;
  pickupInstructions : string
}.

Definition empty_form : FormData := mkFormData "" "" "" "".

(** [{ ...formData, restaurantId, restaurantName, bestBefore, createdAt:
      serverTimestamp(), status: 'available' }] *)
Definition donationData (restaurantId restaurantName : string) (now : Z)
    (formData : FormData) (bestBeforeDate : option Z) : FoodDonation.t :=
  FoodDonation.mk restaurantId restaurantName (foodType formData)
    (quantity formData) (pickupLocation formData)
    (Some (pickupInstructions formData)) bestBeforeDate
    FoodDonation.available now None None None None None.

(** [handleSubmit]; [new_id] is the id [addDoc] generates.  The result
    holds the store, the form, the picked date and the toast. *)
Definition handleSubmit (restaurantId restaurantName : string) (now : Z)
    (new_id : string) (db : gmap string FoodDonation.t)
    (formData : FormData) (bestBeforeDate : option Z)
  : gmap string FoodDonation.t * FormData * option Z * option Toast :=
  if bool_decide (foodType formData = "")
     || bool_decide (quantity formData = "")
     || bool_decide (pickupLocation formData = "")
  then (db, formData, bestBeforeDate,
        toast_d "Missing Information"
          "Please fill Food Type, Quantity, and Pickup Location.")
  else
    (addDoc db new_id
       (donationData restaurantId restaurantName now formData bestBeforeDate),
     empty_form, None,
     toast_d "Food Donation Listed"
       "Your surplus food donation is now visible to volunteers.").
End AddFoodDonationForm.

(** ** src/pages/Donate.tsx *)

Module Donate.

Definition priceIdMap : gmap string string :=
  {[ "25" := "price_1RAuDU07ioGuItlZk7NGaBCp";
     "50" := "price_1RAuDp07ioGuItlZIHm0bsyJ";
     "100" := "price_1RAuE707ioGuItlZIBeuxrfj";
     "250" := "price_1RAuEM07ioGuItlZ8DhnbHxv";
     "500" := "price_1RAuEg07ioGuItlZ3IxZIUGY" ]}.

Inductive DonationType := one_time | monthly.

(** What a submit ends in: nothing, a toast, or the redirect to the
    checkout with its line item, mode and the [amount] put on the success
    URL. *)
Inductive Outcome :=
| Nothing
| Toasted (t : Toast)
| Checkout (price mode amount : string).

(** [handleFinancialSubmit]; [stripe] tells whether the Stripe client
    loaded, [checkout_error] is the error [redirectToCheckout] reports, if
    any. *)
Definition handleFinancialSubmit (authLoading : bool) (user : option User)
    (stripe : bool) (checkout_error : option string)
    (donationType : DonationType) (donationAmount : string) : Outcome :=
  if authLoading then Nothing
  else
    match user with
    | None => Toasted (mkToast "Login Required" (Some "Please log in to make a donation."))
    | Some _ =>
        if negb stripe
        then Toasted (mkToast "Error" (Some "Stripe failed to load."))
        else
          match priceIdMap !! donationAmount with
          | None =>
              Toasted (mkToast "Invalid Amount"
                         (Some "The selected donation amount is invalid."))
          | Some priceId =>
              if negb (Js.truthy (Some priceId))
              then Toasted (mkToast "Invalid Amount"
                              (Some "The selected donation amount is invalid."))
              else
                match checkout_error with
                | Some msg =>
                    Toasted (mkToast "Stripe Error"
                               (Some (Js.or_lit (Some msg)
                                        "An error occurred during checkout.")))
                | None =>
                    Checkout priceId
                      (match donationType with
                       | monthly => "subscription"
                       | one_time => "payment"
                       end)
                      donationAmount
                end
          end
    end.

(** The query string of the success URL once the checkout has put its
    session id in place of [{CHECKOUT_SESSION_ID}]. *)
Definition successUrl (checkout_session_id amount : string) : Success.SearchParams :=
  Success.mkParams (Some checkout_session_id) (Some amount).
End Donate.

(** ** src/pages/Login.tsx: the focus areas of an NGO registration *)

Module Login.

Definition focusAreasOptions : list string :=
  ["environment"; "social welfare"; "education"; "healthcare"; "animal welfare";
   "disaster relief"; "community development"; "human rights"; "technology";
   "arts & culture"; "other"].

(** [prev.includes(area) ? prev.filter(a => a !== area) : [...prev, area]] *)
Definition handleFocusAreaChange (area : string) (prev : list string) : list string :=
  if bool_decide (area ∈ prev) then filter (λ a, a ≠ area) prev else prev ++ [area].

(** The checkboxes rendered are those of [focusAreasOptions]; [clicks] are
    the positions of the boxes clicked, in order, starting from
    [useState([])]. *)
Definition click_box (prev : list string) (k : nat) : list string :=
  match focusAreasOptions !! k with
  | Some area => handleFocusAreaChange area prev
  | None => prev
  end.

Definition orgFocusAreas (clicks : list nat) : list string :=
  foldl click_box [] clicks.
End Login.

(** ** src/App.tsx: the route guards *)

Module Routes.

(** What a guard renders. *)
Inductive Rendered (A : Type) :=
| Spinner (label : string)
| NavigateTo (path : string)
| Children (content : A).
Arguments Spinner {A}.
Arguments NavigateTo {A}.
Arguments Children {A}.

(** The auth context: [user], [userRole], [loading]. *)
Record Auth := mkAuth {
  user : option User;
  userRole : option Role;
  loading : bool
}.

Definition RequireAuth {A} (auth : Auth) (children : Rendered A) : Rendered A :=
  if loading auth then Spinner "Loading User..."
  else if negb (bool_decide (is_Some (user auth))) then NavigateTo "/login"
  else children.

Definition RequireAdmin {A} (auth : Auth) (children : Rendered A) : Rendered A :=
  if loading auth then Spinner "Verifying Access..."
  else if negb (bool_decide (userRole auth = Some superadmin)) then NavigateTo "/"
  else children.

Definition RequireNgo {A} (auth : Auth) (children : Rendered A) : Rendered A :=
  if loading auth then Spinner "Verifying Access..."
  else if negb (bool_decide (userRole auth = Some ngo)) then NavigateTo "/"
  else children.

(** The protected and the role-specific routes. *)
Inductive Page :=
| ReportIssue | Volunteer | Donate | Dashboard | NgoFoodRequest | SuperAdminPanel.

Definition route (auth : Auth) (path : string) : option (Rendered Page) :=
  if bool_decide (path = "/report") then Some (RequireAuth auth (Children ReportIssue))
  else if bool_decide (path = "/volunteer") then Some (RequireAuth auth (Children Volunteer))
  else if bool_decide (path = "/donate") then Some (RequireAuth auth (Children Donate))
  else if bool_decide (path = "/dashboard") then Some (RequireAuth auth (Children Dashboard))
  else if bool_decide (path = "/ngo/food-request")
  then Some (RequireAuth auth (RequireNgo auth (Children NgoFoodRequest)))
  else if bool_decide (path = "/superadmin/verify-ngos")
  then Some (RequireAuth auth (RequireAdmin auth (Children SuperAdminPanel)))
  else None.
End Routes.

(** ** getInitials

    The helper exists in three variants: a plain one (LeaderboardPage.tsx,
    RestaurantDashboard.tsx), one that trims and drops empty words (the
    [Dashboard] component) and the same with another placeholder (the
    navbar).  Names are taken to be ASCII: a character is a character of
    the Rocq string, and [toUpperCase] maps the letters a to z. *)

Module Initials.

Definition toUpperCase_char (a : ascii) : ascii :=
  let n := N_of_ascii a in
  if bool_decide (97 ≤ n ≤ 122)%N then ascii_of_N (n - 32) else a.

Fixpoint toUpperCase (s : string) : string :=
  match s with
  | EmptyString => EmptyString
  | String a s' => String (toUpperCase_char a) (toUpperCase s')
  end.

(** [s.split(' ')] *)
Fixpoint split (s : string) : list string :=
  match s with
  | EmptyString => [""]
  | String a s' =>
      if bool_decide (a = " "%char) then "" :: split s'
      else match split s' with
           | w :: ws => String a w :: ws
           | [] => [String a ""]
           end
  end.

(** The ASCII white space [trim] removes: blank, tab, line feed, vertical
    tab, form feed, carriage return. *)
Definition is_white (a : ascii) : bool :=
  let n := N_of_ascii a in
  bool_decide (n = 32)%N || bool_decide (9 ≤ n ≤ 13)%N.

Fixpoint trimStart (s : string) : string :=
  match s with
  | EmptyString => EmptyString
  | String a s' => if is_white a then trimStart s' else s
  end.

Fixpoint trimEnd (s : string) : string :=
  match s with
  | EmptyString => EmptyString
  | String a s' =>
      let t := trimEnd s' in
      if is_white a && bool_decide (t = "") then "" else String a t
  end.

Definition trim (s : string) : string := trimEnd (trimStart s).

(** [w[0]]; [None] is [undefined]. *)
Definition first (w : option string) : option ascii :=
  match w with
  | Some (String a _) => Some a
  | _ => None
  end.

(** [x + y] for two values that are a character or [undefined]; the sum
    of two [undefined] is NaN, here [None]. *)
Definition plus (x y : option ascii) : option string :=
  match x, y with
  | Some a, Some b => Some (String a (String b ""))
  | Some a, None => Some (String a "undefined")
  | None, Some b => Some ("undefined" +:+ String b "")
  | None, None => None
  end.

(** The last two lines of every variant, on the list of words:
    [names[0][0].toUpperCase()] for one word, else
    [(names[0][0] + names[names.length - 1][0]).toUpperCase()].  [None] is
    a TypeError: [toUpperCase] of [undefined] or of NaN. *)
Definition initials_of (names : list string) : option string :=
  if bool_decide (length names = 1)
  then (λ a, toUpperCase (String a "")) <$> first (names !! 0)
  else toUpperCase <$> plus (first (names !! 0)) (first (last names)).

(** LeaderboardPage.tsx, RestaurantDashboard.tsx *)
Definition getInitials_plain (name : option string) : option string :=
  if negb (Js.truthy name) then Some "?"
  else initials_of (split (default "" name)).

(** [name.trim().split(' ').filter(Boolean)], then the placeholder for no
    word at all. *)
Definition getInitials_trimmed (placeholder : string) (name : option string)
  : option string :=
  if negb (Js.truthy name) then Some placeholder
  else
    let names := filter (λ n, n ≠ "") (split (trim (default "" name))) in
    if bool_decide (length names = 0) then Some placeholder
    else initials_of names.

(** The [Dashboard] component and the navbar. *)
Definition getInitials_dashboard := getInitials_trimmed "?".
Definition getInitials_navbar := getInitials_trimmed "U".
End Initials.

(** ** The operations as the specification words them

    These definitions follow the specification, not the source; they are
    what the handlers above are compared with. *)

Module Spec.

#[global] Instance Opportunity_eq_dec : EqDecision Opportunity.t.
Proof. solve_decision. Defined.

Inductive SignUpResult :=
| Added | AlreadySignedUp | Full | NotOpen | Conflict | NotFound.

(** Steps 1 and 2 of [signUp], on a state of the opportunity. *)
Definition signUp_check (actorId : string) (o : Opportunity.t) : option SignUpResult :=
  if bool_decide (actorId ∈ Opportunity.volunteers o) then Some AlreadySignedUp
  else if bool_decide (Opportunity.spots o
                       ≤ Z.of_nat (length (Opportunity.volunteers o)))%Z
  then Some Full
  else if bool_decide (Opportunity.status o = Opportunity.open) then None
  else Some NotOpen.

(** Step 3: [newSet] and [newStatus]. *)
Definition signUp_delta (actorId : string) (o : Opportunity.t) : Opportunity.t :=
  let newSet := Opportunity.volunteers o ++ [actorId] in
  let o' := Opportunity.set_signedUpVolunteers (Some newSet) o in
  if bool_decide (Opportunity.spots o ≤ Z.of_nat (length newSet))%Z
  then Opportunity.set_status Opportunity.full o' else o'.

(** [atomicUpdate] with the precondition that the stored document is the one
    that was read; [None] is a conflict. *)
Definition atomicUpdate (db : gmap string Opportunity.t) (id : string)
    (read : Opportunity.t) (f : Opportunity.t → Opportunity.t)
  : option (gmap string Opportunity.t) :=
  match db !! id with
  | Some d => if bool_decide (d = read) then Some (<[id := f d]> db) else None
  | None => None
  end.

(** Step 4: commit conditioned on the state that was read; on a conflict
    re-check against a fresh read and retry once; [others] are the writes
    of other actors that land between the fresh read and the retry. *)
Definition signUp (db : gmap string Opportunity.t) (id : string)
    (read : Opportunity.t) (actorId : string)
    (others : gmap string Opportunity.t → gmap string Opportunity.t)
  : gmap string Opportunity.t * SignUpResult :=
  match signUp_check actorId read with
  | Some failure => (db, failure)
  | None =>
      match atomicUpdate db id read (signUp_delta actorId) with
      | Some db' => (db', Added)
      | None =>
          match db !! id with
          | None => (db, NotFound)
          | Some fresh =>
              match signUp_check actorId fresh with
              | Some failure => (db, failure)
              | None =>
                  match atomicUpdate (others db) id fresh (signUp_delta actorId) with
                  | Some db' => (db', Added)
                  | None => (others db, Conflict)
                  end
              end
          end
      end
  end.

(** The fields [claim] commits, as the specification lists them. *)
Definition claim_commit (actorId : string) (now : Z) (notes phone : string)
    (d : FoodDonation.t) : FoodDonation.t :=
  FoodDonation.mk
    (FoodDonation.restaurantId d) (FoodDonation.restaurantName d)
    (FoodDonation.foodType d) (FoodDonation.quantity d)
    (FoodDonation.pickupLocation d) (FoodDonation.pickupInstructions d)
    (FoodDonation.bestBefore d)
    FoodDonation.claimed
    (FoodDonation.createdAt d)
    (Some actorId)
    (FoodDonation.volunteerName d)
    (Some now)
    (Some notes)
    (Some phone).

(** Query fan-out: the categories in batches of at most [limit]. *)
Fixpoint batches_aux (fuel limit : nat) (areas : list string) : list (list string) :=
  match fuel with
  | 0 => []
  | S fuel' =>
      match areas with
      | [] => []
      | _ => take limit areas :: batches_aux fuel' limit (drop limit areas)
      end
  end.

Definition batches (limit : nat) (areas : list string) : list (list string) :=
  batches_aux (length areas) limit areas.

(** The issues visible to a reviewer: every batch is queried, the results
    are merged, sorted by timestamp descending and capped. *)
Definition visible_issues (areas : list string) (issues_db : gmap string Issue.t)
  : list (string * Issue.t) :=
  take NgoIssuesView.result_limit
    (merge_sort (Firestore.newer Issue.timestamp)
       (batches NgoIssuesView.in_limit areas ≫=
          λ batch, filter (λ kv : string * Issue.t,
                             NgoIssuesView.matches batch kv.2 = true)
                     (map_to_list issues_db))).

End Spec.

(** ** Sample data *)

Module Sample.
Import Volunteer.

Definition alice : User := mkUser "alice" (Some "Alice") (Some "alice@example.org").
Definition bob : User := mkUser "bob" None (Some "bob@example.org").

(** One opportunity with a single seat, nobody signed up. *)
Definition cleanup : Opportunity.t :=
  Opportunity.mk "River clean-up" "Bring gloves" "environment" "Riverside"
    "2025-05-01" "09:00" 1 "org1" "Green NGO" 100 Opportunity.open None.

Definition one_seat : World := mkWorld {["o1" := cleanup]} ∅.

(** Both volunteers load the page, then both click "Sign Up". *)
Definition both_loaded_first : list Event :=
  [Load alice; Load bob; ClickSignUp alice "o1"; ClickSignUp bob "o1"].

(** The single seat is taken by alice and the opportunity is full. *)
Definition cleanup_taken : Opportunity.t :=
  Opportunity.mk "River clean-up" "Bring gloves" "environment" "Riverside"
    "2025-05-01" "09:00" 1 "org1" "Green NGO" 100 Opportunity.full
    (Some ["alice"]).

Definition taken : gmap string Opportunity.t := {["o1" := cleanup_taken]}.

(** A card loaded while the seat was free; one on which bob had signed up. *)
Definition free_card : OppCard := ("o1", cleanup).
Definition bob_card : OppCard :=
  ("o1", Opportunity.set_status Opportunity.full
           (Opportunity.set_signedUpVolunteers (Some ["bob"]) cleanup)).
(** A listed donation, still available, and the same donation once carol
    has claimed it. *)
Definition soup : FoodDonation.t :=
  FoodDonation.mk "rest1" "Corner Bistro" "Soup" "10 portions" "12 Main St"
    None None FoodDonation.available 200 None None None None None.

Definition soup_claimed : FoodDonation.t :=
  FoodDonation.mk "rest1" "Corner Bistro" "Soup" "10 portions" "12 Main St"
    None None FoodDonation.claimed 200 (Some "carol") (Some "Carol") (Some 250%Z)
    (Some "by bike") (Some "555-0100").

Definition listed_donations : gmap string FoodDonation.t := {["d1" := soup]}.
Definition claimed_donations : gmap string FoodDonation.t := {["d1" := soup_claimed]}.

Definition dialog : ClaimState :=
  mkClaimState [("d1", soup)] None "at 6pm" "555-0199".
(** Two restaurants and a pending food request. *)
Definition bistro : User := mkUser "rest1" (Some "Corner Bistro") None.
Definition diner : User := mkUser "rest2" None (Some "diner@example.org").

Definition meals : FoodRequest.t :=
  FoodRequest.mk "ngo1" "Cooked meals" 40 "For the shelter" FoodRequest.pending
    300 None None None None.

Definition requests : gmap string FoodRequest.t := {["q1" := meals]}.
(** A donor and the success URL of one payment of 25. *)
Definition donors : gmap string Success.UserDoc :=
  {["alice" := Success.mkUserDoc (Some "Alice") "citizen"
               (Some (Firestore.integerValue 100)) None]}.

Definition paid_25 : Success.SearchParams :=
  Success.mkParams (Some "cs_test_a1b2") (Some "25").

(** The effect runs while authentication is loading, once it has loaded,
    and again after [updateStatus] changed. *)
Definition renders : list (bool * option User) :=
  [(true, None); (false, Some alice); (false, Some alice)].
(** Reviewers and reported issues. *)
Definition thirty_one_areas : list string :=
  ["education"; "health"; "environment"; "sanitation"; "water"; "roads";
   "housing"; "hunger"; "poverty"; "safety"; "transport"; "energy";
   "waste"; "parks"; "noise"; "lighting"; "flooding"; "air quality";
   "animal welfare"; "child care"; "elder care"; "disability"; "employment";
   "literacy"; "nutrition"; "shelter"; "youth"; "culture"; "sports";
   "legal aid"; "wildlife"].

Definition ngo_profiles : gmap string NgoIssuesView.NgoProfileData :=
  {[ "ngo-school" := NgoIssuesView.mkProfile (Some ["education"; "health"]) (Some "Learn");
     "ngo-clinic" := NgoIssuesView.mkProfile (Some ["health"]) (Some "Care");
     "ngo-new" := NgoIssuesView.mkProfile None (Some "Fresh");
     "ngo-all" := NgoIssuesView.mkProfile (Some thirty_one_areas) (Some "Everything") ]}.

Definition broken_desks : Issue.t :=
  Issue.mk "Broken desks" "Classroom 3 has no usable desks" "education"
    "Hill School" None "alice" 500 Issue.pending None.

Definition injured_fox : Issue.t :=
  Issue.mk "Injured fox" "Seen near the pond" "wildlife"
    "coords:48.1,11.5" None "bob" 600 Issue.pending None.

Definition reported : gmap string Issue.t :=
  {[ "i1" := broken_desks; "i2" := injured_fox ]}.
End Sample.

(** The cards of a page can be compared with the store. *)
#[global] Instance synced_dec w u : Decision (Volunteer.synced w u).
Proof.
  refine (cast_if (decide (Forall (λ kv : string * Opportunity.t,
                                     Volunteer.db w !! kv.1 = Some kv.2)
                             (Volunteer.page w u))));
    unfold Volunteer.synced; rewrite Forall_forall in *.
  - intros id o Hin. by apply (f (id, o)).
  - intros Hs. apply n. intros [id o] Hin. by apply Hs.
Defined.

(** ** Further sample data *)

Module Example.
Import Volunteer.

(** Alice clicks "Sign Up" twice before the first call resumes, reloads,
    and cancels twice. *)
Definition alice_twice : list Action :=
  [PressSignUp "o1"; PressSignUp "o1"; Land; Land; Resume; Resume;
   PressCancel "o1"; Reload; PressCancel "o1"; Land; Resume; Land].

(** Two pending issues in the focus areas of one reviewer, the newer one
    first on the card. *)
Definition two_issues : gmap string Issue.t :=
  {[ "i1" := Sample.broken_desks;
     "i3" := Issue.mk "No nurse" "The health post is closed" "health"
               "Mill Road" None "bob" 700 Issue.pending None ]}.

(** The reviewer starts on the second card, lets the call finish, and then
    marks the card resolved. *)
Definition one_at_a_time : list NgoIssuesView.Action :=
  [NgoIssuesView.Press 1 NgoIssuesView.to_in_progress; NgoIssuesView.Land 900;
   NgoIssuesView.Resume; NgoIssuesView.Press 1 NgoIssuesView.to_resolved;
   NgoIssuesView.Land 950].

(** "Mark Resolved" on the second card, a click on the first card, and
    "Start Progress" on the second card before any call resumes; then the
    three updates reach the store and the first call resumes. *)
Definition in_a_hurry : list NgoIssuesView.Action :=
  [NgoIssuesView.Press 1 NgoIssuesView.to_resolved;
   NgoIssuesView.Press 0 NgoIssuesView.to_in_progress;
   NgoIssuesView.Press 1 NgoIssuesView.to_in_progress;
   NgoIssuesView.Land 900; NgoIssuesView.Land 910; NgoIssuesView.Land 920;
   NgoIssuesView.Resume].

(** Three claimed donations of one restaurant, one of another, and one
    that is still available. *)
Definition donation_of (restaurantId : string) (status : FoodDonation.Status)
  : FoodDonation.t :=
  FoodDonation.mk restaurantId "" "Meals" "5" "Back door" None None status 100
    None None None None None.

Definition given : gmap string FoodDonation.t :=
  {[ "g1" := donation_of "restA" FoodDonation.claimed;
     "g2" := donation_of "restB" FoodDonation.claimed;
     "g3" := donation_of "restA" FoodDonation.claimed;
     "g4" := donation_of "restA" FoodDonation.claimed;
     "g5" := donation_of "restB" FoodDonation.available ]}.

Definition accounts : gmap string Leaderboard.UserData :=
  {[ "restA" := Leaderboard.mkUserData (Some "Alpha Diner") None None None;
     "alice" := Leaderboard.mkUserData (Some "Alice") None (Some 125%Z) None;
     "bob" := Leaderboard.mkUserData None (Some "bob@example.org") (Some 40%Z) None;
     "carol" := Leaderboard.mkUserData (Some "Carol") None None None ]}.

(** A filled-in donation form. *)
Definition bread_form : AddFoodDonationForm.FormData :=
  AddFoodDonationForm.mkFormData "Bread" "5 loaves" "12 Main St" "After 9 PM".
End Example.

(** * Properties *)

(** ** Field operations *)

Section FieldOps.
Import Firestore.

Lemma arrayUnion_fresh x field :
  x ∉ default [] field → arrayUnion x field = Some (default [] field ++ [x]).
Proof. intros Hx. unfold arrayUnion. by rewrite bool_decide_eq_false_2. Qed.

Lemma arrayUnion_present x field :
  x ∈ default [] field → arrayUnion x field = Some (default [] field).
Proof. intros Hx. unfold arrayUnion. by rewrite bool_decide_eq_true_2. Qed.

Lemma arrayRemove_length x field :
  length (default [] (arrayRemove x field)) ≤ length (default [] field).
Proof. simpl. apply length_filter. Qed.

Lemma arrayRemove_gone x field : x ∉ default [] (arrayRemove x field).
Proof. simpl. rewrite list_elem_of_filter. tauto. Qed.

Lemma arrayRemove_absent x field :
  x ∉ default [] field → arrayRemove x field = Some (default [] field).
Proof.
  intros Hx. unfold arrayRemove. f_equal.
  induction (default [] field) as [|y l IH]; [done|].
  rewrite not_elem_of_cons in Hx. destruct Hx as [Hne Hl].
  rewrite filter_cons_True by done. by rewrite IH.
Qed.

Lemma updateDoc_Some {D} (db : gmap string D) id f d :
  db !! id = Some d → updateDoc db id f = inr (<[id := f d]> db).
Proof. intros H. unfold updateDoc. by rewrite H. Qed.

Lemma updateDoc_None {D} (db : gmap string D) id f :
  db !! id = None → updateDoc db id f = inl not_found.
Proof. intros H. unfold updateDoc. by rewrite H. Qed.
End FieldOps.

(** ** Queries *)

Section Query.
Import Firestore.
Context {D : Type}.

Lemma elem_of_query (db : gmap string D) P key n id d :
  (id, d) ∈ query db P key n → db !! id = Some d ∧ P d = true.
Proof.
  unfold query. intros Hin. apply subseteq_take in Hin.
  rewrite merge_sort_Permutation in Hin.
  apply list_elem_of_filter in Hin as [HP Hin].
  by apply elem_of_map_to_list in Hin.
Qed.

Lemma length_query (db : gmap string D) P key n : length (query db P key n) ≤ n.
Proof. unfold query. rewrite length_take. lia. Qed.

(** Nothing is cut off when the matching documents number at most the limit. *)
Lemma query_complete (db : gmap string D) P key n id d :
  db !! id = Some d → P d = true →
  length (filter (λ kv : string * D, P kv.2 = true) (map_to_list db)) ≤ n →
  (id, d) ∈ query db P key n.
Proof.
  intros Hd HP Hlen. unfold query.
  rewrite take_ge by (by rewrite merge_sort_Permutation).
  rewrite merge_sort_Permutation.
  apply list_elem_of_filter. split; [done|]. by apply elem_of_map_to_list.
Qed.

#[local] Instance newer_total (key : D → Z) : Total (newer key).
Proof. intros a b. unfold newer. lia. Qed.

#[local] Instance newer_trans (key : D → Z) : Transitive (newer key).
Proof. intros a b c. unfold newer. lia. Qed.

Lemma StronglySorted_sublist {A} (R : relation A) (l1 l2 : list A) :
  l1 `sublist_of` l2 → StronglySorted R l2 → StronglySorted R l1.
Proof.
  induction 1 as [|x l1 l2 Hsub IH|x l1 l2 Hsub IH]; intros Hs.
  - constructor.
  - apply StronglySorted_inv in Hs as [Hs Hall]. constructor; [by apply IH|].
    rewrite Forall_forall in Hall |- *. intros y Hy. apply Hall.
    by apply (sublist_subseteq _ _ Hsub).
  - apply StronglySorted_inv in Hs as [Hs _]. by apply IH.
Qed.

(** The result of a query is in descending order of its key. *)
Lemma query_sorted (db : gmap string D) P key n :
  StronglySorted (newer key) (query db P key n).
Proof.
  unfold query. eapply StronglySorted_sublist; [apply sublist_take|].
  apply StronglySorted_merge_sort; apply _.
Qed.
End Query.

(** ** Sign-up, cancellation and the capacity bound *)

Section Capacity.
Import Volunteer.

Lemma cancel_payload_within u d :
  within_capacity d → within_capacity (cancel_payload u d).
Proof.
  unfold within_capacity, cancel_payload, Opportunity.volunteers. simpl.
  intros H. pose proof (length_filter (λ y, y ≠ u)
    (default [] (Opportunity.signedUpVolunteers d))). lia.
Qed.

Lemma signUp_payload_spots u st d :
  Opportunity.spots (signUp_payload u st d) = Opportunity.spots d.
Proof. unfold signUp_payload. by destruct st. Qed.

Lemma signUp_payload_volunteers u st d :
  Opportunity.signedUpVolunteers (signUp_payload u st d)
  = Firestore.arrayUnion u (Opportunity.signedUpVolunteers d).
Proof. unfold signUp_payload. by destruct st. Qed.

(** A sign-up computed from the stored sign-ups and capacity stays within
    the capacity. *)
Lemma signUp_payload_within u st d :
  u ∉ Opportunity.volunteers d →
  (Z.of_nat (length (Opportunity.volunteers d)) < Opportunity.spots d)%Z →
  within_capacity (signUp_payload u st d).
Proof.
  intros Hu Hlt. unfold within_capacity, Opportunity.volunteers.
  rewrite signUp_payload_spots, signUp_payload_volunteers.
  rewrite arrayUnion_fresh by done. simpl.
  rewrite length_app. simpl. unfold Opportunity.volunteers in Hlt. lia.
Qed.

Lemma handleCancelSignUp_capacity user db opportunities opportunityId :
  capacity_respected db →
  capacity_respected (handleCancelSignUp user db opportunities opportunityId).1.1.
Proof.
  intros Hdb. unfold handleCancelSignUp, Firestore.updateDoc.
  destruct user as [u|]; [|done].
  destruct (db !! opportunityId) as [d|] eqn:Hd; [|done]. simpl.
  apply map_Forall_insert_2; [|done].
  apply cancel_payload_within. by apply (Hdb opportunityId).
Qed.


(** A card found on a page is one of its entries, under the id asked for. *)
Lemma card_elem_of opportunities opportunityId opportunity :
  card opportunities opportunityId = Some opportunity →
  (opportunityId, opportunity) ∈ opportunities.
Proof.
  unfold card. intros Hc.
  destruct (head (filter (λ kv : OppCard, kv.1 = opportunityId) opportunities))
    as [[id o]|] eqn:Hh; [|done].
  simpl in Hc. injection Hc as ->.
  apply head_Some_elem_of, list_elem_of_filter in Hh as [Hid Hin].
  simpl in Hid. by subst id.
Qed.

(** A click that follows the volunteer's own load, with no write in
    between, is made on an up-to-date card. *)
Lemma click_after_load_up_to_date w u opportunityId :
  up_to_date (step w (Load u)) (ClickSignUp u opportunityId).
Proof.
  unfold up_to_date, step, page. cbn [db pages].
  rewrite lookup_insert_eq. cbn [default from_option id].
  destruct (card (fetchOpportunities (db w)) opportunityId) as [opp|] eqn:Hc; [|done].
  apply card_elem_of in Hc. unfold fetchOpportunities in Hc.
  apply list_elem_of_filter in Hc as [_ Hc].
  apply elem_of_query in Hc as [Hd _]. by rewrite Hd.
Qed.




End Capacity.

(** ** The sign-up commit *)

Section SignUpCommit.
Import Volunteer.

Lemma signUp_payload_status u st d :
  Opportunity.status (signUp_payload u st d) = default (Opportunity.status d) st.
Proof. unfold signUp_payload. by destruct st. Qed.

(** C3, as amended: [handleSignUp] commits its sign-up and status delta as
    one update that is not conditioned on the stored document: once the
    checks against the caller's card pass (not signed up, not full there),
    whatever document is stored receives [arrayUnion(uid)], and [status:
    'full'] when the card had one seat left; the call reports success, there
    is no conflict outcome and no second attempt. *)
Theorem handleSignUp_commits_unconditionally
    user db opportunities opportunityId currentSpots card_volunteers d :
  db !! opportunityId = Some d →
  uid user ∉ default [] card_volunteers →
  (Z.of_nat (length (default [] card_volunteers)) < currentSpots)%Z →
  ∃ d' opportunities',
    handleSignUp (Some user) db opportunities opportunityId currentSpots
      card_volunteers
    = (<[opportunityId := d']> db, opportunities',
       toast_d "Sign Up Successful!" "You're registered for the opportunity.")
    ∧ Opportunity.signedUpVolunteers d'
      = Firestore.arrayUnion (uid user) (Opportunity.signedUpVolunteers d)
    ∧ Opportunity.status d'
      = (if bool_decide (currentSpots
                         ≤ Z.of_nat (length (default [] card_volunteers)) + 1)%Z
         then Opportunity.full else Opportunity.status d)
    ∧ Opportunity.spots d' = Opportunity.spots d.
Proof.
  intros Hd Hu Hlt. unfold handleSignUp.
  rewrite bool_decide_eq_false_2 by done.
  rewrite bool_decide_eq_false_2 by lia.
  rewrite (updateDoc_Some _ _ _ _ Hd).
  eexists _, _. split; [reflexivity|].
  rewrite signUp_payload_volunteers, signUp_payload_status, signUp_payload_spots.
  split; [done|]. split; [|done].
  unfold signUp_status. by case_bool_decide.
Qed.

Lemma handleSignUp_commits_witness :
  ∃ d' opportunities',
    handleSignUp (Some Sample.bob) Sample.taken [Sample.free_card] "o1" 1 None
    = (<["o1" := d']> Sample.taken, opportunities',
       toast_d "Sign Up Successful!" "You're registered for the opportunity.")
    ∧ Opportunity.signedUpVolunteers d'
      = Firestore.arrayUnion "bob" (Some ["alice"])
    ∧ Opportunity.status d' = Opportunity.full
    ∧ Opportunity.spots d' = 1%Z.
Proof.
  apply (handleSignUp_commits_unconditionally Sample.bob Sample.taken
           [Sample.free_card] "o1" 1 None Sample.cleanup_taken).
  - reflexivity.
  - simpl. apply not_elem_of_nil.
  - simpl. lia.
Defined.

(** With a card that shows the stored document, the code and the protocol
    of the specification commit the same document. *)
Lemma handleSignUp_agrees_when_up_to_date user db opportunities opportunityId d others :
  db !! opportunityId = Some d →
  Opportunity.status d = Opportunity.open →
  (handleSignUp (Some user) db opportunities opportunityId (Opportunity.spots d)
     (Opportunity.signedUpVolunteers d)).1.1
  = (Spec.signUp db opportunityId d (uid user) others).1.
Proof.
  intros Hd Hopen. unfold handleSignUp, Spec.signUp, Spec.signUp_check.
  fold (Opportunity.volunteers d).
  case_bool_decide as Hin; [done|].
  case_bool_decide as Hfull; [done|].
  rewrite (bool_decide_eq_true_2 _ Hopen).
  unfold Spec.atomicUpdate. rewrite (updateDoc_Some _ _ _ _ Hd), Hd.
  rewrite bool_decide_eq_true_2 by done. cbn [fst snd]. f_equal.
  unfold signUp_payload, Spec.signUp_delta, signUp_status.
  fold (Opportunity.volunteers d).
  rewrite arrayUnion_fresh by done. fold (Opportunity.volunteers d).
  rewrite length_app, Nat2Z.inj_add. change (Z.of_nat (length [uid user])) with 1%Z.
  by case_bool_decide.
Qed.

(** C3, as stated, fails: bob clicks on a card loaded while the seat was
    free, after alice took it.  The specified protocol meets a conflict,
    re-checks against the stored document and answers [Full] without
    writing; the handler writes bob into the full opportunity and reports
    success. *)
Lemma handleSignUp_ignores_stored_state :
  let code := handleSignUp (Some Sample.bob) Sample.taken [Sample.free_card] "o1"
                (Opportunity.spots Sample.cleanup)
                (Opportunity.signedUpVolunteers Sample.cleanup) in
  let spec := Spec.signUp Sample.taken "o1" Sample.cleanup "bob" id in
  spec = (Sample.taken, Spec.Full)
  ∧ Opportunity.volunteers <$> code.1.1 !! "o1" = Some ["alice"; "bob"]
  ∧ code.2 = toast_d "Sign Up Successful!" "You're registered for the opportunity."
  ∧ code.1.1 ≠ spec.1.
Proof.
  cbv zeta. split; [reflexivity|]. split; [by vm_compute|]. split; [reflexivity|].
  intros Heq.
  apply (f_equal (λ m : gmap string Opportunity.t,
                    Opportunity.volunteers <$> m !! "o1")) in Heq.
  vm_compute in Heq. discriminate.
Qed.

(** C4, as amended: [handleCancelSignUp] removes the caller from the stored
    sign-ups and sets [status] to [open] whatever the stored status and
    however many sign-ups remain; when the caller is not among the stored
    sign-ups it does the same (the sign-ups stay as they are, the status is
    still set to [open]) and reports success.  The page offers "Cancel Sign
    Up" on the cards that list the caller only. *)
Theorem handleCancelSignUp_removes_and_reopens
    user db opportunities opportunityId d :
  db !! opportunityId = Some d →
  ∃ d' opportunities',
    handleCancelSignUp (Some user) db opportunities opportunityId
    = (<[opportunityId := d']> db, opportunities',
       toast_d "Sign Up Cancelled" "You are no longer registered.")
    ∧ Opportunity.volunteers d'
      = filter (λ x, x ≠ uid user) (Opportunity.volunteers d)
    ∧ (uid user ∉ Opportunity.volunteers d')
    ∧ Opportunity.status d' = Opportunity.open
    ∧ Opportunity.spots d' = Opportunity.spots d
    ∧ ((uid user ∉ Opportunity.volunteers d) →
       Opportunity.volunteers d' = Opportunity.volunteers d)
    ∧ ∀ w, Volunteer.db (step w (ClickCancel user opportunityId)) ≠ Volunteer.db w →
           ∃ opportunity,
             card (page w user) opportunityId = Some opportunity
             ∧ uid user ∈ Opportunity.volunteers opportunity.
Proof.
  intros Hd. unfold handleCancelSignUp. rewrite (updateDoc_Some _ _ _ _ Hd).
  eexists _, _. split; [reflexivity|].
  split; [done|]. split; [apply arrayRemove_gone|].
  split; [done|]. split; [done|]. split.
  - intros Hu. unfold cancel_payload, Opportunity.volunteers. simpl.
    apply (arrayRemove_absent _ (Opportunity.signedUpVolunteers d)) in Hu.
    unfold Firestore.arrayRemove in Hu. by injection Hu.
  - intros w. unfold step.
    destruct (card (page w user) opportunityId) as [opp|]; [|done].
    destruct (isUserSignedUp (Some user) opp) eqn:Hs; [|done].
    intros _. exists opp. split; [done|]. by apply bool_decide_eq_true in Hs.
Qed.

Lemma handleCancelSignUp_witness :
  ∃ d' opportunities',
    handleCancelSignUp (Some Sample.alice) Sample.taken [] "o1"
    = (<["o1" := d']> Sample.taken, opportunities',
       toast_d "Sign Up Cancelled" "You are no longer registered.")
    ∧ Opportunity.volunteers d' = filter (λ x, x ≠ "alice") ["alice"]
    ∧ ("alice" ∉ Opportunity.volunteers d')
    ∧ Opportunity.status d' = Opportunity.open
    ∧ Opportunity.spots d' = 1%Z
    ∧ (("alice" ∉ ["alice"]) → Opportunity.volunteers d' = ["alice"])
    ∧ ∀ w, Volunteer.db (step w (ClickCancel Sample.alice "o1")) ≠ Volunteer.db w →
           ∃ opportunity,
             card (page w Sample.alice) "o1" = Some opportunity
             ∧ "alice" ∈ Opportunity.volunteers opportunity.
Proof.
  apply (handleCancelSignUp_removes_and_reopens Sample.alice Sample.taken []
           "o1" Sample.cleanup_taken).
  reflexivity.
Defined.

(** C4, as stated, fails in its last part: bob, who is not among the stored
    sign-ups, cancels from a card that still lists him; the call does not
    fail, it reports the cancellation and reopens the full opportunity. *)
Lemma handleCancelSignUp_never_NotSignedUp :
  let r := handleCancelSignUp (Some Sample.bob) Sample.taken [Sample.bob_card] "o1" in
  ("bob" ∉ Opportunity.volunteers Sample.cleanup_taken)
  ∧ r.2 = toast_d "Sign Up Cancelled" "You are no longer registered."
  ∧ Opportunity.status <$> Sample.taken !! "o1" = Some Opportunity.full
  ∧ Opportunity.status <$> r.1.1 !! "o1" = Some Opportunity.open
  ∧ Opportunity.volunteers <$> r.1.1 !! "o1" = Some ["alice"].
Proof.
  cbv zeta. split.
  - apply (bool_decide_unpack _). by vm_compute.
  - repeat split; by vm_compute.
Qed.

End SignUpCommit.

(** ** Claiming a food donation *)

Section Claim.
Import Volunteer.

(** The claim fails with the one message, and writes nothing, exactly when
    the document is missing or its status is not [available]. *)
Lemma claim_attempt_not_available user userProfile now db donationId notes phone :
  (db !! donationId = None
   ∨ ∃ d, db !! donationId = Some d
          ∧ FoodDonation.status d ≠ FoodDonation.available) →
  claim_attempt user userProfile now db donationId notes phone
  = inl (Thrown not_available_msg).
Proof.
  unfold claim_attempt, Firestore.getDoc.
  intros [Hnone | (d & Hd & Hst)].
  - by rewrite Hnone.
  - rewrite Hd. by rewrite bool_decide_eq_false_2.
Qed.

(** C2, as amended: [handleClaimFood] reads the donation and checks
    [status = available] right before it writes.  On an available donation
    it commits [status: claimed], [claimedByVolunteerId], [claimedAt],
    [volunteerPickupNotes], [volunteerPhoneNumber] and, in addition,
    [volunteerName] (profile name, else display name, else e-mail, else
    "Unknown Volunteer"), leaving every other field and document as it was.
    On a donation that is not available it fails with "Claim Failed",
    writes nothing and does not try again. *)
Theorem handleClaimFood_read_verify_write
    user userProfile now db st donationId notes phone d :
  db !! donationId = Some d →
  let r := handleClaimFood (Some user) userProfile now db st donationId notes phone in
  (FoodDonation.status d = FoodDonation.available →
   r.1.1 = <[donationId :=
             FoodDonation.mk
               (FoodDonation.restaurantId d) (FoodDonation.restaurantName d)
               (FoodDonation.foodType d) (FoodDonation.quantity d)
               (FoodDonation.pickupLocation d) (FoodDonation.pickupInstructions d)
               (FoodDonation.bestBefore d)
               FoodDonation.claimed
               (FoodDonation.createdAt d)
               (Some (uid user))
               (Some (claimant_name user userProfile))
               (Some now) (Some notes) (Some phone)]> db
   ∧ r.2 = toast_d "Donation Claimed!" "Please arrange pickup as per instructions.")
  ∧ (FoodDonation.status d ≠ FoodDonation.available →
     r.1.1 = db ∧ r.2 = toast_d "Claim Failed" not_available_msg).
Proof.
  intros Hd r. subst r. unfold handleClaimFood. split.
  - intros Hav. unfold claim_attempt, Firestore.getDoc. rewrite Hd.
    rewrite bool_decide_eq_true_2 by done.
    rewrite (updateDoc_Some _ _ _ _ Hd). by split.
  - intros Hna. rewrite claim_attempt_not_available by eauto. by split.
Qed.

Lemma handleClaimFood_witness :
  let r := handleClaimFood (Some Sample.alice) None 300 Sample.listed_donations
             Sample.dialog "d1" "at 6pm" "555-0199" in
  r.1.1 = <["d1" :=
            FoodDonation.mk "rest1" "Corner Bistro" "Soup" "10 portions"
              "12 Main St" None None FoodDonation.claimed 200 (Some "alice")
              (Some "Alice") (Some 300%Z) (Some "at 6pm") (Some "555-0199")]>
            Sample.listed_donations
  ∧ r.2 = toast_d "Donation Claimed!" "Please arrange pickup as per instructions.".
Proof.
  cbv zeta.
  destruct (handleClaimFood_read_verify_write Sample.alice None 300
              Sample.listed_donations Sample.dialog "d1" "at 6pm" "555-0199"
              Sample.soup) as [Hok _]; [reflexivity|].
  exact (Hok eq_refl).
Defined.

(** C2, as stated, fails in "commits exactly": the write also sets
    [volunteerName], which the listed fields leave as it was. *)
Lemma handleClaimFood_also_writes_volunteerName :
  let r := handleClaimFood (Some Sample.alice) None 300 Sample.listed_donations
             Sample.dialog "d1" "at 6pm" "555-0199" in
  r.1.1 !! "d1" ≠ Some (Spec.claim_commit "alice" 300 "at 6pm" "555-0199" Sample.soup)
  ∧ FoodDonation.volunteerName <$> Sample.listed_donations !! "d1" = Some None
  ∧ FoodDonation.volunteerName <$> r.1.1 !! "d1" = Some (Some "Alice").
Proof.
  cbv zeta. split; [|split; by vm_compute].
  intros Heq. apply (f_equal (fmap FoodDonation.volunteerName)) in Heq.
  vm_compute in Heq. discriminate.
Qed.

(** C10: claiming a donation whose document does not exist and claiming one
    whose status is not [available] end in the same way: the toast "Claim
    Failed" with the one message "This donation is no longer available or
    does not exist.", the store untouched, the dialog state kept. *)
Theorem handleClaimFood_missing_same_as_unavailable
    user userProfile now db st donationId notes phone :
  (db !! donationId = None
   ∨ ∃ d, db !! donationId = Some d
          ∧ FoodDonation.status d ≠ FoodDonation.available) →
  handleClaimFood (Some user) userProfile now db st donationId notes phone
  = (db,
     mkClaimState (foodDonations st) None (pickupNotes st) (pickupPhoneNumber st),
     toast_d "Claim Failed"
       "This donation is no longer available or does not exist.").
Proof.
  intros H. unfold handleClaimFood.
  by rewrite claim_attempt_not_available.
Qed.

Lemma handleClaimFood_missing_witness :
  handleClaimFood (Some Sample.alice) None 300 Sample.listed_donations
    Sample.dialog "nowhere" "at 6pm" "555-0199"
  = (Sample.listed_donations,
     mkClaimState (foodDonations Sample.dialog) None "at 6pm" "555-0199",
     toast_d "Claim Failed"
       "This donation is no longer available or does not exist.")
  ∧ handleClaimFood (Some Sample.alice) None 300 Sample.claimed_donations
      Sample.dialog "d1" "at 6pm" "555-0199"
    = (Sample.claimed_donations,
       mkClaimState (foodDonations Sample.dialog) None "at 6pm" "555-0199",
       toast_d "Claim Failed"
         "This donation is no longer available or does not exist.").
Proof.
  split.
  - apply (handleClaimFood_missing_same_as_unavailable Sample.alice None 300
             Sample.listed_donations Sample.dialog "nowhere").
    left. reflexivity.
  - apply (handleClaimFood_missing_same_as_unavailable Sample.alice None 300
             Sample.claimed_donations Sample.dialog "d1").
    right. exists Sample.soup_claimed. split; [reflexivity|discriminate].
Defined.

End Claim.

(** ** Donations and food requests on the dashboards *)

Section Dashboards.

Lemma handleVerification_same user now db foodRequests requestId status :
  RestaurantDashboard.handleVerification user now db foodRequests requestId status
  = Dashboard.handleVerification user now db foodRequests requestId status.
Proof. reflexivity. Qed.

(** C5, as amended: [markDonationUnavailable] checks neither the stored
    status nor the caller: on every stored donation it sets [status] to
    [unavailable], leaves every other field as it was and reports success;
    it fails only when the document does not exist.  The dashboard offers
    the action to restaurants only, on the cards of their list that show
    status [available]; the list is loaded as the caller's own donations. *)
Theorem markDonationUnavailable_unconditional db myDonations donationId d :
  db !! donationId = Some d →
  Dashboard.markDonationUnavailable db myDonations donationId
  = (<[donationId :=
       FoodDonation.mk
         (FoodDonation.restaurantId d) (FoodDonation.restaurantName d)
         (FoodDonation.foodType d) (FoodDonation.quantity d)
         (FoodDonation.pickupLocation d) (FoodDonation.pickupInstructions d)
         (FoodDonation.bestBefore d)
         FoodDonation.unavailable
         (FoodDonation.createdAt d) (FoodDonation.claimedByVolunteerId d)
         (FoodDonation.volunteerName d) (FoodDonation.claimedAt d)
         (FoodDonation.volunteerPickupNotes d)
         (FoodDonation.volunteerPhoneNumber d)]> db,
     Dashboard.unavailable_local donationId <$> myDonations,
     toast_d "Donation Updated" "Marked as unavailable.")
  ∧ (∀ userRole,
       (Dashboard.click_markUnavailable userRole db myDonations donationId).2 ≠ None →
       userRole = Some restaurant
       ∧ ∃ card, card ∈ myDonations ∧ card.1 = donationId
                 ∧ FoodDonation.status card.2 = FoodDonation.available)
  ∧ ∀ user loaded_db card,
      card ∈ Dashboard.fetchMyDonations user loaded_db →
      loaded_db !! card.1 = Some card.2
      ∧ FoodDonation.restaurantId card.2 = uid user.
Proof.
  intros Hd. split; [|split].
  - unfold Dashboard.markDonationUnavailable.
    by rewrite (updateDoc_Some _ _ _ _ Hd).
  - intros userRole. unfold Dashboard.click_markUnavailable.
    destruct (bool_decide (userRole = Some restaurant)) eqn:Hrole; [|done].
    destruct (bool_decide (donationId ∈ (Dashboard.availableDonations myDonations).*1))
      eqn:Hcard; [|done].
    intros _. apply bool_decide_eq_true in Hrole, Hcard. split; [done|].
    apply list_elem_of_fmap in Hcard as (card & -> & Hin).
    unfold Dashboard.availableDonations in Hin.
    apply list_elem_of_filter in Hin as [Hav Hin]. by exists card.
  - intros user loaded_db [id c] Hin.
    apply elem_of_query in Hin as [Hl Hown].
    apply bool_decide_eq_true in Hown. done.
Qed.

Lemma markDonationUnavailable_witness :
  Dashboard.markDonationUnavailable Sample.listed_donations [("d1", Sample.soup)] "d1"
  = (<["d1" := FoodDonation.set_status FoodDonation.unavailable Sample.soup]>
       Sample.listed_donations,
     [("d1", FoodDonation.set_status FoodDonation.unavailable Sample.soup)],
     toast_d "Donation Updated" "Marked as unavailable.").
Proof.
  apply (markDonationUnavailable_unconditional Sample.listed_donations
           [("d1", Sample.soup)] "d1" Sample.soup).
  reflexivity.
Defined.

(** C5, as stated, fails: the restaurant loaded its list while the donation
    was available, carol claimed it, and the restaurant then marks it
    unavailable: the call succeeds and the claimed donation becomes
    [unavailable], still carrying carol's claim. *)
Lemma markDonationUnavailable_overwrites_claimed :
  let page := Dashboard.fetchMyDonations Sample.bistro Sample.listed_donations in
  let r := Dashboard.markDonationUnavailable Sample.claimed_donations page "d1" in
  ("d1", Sample.soup) ∈ Dashboard.availableDonations page
  ∧ FoodDonation.status <$> Sample.claimed_donations !! "d1" = Some FoodDonation.claimed
  ∧ r.2 = toast_d "Donation Updated" "Marked as unavailable."
  ∧ FoodDonation.status <$> r.1.1 !! "d1" = Some FoodDonation.unavailable
  ∧ FoodDonation.claimedByVolunteerId <$> r.1.1 !! "d1" = Some (Some "carol")
  ∧ r.1.1 ≠ Sample.claimed_donations.
Proof.
  cbv zeta. split; [vm_compute; apply list_elem_of_here|].
  split; [by vm_compute|]. split; [by vm_compute|].
  split; [by vm_compute|]. split; [by vm_compute|].
  intros Heq.
  apply (f_equal (λ m : gmap string FoodDonation.t,
                    FoodDonation.status <$> m !! "d1")) in Heq.
  vm_compute in Heq. discriminate.
Qed.

(** C9, as amended: [handleVerification], on either dashboard, sets the
    status of the stored request to [accepted] or [rejected] (never back to
    [pending]) and records the acting user's uid and name and the time,
    whatever status is stored; the request leaves the caller's own list.
    The dashboards offer the action to restaurants only, on the requests of
    their list, which is loaded with the [pending] requests. *)
Theorem handleVerification_records_verdict
    user now db foodRequests requestId status r :
  db !! requestId = Some r →
  Dashboard.handleVerification (Some user) now db foodRequests requestId status
  = (<[requestId :=
       FoodRequest.mk
         (FoodRequest.ngoId r) (FoodRequest.foodType r) (FoodRequest.quantity r)
         (FoodRequest.description r)
         (Verdict.to_status status)
         (FoodRequest.createdAt r) (FoodRequest.ngoName r)
         (Some (uid user))
         (Some (Js.or_lit (Js.or (displayName user) (email user)) "Restaurant"))
         (Some now)]> db,
     filter (λ req : string * FoodRequest.t, req.1 ≠ requestId) foodRequests,
     toast_d ("Request " +:+ Verdict.to_string status)
       ("Food request has been " +:+ Verdict.to_string status +:+ "."))
  ∧ RestaurantDashboard.handleVerification (Some user) now db foodRequests
      requestId status
    = Dashboard.handleVerification (Some user) now db foodRequests requestId status
  ∧ Verdict.to_status status ≠ FoodRequest.pending
  ∧ (∀ card, card ∈ filter (λ req : string * FoodRequest.t, req.1 ≠ requestId)
                       foodRequests → card.1 ≠ requestId)
  ∧ (∀ userRole,
       (Dashboard.click_verification userRole (Some user) now db foodRequests
          requestId status).2 ≠ None
       ∨ (RestaurantDashboard.click_verification userRole (Some user) now db
            foodRequests requestId status).2 ≠ None →
       userRole = Some restaurant ∧ requestId ∈ foodRequests.*1)
  ∧ ∀ loaded_db card,
      card ∈ Dashboard.fetchRequests loaded_db
      ∨ card ∈ RestaurantDashboard.fetchRequests loaded_db →
      loaded_db !! card.1 = Some card.2
      ∧ FoodRequest.status card.2 = FoodRequest.pending.
Proof.
  intros Hr. split; [|split; [|split; [|split; [|split]]]].
  - unfold Dashboard.handleVerification. by rewrite (updateDoc_Some _ _ _ _ Hr).
  - reflexivity.
  - by destruct status.
  - intros card Hin. by apply list_elem_of_filter in Hin as [Hne _].
  - intros userRole.
    unfold Dashboard.click_verification, RestaurantDashboard.click_verification.
    destruct (bool_decide (userRole = Some restaurant)) eqn:Hrole;
      [|intros [?|?]; done].
    destruct (bool_decide (requestId ∈ foodRequests.*1)) eqn:Hcard;
      [|intros [?|?]; done].
    intros _. by apply bool_decide_eq_true in Hrole, Hcard.
  - intros loaded_db [id c] [Hin|Hin];
      apply elem_of_query in Hin as [Hl Hp];
      apply bool_decide_eq_true in Hp; done.
Qed.

Lemma handleVerification_witness :
  Dashboard.handleVerification (Some Sample.bistro) 400 Sample.requests
    [("q1", Sample.meals)] "q1" Verdict.accepted
  = (<["q1" :=
       FoodRequest.mk "ngo1" "Cooked meals" 40 "For the shelter"
         FoodRequest.accepted 300 None (Some "rest1") (Some "Corner Bistro")
         (Some 400%Z)]> Sample.requests,
     [],
     toast_d "Request accepted" "Food request has been accepted.").
Proof.
  apply (handleVerification_records_verdict Sample.bistro 400 Sample.requests
           [("q1", Sample.meals)] "q1" Verdict.accepted Sample.meals).
  reflexivity.
Defined.

(** C9, as stated, fails: two restaurants load the pending request; the
    first accepts it, the second, whose list still shows it, rejects it: the
    accepted request becomes [rejected] and the second restaurant replaces
    the first as the acting party. *)
Lemma handleVerification_overwrites_verdict :
  let page := Dashboard.fetchRequests Sample.requests in
  let first := Dashboard.handleVerification (Some Sample.bistro) 400
                 Sample.requests page "q1" Verdict.accepted in
  let second := Dashboard.handleVerification (Some Sample.diner) 500
                  first.1.1 page "q1" Verdict.rejected in
  page = [("q1", Sample.meals)]
  ∧ FoodRequest.status <$> first.1.1 !! "q1" = Some FoodRequest.accepted
  ∧ FoodRequest.restaurantId <$> first.1.1 !! "q1" = Some (Some "rest1")
  ∧ FoodRequest.status <$> second.1.1 !! "q1" = Some FoodRequest.rejected
  ∧ FoodRequest.restaurantId <$> second.1.1 !! "q1" = Some (Some "rest2")
  ∧ second.2 = toast_d "Request rejected" "Food request has been rejected.".
Proof. cbv zeta. repeat split; by vm_compute. Qed.

End Dashboards.

(** ** The donation counter *)

Section DonationCount.
Import Firestore Success.

(** One run of [updateDonationCount] from the [idle] state: nothing happens
    and the state stays as it is, or the state leaves [idle] and the counter
    of the signed-in user is incremented at most once. *)
Lemma updateDonationCount_idle authLoading user searchParams db st :
  updateStatus st = idle →
  let r := updateDonationCount authLoading user searchParams db st in
  (r.1.1 = db ∧ r.1.2 = st)
  ∨ (r.1.1 = db ∧ updateStatus r.1.2 ≠ idle)
  ∨ (∃ u amt d,
        authLoading = false ∧ user = Some u ∧ db !! uid u = Some d
        ∧ Success.amount searchParams = Some amt
        ∧ Js.isNaN (Js.Number amt) = false ∧ Js.le_zero (Js.Number amt) = false
        ∧ r.1.1 = <[uid u := donation_payload (Js.Number amt) d]> db
        ∧ updateStatus r.1.2 ≠ idle).
Proof.
  intros Hidle r. subst r. unfold updateDonationCount.
  destruct user as [u|]; [|by left].
  destruct authLoading; [by left|].
  rewrite (bool_decide_eq_true_2 _ Hidle). cbn [orb negb]. cbv zeta.
  destruct (Js.truthy (session_id searchParams)); cbn [negb]; [|by right; left].
  destruct (Success.amount searchParams) as [amt|] eqn:Hamt; [|by right; left].
  destruct (Js.truthy (Some amt)); cbn [negb orb]; [|by right; left].
  cbn [default from_option id].
  destruct (Js.isNaN (Js.Number amt)) eqn:Hnan; [by right; left|].
  destruct (Js.le_zero (Js.Number amt)) eqn:Hle; [by right; left|].
  unfold Firestore.updateDoc, isMounted. cbn [updateStatus]. rewrite Hidle.
  rewrite (bool_decide_eq_false_2 (pending = idle)) by done.
  destruct (db !! uid u) as [d|] eqn:Hd; [|by right; left].
  right; right. exists u, amt, d. cbn [fst snd updateStatus].
  by repeat split.
Qed.

Lemma updateDonationCount_not_idle authLoading user searchParams db st :
  updateStatus st ≠ idle →
  updateDonationCount authLoading user searchParams db st = (db, st, None).
Proof.
  intros Hst. unfold updateDonationCount. destruct user as [u|]; [|done].
  rewrite (bool_decide_eq_false_2 _ Hst). by rewrite orb_true_r.
Qed.

Lemma effects_not_idle searchParams envs db st :
  updateStatus st ≠ idle → effects searchParams envs db st = (db, st).
Proof.
  intros Hst. unfold effects. induction envs as [|env envs IH]; [done|].
  cbn [foldl fst snd]. by rewrite updateDonationCount_not_idle.
Qed.

Lemma effects_idle searchParams envs db st :
  updateStatus st = idle →
  (effects searchParams envs db st).1 = db
  ∨ ∃ u amt d,
      (false, Some u) ∈ envs ∧ db !! uid u = Some d
      ∧ Success.amount searchParams = Some amt
      ∧ Js.isNaN (Js.Number amt) = false ∧ Js.le_zero (Js.Number amt) = false
      ∧ (effects searchParams envs db st).1
        = <[uid u := donation_payload (Js.Number amt) d]> db.
Proof.
  revert db st. induction envs as [|[authLoading user] envs IH];
    intros db st Hidle; [by left|].
  unfold effects. cbn [foldl fst snd].
  pose proof (updateDonationCount_idle authLoading user searchParams db st Hidle) as H.
  cbv zeta in H.
  destruct (updateDonationCount authLoading user searchParams db st)
    as [[db' st'] t] eqn:Hrun. cbn [fst snd] in *.
  fold (effects searchParams envs db' st').
  destruct H as [[-> ->] | [[-> Hst']
                 | (u & amt & d & -> & -> & Hd & Hamt & Hnan & Hle & -> & Hst')]].
  - destruct (IH db st Hidle) as [Hsame | (u & amt & d & Hin & Hrest)]; [by left|].
    right. exists u, amt, d. split; [by apply list_elem_of_further|done].
  - left. by rewrite effects_not_idle.
  - right. exists u, amt, d. rewrite effects_not_idle by done.
    repeat split; try done. apply list_elem_of_here.
Qed.

(** A load of the success page by a signed-in donor with a well-formed URL
    increments the counter, whatever was counted before. *)
Lemma visit_increments u searchParams db d sid amt :
  db !! uid u = Some d →
  session_id searchParams = Some sid → sid ≠ "" →
  Success.amount searchParams = Some amt → amt ≠ "" →
  Js.isNaN (Js.Number amt) = false → Js.le_zero (Js.Number amt) = false →
  visit searchParams [(false, Some u)] db
  = <[uid u := donation_payload (Js.Number amt) d]> db.
Proof.
  intros Hd Hsid Hsne Hamt Hane Hnan Hle.
  unfold visit, effects, updateDonationCount. cbn [foldl fst snd mount updateStatus].
  rewrite Hsid, Hamt. cbn [orb negb Js.truthy default from_option id]. cbv zeta.
  rewrite (bool_decide_eq_true_2 (idle = idle)) by done.
  rewrite !(bool_decide_eq_false_2 (_ = "")) by done. cbn [negb orb].
  rewrite Hnan, Hle. unfold isMounted. cbn [updateStatus].
  rewrite (bool_decide_eq_false_2 (pending = idle)) by done.
  by rewrite (updateDoc_Some _ _ _ _ Hd).
Qed.

(** A safe integer is sent as an integer, and added to a stored integer as
    an integer. *)
Lemma increment_integer a t :
  (- (2 ^ 53 - 1) ≤ a ≤ 2 ^ 53 - 1)%Z →
  increment (Js.Finite (inject_Z a)) (Some (integerValue t))
  = Some (integerValue (saturate (t + a))).
Proof.
  intros Ha. unfold increment, toNumber, Js.isSafeInteger, Js.integer.
  cbn [inject_Z Qnum Qden].
  rewrite (bool_decide_eq_true_2 (1%positive = 1%positive)) by done.
  by rewrite bool_decide_eq_true_2 by done.
Qed.

Lemma increment_absent a :
  (- (2 ^ 53 - 1) ≤ a ≤ 2 ^ 53 - 1)%Z →
  increment (Js.Finite (inject_Z a)) None = Some (integerValue a).
Proof.
  intros Ha. unfold increment, toNumber, Js.isSafeInteger, Js.integer.
  cbn [inject_Z Qnum Qden].
  rewrite (bool_decide_eq_true_2 (1%positive = 1%positive)) by done.
  by rewrite bool_decide_eq_true_2 by done.
Qed.

(** C6, as amended: the increment is guarded per page load, not per payment
    session.  Within one load of the success page, however often the effect
    runs, [totalDonated] is incremented at most once, by the number the
    amount on the URL stands for, for a signed-in user; the session id is
    only checked for presence, so a second load with the same session id by
    the same donor increments the counter again. *)
Theorem visit_increments_at_most_once searchParams envs db :
  (visit searchParams envs db = db
   ∨ ∃ u amt d,
       (false, Some u) ∈ envs ∧ db !! uid u = Some d
       ∧ Success.amount searchParams = Some amt
       ∧ Js.isNaN (Js.Number amt) = false ∧ Js.le_zero (Js.Number amt) = false
       ∧ visit searchParams envs db
         = <[uid u := mkUserDoc (name d) (role d)
                        (increment (Js.Number amt) (totalDonated d))
                        (photoURL d)]> db)
  ∧ ∀ u d sid amt a t,
      db !! uid u = Some d →
      session_id searchParams = Some sid → sid ≠ "" →
      Success.amount searchParams = Some amt → amt ≠ "" →
      Js.Number amt = Js.Finite (inject_Z a) → (0 < a ≤ 2 ^ 53 - 1)%Z →
      totalDonated d = Some (integerValue t)
      ∨ totalDonated d = None ∧ t = 0%Z →
      totalDonated <$>
        visit searchParams [(false, Some u)]
          (visit searchParams [(false, Some u)] db) !! uid u
      = Some (Some (integerValue (saturate (saturate (t + a) + a)))).
Proof.
  split.
  - unfold visit. by apply effects_idle.
  - intros u d sid amt a t Hd Hsid Hsne Hamt Hane Hnum Hpos Ht.
    assert (Hnan : Js.isNaN (Js.Number amt) = false) by by rewrite Hnum.
    assert (Hle : Js.le_zero (Js.Number amt) = false).
    { rewrite Hnum. cbn. apply bool_decide_eq_false_2. lia. }
    rewrite (visit_increments u searchParams db d sid amt) by done.
    rewrite (visit_increments u searchParams _
               (donation_payload (Js.Number amt) d) sid amt);
      [|by rewrite lookup_insert_eq|done..].
    rewrite lookup_insert_eq. cbn [fmap option_fmap option_map].
    unfold donation_payload. cbn [totalDonated]. rewrite Hnum.
    assert (Hfirst : increment (Js.Finite (inject_Z a)) (totalDonated d)
                     = Some (integerValue (saturate (t + a)))).
    { destruct Ht as [-> | [-> ->]]; [by apply increment_integer; lia|].
      rewrite increment_absent by lia. do 2 f_equal. unfold saturate.
      assert (2 ^ 53 < 2 ^ 63)%Z by done. lia. }
    rewrite Hfirst.
    by rewrite (increment_integer a (saturate (t + a))) by lia.
Qed.

Lemma visit_witness :
  totalDonated <$>
    visit Sample.paid_25 [(false, Some Sample.alice)]
      (visit Sample.paid_25 [(false, Some Sample.alice)] Sample.donors) !! "alice"
  = Some (Some (integerValue 150)).
Proof.
  apply (proj2 (visit_increments_at_most_once Sample.paid_25 [] Sample.donors)
           Sample.alice
           (mkUserDoc (Some "Alice") "citizen" (Some (integerValue 100)) None)
           "cs_test_a1b2" "25" 25%Z 100%Z).
  - reflexivity.
  - reflexivity.
  - discriminate.
  - reflexivity.
  - discriminate.
  - vm_compute. reflexivity.
  - lia.
  - left. reflexivity.
Defined.

(** C6, as stated, fails: the donor reloads the success page of one payment
    (same [session_id]); each load increments [totalDonated], 100 becomes
    150 where a single increment gives 125. *)
Lemma same_session_counted_twice :
  let once := visit Sample.paid_25 Sample.renders Sample.donors in
  let twice := visit Sample.paid_25 Sample.renders once in
  totalDonated <$> Sample.donors !! "alice" = Some (Some (integerValue 100))
  ∧ totalDonated <$> once !! "alice" = Some (Some (integerValue 125))
  ∧ totalDonated <$> twice !! "alice" = Some (Some (integerValue 150))
  ∧ twice ≠ once.
Proof.
  cbv zeta. split; [by vm_compute|]. split; [by vm_compute|].
  split; [by vm_compute|].
  intros Heq.
  apply (f_equal (λ m : gmap string UserDoc, totalDonated <$> m !! "alice")) in Heq.
  vm_compute in Heq. discriminate.
Qed.

End DonationCount.

(** ** The issue feed of an NGO *)

Section IssueFeed.
Import NgoIssuesView.

Lemma areasToQuery_take fetchedFocusAreas :
  areasToQuery fetchedFocusAreas = take in_limit fetchedFocusAreas.
Proof.
  unfold areasToQuery. case_bool_decide as Hlen; [done|].
  rewrite take_ge; [done|lia].
Qed.

(** After [fetchData] on a fresh component of an NGO with a profile. *)
Lemma fetchData_profile ngoId ngo_profiles issues_db p :
  ngoId ≠ "" → ngo_profiles !! ngoId = Some p →
  fetchData ngoId ngo_profiles issues_db mount
  = mkState (if bool_decide (length (default [] (focusAreas p)) = 0) then []
             else fetchedIssues (areasToQuery (default [] (focusAreas p))) issues_db)
      (Some p) false None.
Proof.
  intros Hid Hp. unfold fetchData, Firestore.getDoc.
  rewrite bool_decide_eq_false_2 by done. rewrite Hp.
  by case_bool_decide.
Qed.

Lemma elem_of_fetchedIssues areas issues_db card :
  card ∈ fetchedIssues areas issues_db →
  issues_db !! card.1 = Some card.2
  ∧ Issue.category card.2 ∈ areas
  ∧ Issue.status card.2 ∈ targetStatuses
  ∧ well_formed card.2 = true.
Proof.
  destruct card as [id i]. unfold fetchedIssues. intros Hin.
  apply list_elem_of_filter in Hin as [Hwf Hin].
  apply elem_of_query in Hin as [Hl Hm].
  unfold matches in Hm. apply andb_true_iff in Hm as [Hc Hs].
  apply bool_decide_eq_true in Hc, Hs. done.
Qed.

Lemma listed_fetchData ngoId ngo_profiles issues_db p :
  ngoId ≠ "" → ngo_profiles !! ngoId = Some p →
  listed (fetchData ngoId ngo_profiles issues_db mount)
  = if bool_decide (length (default [] (focusAreas p)) = 0) then []
    else fetchedIssues (areasToQuery (default [] (focusAreas p))) issues_db.
Proof. intros Hid Hp. by rewrite (fetchData_profile _ _ _ p). Qed.

(** C7, as amended: an issue listed for a reviewer has its category among
    the reviewer's focus areas, more precisely among the first 30 of them,
    and is pending or in progress; conversely, a stored issue whose category
    is among the first 30 focus areas is listed when it is pending or in
    progress, has its required fields, and the matching issues number at
    most 50.  A reviewer without focus areas gets an empty list under the
    description "No focus areas set in your profile to filter issues.",
    which no reviewer with focus areas gets. *)
Theorem issue_listed_for_focus_area ngoId ngo_profiles issues_db p :
  ngoId ≠ "" → ngo_profiles !! ngoId = Some p →
  let st := fetchData ngoId ngo_profiles issues_db mount in
  let focus := default [] (focusAreas p) in
  (∀ card, card ∈ listed st →
     Issue.category card.2 ∈ focus
     ∧ Issue.category card.2 ∈ take 30 focus
     ∧ Issue.status card.2 ∈ targetStatuses
     ∧ issues_db !! card.1 = Some card.2)
  ∧ (∀ id i,
       issues_db !! id = Some i →
       Issue.category i ∈ take 30 focus →
       Issue.status i ∈ targetStatuses →
       well_formed i = true →
       length (filter (λ kv : string * Issue.t, matches (take 30 focus) kv.2 = true)
                 (map_to_list issues_db)) ≤ 50 →
       (id, i) ∈ listed st)
  ∧ (focus = [] →
     listed st = []
     ∧ cardDescription st = "No focus areas set in your profile to filter issues.")
  ∧ (focus ≠ [] →
     cardDescription st ≠ "No focus areas set in your profile to filter issues.").
Proof.
  intros Hid Hp st focus. subst st focus.
  rewrite (listed_fetchData _ _ _ p) by done.
  rewrite (fetchData_profile _ _ _ p) by done.
  rewrite areasToQuery_take.
  split; [|split; [|split]].
  - intros card Hin. case_bool_decide as Hlen; [by apply elem_of_nil in Hin|].
    apply elem_of_fetchedIssues in Hin as (Hl & Hc & Hs & _).
    split; [|done]. by apply subseteq_take in Hc.
  - intros id i Hi Hc Hs Hwf Hfew.
    rewrite bool_decide_eq_false_2
      by (intros Hz; apply nil_length_inv in Hz; rewrite Hz, take_nil in Hc;
          by apply elem_of_nil in Hc).
    unfold fetchedIssues. apply list_elem_of_filter. split; [done|].
    apply query_complete; [done| |done].
    unfold matches. by rewrite !bool_decide_eq_true_2.
  - intros Hnil. rewrite Hnil. split; [done|].
    unfold cardDescription. cbn [ngoProfile mbind option_bind].
    destruct (focusAreas p) as [[|a l]|]; simpl in Hnil; done.
  - intros Hne. unfold cardDescription. cbn [ngoProfile mbind option_bind].
    destruct (focusAreas p) as [[|a l]|]; [done| |done].
    simpl. discriminate.
Qed.

(** The example of the specification: an education issue is listed for the
    reviewer with focus areas education and health, and not for the one with
    health only. *)
Lemma education_issue_witness :
  ("i1", Sample.broken_desks)
    ∈ listed (fetchData "ngo-school" Sample.ngo_profiles Sample.reported mount)
  ∧ (("i1", Sample.broken_desks)
       ∉ listed (fetchData "ngo-clinic" Sample.ngo_profiles Sample.reported mount)).
Proof.
  split.
  - apply (issue_listed_for_focus_area "ngo-school" Sample.ngo_profiles
             Sample.reported
             (mkProfile (Some ["education"; "health"]) (Some "Learn"))).
    + discriminate.
    + reflexivity.
    + reflexivity.
    + simpl. apply list_elem_of_here.
    + simpl. apply list_elem_of_here.
    + reflexivity.
    + vm_compute. lia.
  - intros Hin.
    apply (issue_listed_for_focus_area "ngo-clinic" Sample.ngo_profiles
             Sample.reported (mkProfile (Some ["health"]) (Some "Care")))
      in Hin as [Hc _]; [|discriminate|reflexivity].
    simpl in Hc. apply list_elem_of_singleton in Hc. discriminate.
Defined.

(** C7, as stated, fails: the category of the stored, pending fox report is
    one of the 31 focus areas of the reviewer, and the report is not listed
    for that reviewer. *)
Lemma focus_area_beyond_thirty_not_listed :
  Sample.ngo_profiles !! "ngo-all"
  = Some (mkProfile (Some Sample.thirty_one_areas) (Some "Everything"))
  ∧ Sample.reported !! "i2" = Some Sample.injured_fox
  ∧ Issue.category Sample.injured_fox ∈ Sample.thirty_one_areas
  ∧ Issue.status Sample.injured_fox = Issue.pending
  ∧ (("i2", Sample.injured_fox)
       ∉ listed (fetchData "ngo-all" Sample.ngo_profiles Sample.reported mount)).
Proof.
  split; [reflexivity|]. split; [reflexivity|].
  split; [apply (bool_decide_unpack _); by vm_compute|].
  split; [reflexivity|].
  apply (bool_decide_unpack _). by vm_compute.
Qed.

(** C8, as amended: the categories are not partitioned into batches.  A
    reviewer with more than 30 focus areas is served by one query on the
    first 30 of them, the categories after the 30th are dropped; the result
    of that query is in descending order of timestamp and capped at 50. *)
Theorem fetchData_queries_first_thirty ngoId ngo_profiles issues_db p :
  ngoId ≠ "" → ngo_profiles !! ngoId = Some p →
  let st := fetchData ngoId ngo_profiles issues_db mount in
  let focus := default [] (focusAreas p) in
  areasToQuery focus = take 30 focus
  ∧ (focus ≠ [] →
     issues st
     = filter (λ kv : string * Issue.t, well_formed kv.2 = true)
         (Firestore.query issues_db (matches (take 30 focus)) Issue.timestamp 50))
  ∧ (∀ card, card ∈ listed st → Issue.category card.2 ∈ take 30 focus)
  ∧ StronglySorted (Firestore.newer Issue.timestamp) (listed st)
  ∧ length (listed st) ≤ 50.
Proof.
  intros Hid Hp st focus. subst st focus.
  rewrite (listed_fetchData _ _ _ p) by done.
  rewrite (fetchData_profile _ _ _ p) by done.
  rewrite areasToQuery_take. cbn [issues].
  split; [done|]. split; [|split; [|split]].
  - intros Hne. rewrite bool_decide_eq_false_2; [done|].
    intros Hz. by apply nil_length_inv in Hz.
  - intros card Hin. case_bool_decide; [by apply elem_of_nil in Hin|].
    by apply elem_of_fetchedIssues in Hin as (_ & Hc & _).
  - case_bool_decide; [constructor|].
    unfold fetchedIssues.
    eapply StronglySorted_sublist; [apply sublist_filter|]. apply query_sorted.
  - case_bool_decide; [simpl; lia|].
    unfold fetchedIssues.
    etransitivity; [apply length_filter|]. apply length_query.
Qed.

Lemma fetchData_queries_witness :
  areasToQuery Sample.thirty_one_areas = take 30 Sample.thirty_one_areas
  ∧ length (listed (fetchData "ngo-all" Sample.ngo_profiles Sample.reported mount))
    ≤ 50.
Proof.
  pose proof (fetchData_queries_first_thirty "ngo-all" Sample.ngo_profiles
                Sample.reported
                (mkProfile (Some Sample.thirty_one_areas) (Some "Everything")))
    as H.
  destruct H as (Htake & _ & _ & _ & Hlen); [discriminate|reflexivity|].
  split; [exact Htake|exact Hlen].
Defined.

(** C8, as stated, fails: with 31 focus areas the fan-out of the
    specification queries two batches and returns the fox report first; the
    component queries the first 30 categories only and never returns it. *)
Lemma thirty_first_category_dropped :
  Spec.batches 30 Sample.thirty_one_areas
  = [take 30 Sample.thirty_one_areas; ["wildlife"]]
  ∧ areasToQuery Sample.thirty_one_areas = take 30 Sample.thirty_one_areas
  ∧ ("wildlife" ∉ areasToQuery Sample.thirty_one_areas)
  ∧ Spec.visible_issues Sample.thirty_one_areas Sample.reported
    = [("i2", Sample.injured_fox); ("i1", Sample.broken_desks)]
  ∧ issues (fetchData "ngo-all" Sample.ngo_profiles Sample.reported mount)
    = [("i1", Sample.broken_desks)].
Proof.
  split; [by vm_compute|]. split; [by vm_compute|].
  split; [apply (bool_decide_unpack _); by vm_compute|].
  split; by vm_compute.
Qed.

End IssueFeed.

(** * Further properties of the handlers *)

(** ** The volunteer page: sign-ups are never duplicated *)

Section SignUpSet.
Import Volunteer.

Lemma signUp_payload_NoDup u st d :
  NoDup (Opportunity.volunteers d) →
  NoDup (Opportunity.volunteers (signUp_payload u st d)).
Proof.
  intros Hnd. unfold Opportunity.volunteers.
  rewrite signUp_payload_volunteers. unfold Firestore.arrayUnion. cbn [default].
  case_bool_decide as Hin; [done|].
  apply NoDup_app. split; [done|]. split; [|apply NoDup_singleton].
  intros x Hx Hx'. apply list_elem_of_singleton in Hx'. by subst x.
Qed.

Lemma cancel_payload_NoDup u d :
  NoDup (Opportunity.volunteers d) →
  NoDup (Opportunity.volunteers (cancel_payload u d)).
Proof. intros Hnd. by apply NoDup_filter. Qed.

Lemma handleSignUp_NoDup user db opportunities opportunityId currentSpots view :
  no_duplicates db →
  no_duplicates
    (handleSignUp user db opportunities opportunityId currentSpots view).1.1.
Proof.
  intros Hdb. unfold handleSignUp. destruct user as [u|]; [|done].
  case_bool_decide; [done|]. case_bool_decide; [done|].
  unfold Firestore.updateDoc.
  destruct (db !! opportunityId) as [d|] eqn:Hd; [|done]. cbn [fst].
  apply map_Forall_insert_2; [|done].
  apply signUp_payload_NoDup. by apply (Hdb opportunityId).
Qed.

Lemma handleCancelSignUp_NoDup user db opportunities opportunityId :
  no_duplicates db →
  no_duplicates (handleCancelSignUp user db opportunities opportunityId).1.1.
Proof.
  intros Hdb. unfold handleCancelSignUp. destruct user as [u|]; [|done].
  unfold Firestore.updateDoc.
  destruct (db !! opportunityId) as [d|] eqn:Hd; [|done]. cbn [fst].
  apply map_Forall_insert_2; [|done].
  apply cancel_payload_NoDup. by apply (Hdb opportunityId).
Qed.

Lemma step_NoDup w e : no_duplicates (db w) → no_duplicates (db (step w e)).
Proof.
  intros Hdb. destruct e as [u|u oid|u oid]; [done| |]; unfold step.
  - destruct (card (page w u) oid) as [opp|]; [|done].
    destruct (isUserSignedUp (Some u) opp); [done|].
    destruct (signUp_disabled (Some u) opp); [done|]. cbn [db].
    by apply handleSignUp_NoDup.
  - destruct (card (page w u) oid) as [opp|]; [|done].
    destruct (isUserSignedUp (Some u) opp); [|done]. cbn [db].
    by apply handleCancelSignUp_NoDup.
Qed.

(** X1: whatever the volunteers load and click, and however stale their
    cards are, no stored opportunity ever lists a volunteer twice. *)
Theorem signUps_never_duplicated w es :
  no_duplicates (db w) → no_duplicates (db (run w es)).
Proof.
  revert w. induction es as [|e es IH]; intros w Hdb; [done|].
  simpl. apply IH. by apply step_NoDup.
Qed.

Lemma signUps_never_duplicated_witness :
  no_duplicates (db (run Sample.one_seat Sample.both_loaded_first)).
Proof.
  apply signUps_never_duplicated.
  apply (bool_decide_unpack _). vm_compute. exact I.
Defined.

End SignUpSet.

(** ** The volunteer page: one volunteer alone *)

Section SingleVolunteer.
Import Volunteer.

Lemma signUp_local_payload u st opportunityId o :
  u ∉ Opportunity.volunteers o →
  signUp_local u st opportunityId (opportunityId, o)
  = (opportunityId, signUp_payload u st o).
Proof.
  intros Hu. unfold signUp_local, signUp_payload. cbn [fst snd].
  rewrite bool_decide_eq_true_2 by done.
  rewrite arrayUnion_fresh by done. fold (Opportunity.volunteers o).
  by destruct st.
Qed.

Lemma same_others_arrayUnion u field :
  same_others u (default [] (Firestore.arrayUnion u field)) (default [] field).
Proof.
  unfold same_others, Firestore.arrayUnion. cbn [default from_option id].
  case_bool_decide; [done|].
  rewrite filter_app, filter_cons_False, filter_nil, app_nil_r; [done|].
  by intros Hne; apply Hne.
Qed.

Lemma filter_others_idemp (u : string) (l : list string) :
  filter (λ x, x ≠ u) (filter (λ x, x ≠ u) l) = filter (λ x, x ≠ u) l.
Proof.
  induction l as [|x l IH]; [done|].
  destruct (decide (x = u)) as [->|Hne].
  - by rewrite filter_cons_False by (by intros Hne; apply Hne).
  - by rewrite !filter_cons_True, IH by done.
Qed.

Lemma filter_others_absent (u : string) (l : list string) :
  u ∉ l → filter (λ x, x ≠ u) l = l.
Proof.
  induction l as [|x l IH]; [done|]. intros [Hne Hl]%not_elem_of_cons.
  by rewrite filter_cons_True, IH by done.
Qed.

(** An update of the volunteer changes nothing of a stored opportunity
    but the volunteer's own sign-up and the status. *)
Lemma write_others u db w id d' :
  own u w → write db w !! id = Some d' →
  ∃ d, db !! id = Some d
       ∧ Opportunity.spots d' = Opportunity.spots d
       ∧ same_others (uid u) (Opportunity.volunteers d') (Opportunity.volunteers d).
Proof.
  intros Hown Hd'. destruct w as [v id0 sp l | v id0]; cbn [own write] in *;
    subst v.
  - unfold handleSignUp in Hd'. cbv zeta in Hd'.
    case_bool_decide; [by exists d'|]. case_bool_decide; [by exists d'|].
    unfold Firestore.updateDoc in Hd'.
    destruct (db !! id0) as [d0|] eqn:Hd0; [|by exists d']. cbn [fst] in Hd'.
    destruct (decide (id = id0)) as [->|Hne].
    + rewrite lookup_insert_eq in Hd'. injection Hd' as <-. exists d0.
      split; [done|]. split; [apply signUp_payload_spots|].
      unfold Opportunity.volunteers. rewrite signUp_payload_volunteers.
      apply same_others_arrayUnion.
    + rewrite lookup_insert_ne in Hd' by done. by exists d'.
  - unfold handleCancelSignUp, Firestore.updateDoc in Hd'.
    destruct (db !! id0) as [d0|] eqn:Hd0; [|by exists d']. cbn [fst] in Hd'.
    destruct (decide (id = id0)) as [->|Hne].
    + rewrite lookup_insert_eq in Hd'. injection Hd' as <-. exists d0.
      split; [done|]. split; [done|].
      unfold same_others, cancel_payload, Opportunity.volunteers,
        Firestore.arrayRemove. cbn. apply filter_others_idemp.
    + rewrite lookup_insert_ne in Hd' by done. by exists d'.
Qed.

Lemma write_agrees_with u db w id sp l :
  own u w → agrees_with u db id sp l → agrees_with u (write db w) id sp l.
Proof.
  intros Hown Hag d' Hd'.
  destruct (write_others u db w id d' Hown Hd') as (d & Hd & Hsp & Hothers).
  destruct (Hag d Hd) as [-> Hl]. split; [done|].
  unfold same_others in *. congruence.
Qed.

(** An update whose arguments agree with the store keeps the bound. *)
Lemma write_capacity u db w :
  write_agrees u db w → capacity_respected db → capacity_respected (write db w).
Proof.
  intros [Hown Hag] Hcap. destruct w as [v oid sp l | v oid]; cbn [own write] in *;
    [|by apply handleCancelSignUp_capacity].
  subst v. unfold handleSignUp. cbv zeta.
  case_bool_decide as Hin; [done|]. case_bool_decide as Hfull; [done|].
  unfold Firestore.updateDoc. destruct (db !! oid) as [d|] eqn:Hd; [|done].
  cbn [fst]. apply map_Forall_insert_2; [|done].
  destruct (Hag d Hd) as [-> Hothers].
  destruct (decide (uid u ∈ Opportunity.volunteers d)) as [Hthere|Hfresh].
  - unfold within_capacity, Opportunity.volunteers.
    rewrite signUp_payload_spots, signUp_payload_volunteers.
    unfold Firestore.arrayUnion. cbn [default from_option id].
    rewrite bool_decide_eq_true_2 by done. by apply (Hcap oid).
  - apply signUp_payload_within; [done|].
    unfold same_others in Hothers.
    rewrite !filter_others_absent in Hothers by done. rewrite <- Hothers. lia.
Qed.

Lemma resume_agrees u db0 db w opportunities :
  own u w →
  Forall (λ c : OppCard,
            agrees_with u db c.1 (Opportunity.spots c.2)
              (Opportunity.volunteers c.2)) opportunities →
  Forall (λ c : OppCard,
            agrees_with u db c.1 (Opportunity.spots c.2)
              (Opportunity.volunteers c.2)) (resume db0 w opportunities).
Proof.
  intros Hown Hall. destruct w as [v id sp l | v id]; cbn [own resume] in *;
    subst v.
  - unfold handleSignUp. cbv zeta.
    case_bool_decide; [done|]. case_bool_decide; [done|].
    destruct (Firestore.updateDoc _ _ _); [done|]. cbn [fst snd].
    apply Forall_fmap. eapply Forall_impl; [exact Hall|].
    intros [id0 o] Hag. unfold compose, signUp_local. cbn [fst snd] in *.
    case_bool_decide; [|done]. cbn [fst snd]. intros d Hd.
    destruct (Hag d Hd) as [Hsp Hl]. split; [done|].
    unfold same_others in *. cbn. rewrite <- Hl.
    rewrite filter_app, filter_cons_False, filter_nil, app_nil_r; [done|].
    by intros Hne; apply Hne.
  - unfold handleCancelSignUp.
    destruct (Firestore.updateDoc _ _ _); [done|]. cbn [fst snd].
    apply Forall_fmap. eapply Forall_impl; [exact Hall|].
    intros [id0 o] Hag. unfold compose, cancel_local. cbn [fst snd] in *.
    case_bool_decide; [|done]. cbn [fst snd]. intros d Hd.
    destruct (Hag d Hd) as [Hsp Hl]. split; [done|].
    unfold same_others in *. cbn. rewrite <- Hl. apply filter_others_idemp.
Qed.

Lemma fetchOpportunities_agrees u db :
  Forall (λ c : OppCard,
            agrees_with u db c.1 (Opportunity.spots c.2)
              (Opportunity.volunteers c.2)) (fetchOpportunities db).
Proof.
  apply Forall_forall. intros [id o] Hin. unfold fetchOpportunities in Hin.
  apply list_elem_of_filter in Hin as [_ Hin].
  apply elem_of_query in Hin as [Hd _]. cbn [fst snd] in *.
  intros d Hd'. rewrite Hd in Hd'. by injection Hd' as <-.
Qed.

Lemma press_consistent u s w :
  consistent u s → write_agrees u (store s) w → consistent u (press s w).
Proof.
  intros (Hshown & Hsent & Hlanded) Hw. split; [done|]. split; [|done].
  cbn [press sent store]. apply Forall_app. split; [done|].
  by apply Forall_singleton.
Qed.

(** What is shown and what is under way keeps agreeing with the store, and
    the store keeps the bound, at every step. *)
Lemma act_consistent u s a :
  consistent u s → capacity_respected (store s) →
  consistent u (act u s a) ∧ capacity_respected (store (act u s a)).
Proof.
  intros Hcons Hcap. pose proof Hcons as (Hshown & Hsent & Hlanded).
  destruct a as [id|id| | |]; cbn [act].
  - destruct (card (shown s) id) as [o|] eqn:Hcard; [|done].
    destruct (isUserSignedUp (Some u) o); [done|].
    destruct (signUp_disabled (Some u) o); [done|].
    split; [|done]. apply press_consistent; [done|]. split; [done|].
    apply card_elem_of in Hcard. rewrite Forall_forall in Hshown.
    apply (Hshown _ Hcard).
  - destruct (card (shown s) id) as [o|] eqn:Hcard; [|done].
    destruct (isUserSignedUp (Some u) o); [|done].
    split; [|done]. by apply press_consistent.
  - destruct (sent s) as [|[w mounted] rest] eqn:Hs; [done|].
    apply Forall_cons in Hsent as [Hw Hrest]. cbn [fst] in Hw.
    cbn [store]. split; [|by apply (write_capacity u)].
    destruct Hw as [Hown Hw]. split; [|split]; cbn [shown sent landed store].
    + eapply Forall_impl; [exact Hshown|].
      intros c Hc. by apply write_agrees_with.
    + eapply Forall_impl; [exact Hrest|].
      intros [w' m'] [Hown' Hw']. cbn [fst] in *. split; [done|].
      destruct w' as [v id sp l | v id]; [|done]. by apply write_agrees_with.
    + destruct mounted; [|done]. apply Forall_app. split; [done|].
      by apply Forall_singleton.
  - destruct (landed s) as [|[w db0] rest] eqn:Hl; [done|].
    apply Forall_cons in Hlanded as [Hown Hrest]. cbn [fst] in Hown.
    split; [|done]. split; [|split]; cbn [shown sent landed store]; [|done..].
    by apply resume_agrees.
  - split; [|done]. split; [|split]; cbn [shown sent landed store].
    + apply fetchOpportunities_agrees.
    + apply Forall_fmap. eapply Forall_impl; [exact Hsent|]. by intros [w m].
    + constructor.
Qed.

(** X2: with a single volunteer on the store, nothing that volunteer does
    on the page takes a stored opportunity beyond its [spots]: not clicks
    made twice or made while earlier calls are still under way, and not
    reloads.  The cards need not show what is stored for this. *)
Theorem single_volunteer_keeps_capacity u db actions :
  capacity_respected db →
  capacity_respected (store (session u db actions)).
Proof.
  intros Hcap. unfold session.
  assert (Hstart : consistent u (arrive db)).
  { split; [apply fetchOpportunities_agrees|]. split; constructor. }
  assert (Hgen : ∀ s, consistent u s → capacity_respected (store s) →
                      capacity_respected (store (foldl (act u) s actions))).
  { induction actions as [|a actions IH]; intros s Hs Hc; [done|].
    cbn [foldl]. destruct (act_consistent u s a Hs Hc). by apply IH. }
  by apply Hgen.
Qed.

Lemma single_volunteer_witness :
  capacity_respected
    (store (session Sample.alice (db Sample.one_seat) Example.alice_twice)).
Proof.
  apply single_volunteer_keeps_capacity.
  apply (bool_decide_unpack _). vm_compute. exact I.
Defined.

End SingleVolunteer.

(** ** The volunteer page: signing up and cancelling again *)

Section RoundTrip.
Import Volunteer.

Lemma card_fmap (f : OppCard → OppCard) opportunities opportunityId :
  (∀ kv, (f kv).1 = kv.1) →
  card (f <$> opportunities) opportunityId
  = (λ o, (f (opportunityId, o)).2) <$> card opportunities opportunityId.
Proof.
  intros Hf. unfold card.
  induction opportunities as [|[id o] l IH]; [done|].
  rewrite fmap_cons. destruct (decide (id = opportunityId)) as [->|Hne].
  - rewrite !filter_cons_True; [done|done|by rewrite Hf].
  - rewrite !filter_cons_False; [done|done|by rewrite Hf].
Qed.

Lemma signUp_local_id u st opportunityId kv :
  (signUp_local u st opportunityId kv).1 = kv.1.
Proof. unfold signUp_local. by case_bool_decide. Qed.

Lemma filter_out_appended (u : string) (l : list string) :
  u ∉ l → filter (λ y, y ≠ u) (l ++ [u]) = l.
Proof.
  intros Hu. rewrite filter_app, filter_cons_False, filter_nil, app_nil_r
    by (intros H; by apply H).
  induction l as [|y l IH]; [done|].
  apply not_elem_of_cons in Hu as [Hne Hl].
  rewrite filter_cons_True by done. by rewrite IH.
Qed.

(** X3: a volunteer who signs up from an up-to-date card and then cancels
    leaves the store as it was: the opportunity has its former sign-ups,
    status and every other field (an absent [signedUpVolunteers] field
    having become the empty array), and no other document is touched. *)
Theorem signUp_then_cancel_restores w u opportunityId opportunity :
  synced w u →
  card (page w u) opportunityId = Some opportunity →
  isUserSignedUp (Some u) opportunity = false →
  signUp_disabled (Some u) opportunity = false →
  db (run w [ClickSignUp u opportunityId; ClickCancel u opportunityId])
  = <[opportunityId :=
       Opportunity.set_signedUpVolunteers
         (Some (Opportunity.volunteers opportunity)) opportunity]> (db w).
Proof.
  intros Hs Hc Hsigned Hdis.
  assert (Hopp : db w !! opportunityId = Some opportunity)
    by (by apply Hs, card_elem_of).
  unfold run. cbn [foldl]. unfold step at 2. rewrite Hc, Hsigned, Hdis.
  apply bool_decide_eq_false in Hsigned.
  apply orb_false_iff in Hdis as [Hdis _].
  apply orb_false_iff in Hdis as [Hfull Hopen].
  apply bool_decide_eq_false in Hfull.
  apply negb_false_iff, bool_decide_eq_true in Hopen.
  unfold handleSignUp. fold (Opportunity.volunteers opportunity).
  rewrite !bool_decide_eq_false_2 by done.
  rewrite (updateDoc_Some _ _ _ _ Hopp). cbn [fst snd].
  set (st := signUp_status _ _).
  unfold step, page. cbn [db pages]. rewrite lookup_insert_eq.
  cbn [default from_option id]. fold (page w u).
  rewrite (card_fmap _ _ _ (signUp_local_id _ _ _)), Hc. cbn [fmap option_fmap option_map].
  rewrite signUp_local_payload by done. cbn [snd].
  assert (Hin : isUserSignedUp (Some u) (signUp_payload (uid u) st opportunity) = true).
  { apply bool_decide_eq_true. unfold Opportunity.volunteers.
    rewrite signUp_payload_volunteers, arrayUnion_fresh by done.
    cbn [default]. set_solver. }
  rewrite Hin. unfold handleCancelSignUp.
  rewrite (updateDoc_Some _ _ _ (signUp_payload (uid u) st opportunity))
    by apply lookup_insert_eq.
  cbn [fst snd db]. rewrite insert_insert_eq. f_equal.
  unfold cancel_payload. rewrite signUp_payload_volunteers.
  rewrite arrayUnion_fresh by done. unfold Firestore.arrayRemove.
  cbn [default from_option id]. fold (Opportunity.volunteers opportunity).
  rewrite filter_out_appended by done.
  unfold signUp_payload. destruct opportunity; cbn in *. subst.
  by destruct st.
Qed.

Lemma signUp_then_cancel_witness :
  db (run (step Sample.one_seat (Load Sample.alice))
        [ClickSignUp Sample.alice "o1"; ClickCancel Sample.alice "o1"])
  = <["o1" := Opportunity.set_signedUpVolunteers (Some []) Sample.cleanup]>
      (db (step Sample.one_seat (Load Sample.alice))).
Proof.
  apply (signUp_then_cancel_restores (step Sample.one_seat (Load Sample.alice))
           Sample.alice "o1" Sample.cleanup).
  - apply (bool_decide_unpack _). vm_compute. exact I.
  - vm_compute. reflexivity.
  - reflexivity.
  - reflexivity.
Defined.

End RoundTrip.

(** ** The volunteer page: a donation is claimed once *)

Section ClaimOnce.
Import Volunteer.

Lemma handleClaimFood_available user userProfile now db st donationId notes phone d :
  db !! donationId = Some d →
  FoodDonation.status d = FoodDonation.available →
  handleClaimFood (Some user) userProfile now db st donationId notes phone
  = (<[donationId := claim_payload user userProfile now notes phone d]> db,
     mkClaimState
       (filter (λ c : DonationCard, c.1 ≠ donationId) (foodDonations st))
       None "" "",
     toast_d "Donation Claimed!" "Please arrange pickup as per instructions.").
Proof.
  intros Hd Hav. unfold handleClaimFood, claim_attempt, Firestore.getDoc.
  rewrite Hd, bool_decide_eq_true_2 by done.
  by rewrite (updateDoc_Some _ _ _ _ Hd).
Qed.

(** X4: of two claims made one after the other on an available donation
    the first succeeds and the second fails with "Claim Failed" and writes
    nothing: the donation stays claimed by the first volunteer, with the
    first volunteer's notes and phone number. *)
Theorem second_claim_fails
    first second profile1 profile2 now1 now2 db st1 st2 donationId
    notes1 phone1 notes2 phone2 d :
  db !! donationId = Some d →
  FoodDonation.status d = FoodDonation.available →
  let r1 := handleClaimFood (Some first) profile1 now1 db st1 donationId
              notes1 phone1 in
  let r2 := handleClaimFood (Some second) profile2 now2 r1.1.1 st2 donationId
              notes2 phone2 in
  r1.2 = toast_d "Donation Claimed!" "Please arrange pickup as per instructions."
  ∧ r2.2 = toast_d "Claim Failed"
             "This donation is no longer available or does not exist."
  ∧ r2.1.1 = r1.1.1
  ∧ FoodDonation.claimedByVolunteerId <$> r2.1.1 !! donationId
    = Some (Some (uid first))
  ∧ FoodDonation.volunteerPickupNotes <$> r2.1.1 !! donationId
    = Some (Some notes1)
  ∧ FoodDonation.volunteerPhoneNumber <$> r2.1.1 !! donationId
    = Some (Some phone1).
Proof.
  intros Hd Hav r1 r2. subst r1 r2.
  rewrite (handleClaimFood_available _ _ _ _ _ _ _ _ d) by done. cbn [fst snd].
  unfold handleClaimFood at 1 2 3 4 5.
  rewrite claim_attempt_not_available.
  - cbn [fst snd]. rewrite lookup_insert_eq. by repeat split.
  - right. eexists. split; [apply lookup_insert_eq|]. discriminate.
Qed.

Lemma second_claim_witness :
  let r1 := handleClaimFood (Some Sample.alice) None 300 Sample.listed_donations
              Sample.dialog "d1" "at 6pm" "555-0199" in
  let r2 := handleClaimFood (Some Sample.bob) None 310 r1.1.1
              Sample.dialog "d1" "at 7pm" "555-0123" in
  r1.2 = toast_d "Donation Claimed!" "Please arrange pickup as per instructions."
  ∧ r2.2 = toast_d "Claim Failed"
             "This donation is no longer available or does not exist."
  ∧ r2.1.1 = r1.1.1
  ∧ FoodDonation.claimedByVolunteerId <$> r2.1.1 !! "d1" = Some (Some "alice")
  ∧ FoodDonation.volunteerPickupNotes <$> r2.1.1 !! "d1" = Some (Some "at 6pm")
  ∧ FoodDonation.volunteerPhoneNumber <$> r2.1.1 !! "d1" = Some (Some "555-0199").
Proof.
  apply (second_claim_fails Sample.alice Sample.bob None None 300 310
           Sample.listed_donations Sample.dialog Sample.dialog "d1"
           "at 6pm" "555-0199" "at 7pm" "555-0123" Sample.soup).
  - reflexivity.
  - reflexivity.
Defined.

(** X5: once a donation is claimed it is on no volunteer's list any more:
    the claimant's own list drops it at once, and no later load of the
    available donations returns it. *)
Theorem claimed_donation_not_offered
    user userProfile now db st donationId notes phone d :
  db !! donationId = Some d →
  FoodDonation.status d = FoodDonation.available →
  let r := handleClaimFood (Some user) userProfile now db st donationId notes phone in
  (donationId ∉ (foodDonations r.1.2).*1)
  ∧ (donationId ∉ (fetchFoodDonations r.1.1).*1).
Proof.
  intros Hd Hav r. subst r.
  rewrite (handleClaimFood_available _ _ _ _ _ _ _ _ d) by done.
  cbn [fst snd foodDonations]. split.
  - intros Hin. apply list_elem_of_fmap in Hin as ([id c] & -> & Hin).
    by apply list_elem_of_filter in Hin as [Hne _].
  - intros Hin. apply list_elem_of_fmap in Hin as ([id c] & -> & Hin).
    unfold fetchFoodDonations in Hin.
    apply elem_of_query in Hin as [Hl Hst]. cbn [fst] in Hl.
    rewrite lookup_insert_eq in Hl. injection Hl as <-.
    by apply bool_decide_eq_true in Hst.
Qed.

Lemma claimed_donation_witness :
  let r := handleClaimFood (Some Sample.alice) None 300 Sample.listed_donations
             Sample.dialog "d1" "at 6pm" "555-0199" in
  ("d1" ∉ (foodDonations r.1.2).*1) ∧ ("d1" ∉ (fetchFoodDonations r.1.1).*1).
Proof.
  apply (claimed_donation_not_offered Sample.alice None 300
           Sample.listed_donations Sample.dialog "d1" "at 6pm" "555-0199"
           Sample.soup).
  - reflexivity.
  - reflexivity.
Defined.

Lemma write_keeps_full db w opportunityId :
  cancels opportunityId w = false →
  Opportunity.status <$> db !! opportunityId = Some Opportunity.full →
  Opportunity.status <$> write db w !! opportunityId = Some Opportunity.full.
Proof.
  intros Hw Hfull. destruct w as [u id spots l | u id]; cbn [write cancels] in *.
  - unfold handleSignUp. cbv zeta.
    case_bool_decide; [done|]. case_bool_decide; [done|].
    unfold Firestore.updateDoc. destruct (db !! id) as [d|] eqn:Hd; [|done].
    cbn [fst]. destruct (decide (id = opportunityId)) as [->|Hne].
    + rewrite lookup_insert_eq. rewrite Hd in Hfull. cbn in *.
      injection Hfull as Hfull. rewrite signUp_payload_status, Hfull.
      unfold signUp_status. by case_bool_decide.
    + by rewrite lookup_insert_ne.
  - apply bool_decide_eq_false in Hw. unfold handleCancelSignUp.
    unfold Firestore.updateDoc. destruct (db !! id) as [d|] eqn:Hd; [|done].
    cbn [fst]. by rewrite lookup_insert_ne.
Qed.

Lemma writes_keep_full db ws opportunityId :
  Forall (λ w, cancels opportunityId w = false) ws →
  Opportunity.status <$> db !! opportunityId = Some Opportunity.full →
  Opportunity.status <$> writes db ws !! opportunityId = Some Opportunity.full.
Proof.
  intros Hws. revert db. induction Hws as [|w ws Hw _ IH]; intros db Hfull;
    [done|].
  cbn [writes foldl]. apply IH. by apply write_keeps_full.
Qed.

(** X6: a sign-up made from a card with one seat left marks the stored
    opportunity [full].  From then on, whatever sign-ups the store receives
    and whatever is cancelled on other opportunities, the opportunity stays
    full and no load of the open opportunities returns it, until a sign-up
    for it is cancelled. *)
Theorem last_seat_closes_opportunity
    user db opportunities opportunityId currentSpots card_volunteers d later :
  db !! opportunityId = Some d →
  uid user ∉ default [] card_volunteers →
  (Z.of_nat (length (default [] card_volunteers)) + 1 = currentSpots)%Z →
  Forall (λ w, cancels opportunityId w = false) later →
  let r := handleSignUp (Some user) db opportunities opportunityId currentSpots
             card_volunteers in
  Opportunity.status <$> writes r.1.1 later !! opportunityId
  = Some Opportunity.full
  ∧ (opportunityId ∉ (fetchOpportunities (writes r.1.1 later)).*1).
Proof.
  intros Hd Hu Hlast Hlater r. subst r. unfold handleSignUp.
  rewrite bool_decide_eq_false_2 by done.
  rewrite bool_decide_eq_false_2 by lia.
  rewrite (updateDoc_Some _ _ _ _ Hd). cbn [fst snd].
  assert (Hfull : Opportunity.status
                    (signUp_payload (uid user)
                       (signUp_status (default [] card_volunteers) currentSpots) d)
                  = Opportunity.full).
  { rewrite signUp_payload_status. unfold signUp_status.
    by rewrite bool_decide_eq_true_2 by lia. }
  set (db' := <[opportunityId := _]> db).
  assert (Hstays : Opportunity.status <$> writes db' later !! opportunityId
                   = Some Opportunity.full).
  { apply writes_keep_full; [done|].
    subst db'. by rewrite lookup_insert_eq; cbn; rewrite Hfull. }
  split; [done|].
  intros Hin. apply list_elem_of_fmap in Hin as ([id c] & -> & Hin).
  unfold fetchOpportunities in Hin.
  apply list_elem_of_filter in Hin as [_ Hin].
  apply elem_of_query in Hin as [Hl Hst]. cbn [fst snd] in *.
  rewrite Hl in Hstays. cbn in Hstays. injection Hstays as Hstays.
  apply bool_decide_eq_true in Hst. cbn [snd] in Hst. congruence.
Qed.

Lemma last_seat_witness :
  let r := handleSignUp (Some Sample.alice) (db Sample.one_seat)
             [Sample.free_card] "o1" 1 None in
  let later := [SignUp Sample.bob "o1" 1 None; CancelSignUp Sample.bob "o2";
                SignUp Sample.alice "o1" 3 (Some ["carol"])] in
  Opportunity.status <$> writes r.1.1 later !! "o1" = Some Opportunity.full
  ∧ ("o1" ∉ (fetchOpportunities (writes r.1.1 later)).*1).
Proof.
  apply (last_seat_closes_opportunity Sample.alice (db Sample.one_seat)
           [Sample.free_card] "o1" 1 None Sample.cleanup).
  - reflexivity.
  - simpl. apply not_elem_of_nil.
  - reflexivity.
  - apply (bool_decide_unpack _). by vm_compute.
Defined.

End ClaimOnce.

(** ** The issue feed: status updates *)

Section IssueStatus.
Import NgoIssuesView.







Lemma query_NoDup_ids {D} (db : gmap string D) P key n :
  NoDup (Firestore.query db P key n).*1.
Proof.
  unfold Firestore.query.
  eapply sublist_NoDup; [|apply fmap_sublist, sublist_take].
  rewrite merge_sort_Permutation.
  eapply sublist_NoDup; [|apply fmap_sublist, sublist_filter].
  apply NoDup_fst_map_to_list.
Qed.

Lemma NoDup_ids_unique {D} (l : list (string * D)) id x y :
  NoDup l.*1 → (id, x) ∈ l → (id, y) ∈ l → x = y.
Proof.
  induction l as [|[id0 z] l IH]; [by intros _ ?%elem_of_nil|].
  rewrite fmap_cons. intros [Hnotin Hnd]%NoDup_cons Hx Hy.
  apply elem_of_cons in Hx as [Hx|Hx], Hy as [Hy|Hy]; simplify_eq; try done.
  - exfalso. apply Hnotin. apply list_elem_of_fmap. by exists (id0, y).
  - exfalso. apply Hnotin. apply list_elem_of_fmap. by exists (id0, x).
  - by apply IH.
Qed.

Lemma fetchData_NoDup_ids ngoId ngo_profiles issues_db :
  NoDup (issues (fetchData ngoId ngo_profiles issues_db mount)).*1.
Proof.
  unfold fetchData, Firestore.getDoc.
  case_bool_decide; [apply NoDup_nil_2|].
  destruct (ngo_profiles !! ngoId) as [p|]; [|apply NoDup_nil_2].
  case_bool_decide; [apply NoDup_nil_2|]. cbn [issues]. unfold fetchedIssues.
  eapply sublist_NoDup; [|apply fmap_sublist, sublist_filter].
  apply query_NoDup_ids.
Qed.

Lemma update_local_id issueId n c : (update_local issueId n c).1 = c.1.
Proof. unfold update_local. by case_bool_decide. Qed.

Lemma button_shown_progress n i :
  button_shown n i = true →
  progress (Issue.status i) ≤ progress (new_status n).
Proof.
  unfold button_shown. destruct n, (Issue.status i); cbn; intros H;
    first [lia | discriminate].
Qed.

Lemma not_behind_refl (l : list IssueCard) : Forall2 not_behind l l.
Proof.
  apply Forall2_same_length_lookup. split; [done|].
  intros i x y Hx Hy. rewrite Hx in Hy. injection Hy as <-. by split.
Qed.

Lemma handleUpdateStatus_ids ngoId now db l issueId n :
  ((handleUpdateStatus ngoId now db l issueId n).1.2).*1 = l.*1.
Proof.
  unfold handleUpdateStatus. case_bool_decide; [done|].
  destruct (Firestore.updateDoc _ _ _); [done|]. cbn [fst snd].
  rewrite <- list_fmap_compose. apply list_fmap_ext.
  intros i c' _. apply update_local_id.
Qed.

(** A call that resumes moves its card to the status it was made for. *)
Lemma handleUpdateStatus_not_behind ngoId now db l issueId n :
  (∀ card : IssueCard, card ∈ l → card.1 = issueId →
                       progress (Issue.status card.2) ≤ progress (new_status n)) →
  Forall2 not_behind l (handleUpdateStatus ngoId now db l issueId n).1.2.
Proof.
  intros Hfwd. unfold handleUpdateStatus.
  case_bool_decide; [apply not_behind_refl|].
  destruct (Firestore.updateDoc _ _ _); [apply not_behind_refl|]. cbn [fst snd].
  apply Forall2_fmap_r, Forall2_same_length_lookup. split; [done|].
  intros i x y Hx Hy. rewrite Hx in Hy. injection Hy as <-.
  unfold compose, not_behind, update_local. case_bool_decide as Heq; [|by split].
  cbn [fst snd]. split; [done|].
  apply Hfwd; [by apply list_elem_of_lookup_2 in Hx|done].
Qed.

Lemma act_not_behind ngoId v a :
  orderly v →
  Forall2 not_behind (issues (state v)) (issues (state (act ngoId v a))).
Proof.
  intros (Hnd & Hlen & Hfwd). destruct a as [k n|now|]; cbn [act].
  - destruct (listed (state v) !! k) as [c|]; [|apply not_behind_refl].
    destruct (_ && _); apply not_behind_refl.
  - destruct (sent v) as [|[id n] rest]; apply not_behind_refl.
  - destruct (landed v) as [|[w db] rest] eqn:Hl; [apply not_behind_refl|].
    cbn [state issues]. apply handleUpdateStatus_not_behind.
    unfold under_way in Hfwd. rewrite Hl, fmap_cons in Hfwd.
    apply Forall_cons in Hfwd as [Hfwd _]. exact Hfwd.
Qed.

Lemma act_orderly ngoId v a :
  orderly v →
  match a with Press _ _ => quiet v | _ => True end →
  orderly (act ngoId v a).
Proof.
  intros (Hnd & Hlen & Hfwd) Hquiet. destruct a as [k n|now|]; cbn [act].
  - destruct (listed (state v) !! k) as [c|] eqn:Hk; [|done].
    destruct (button_shown n c.2) eqn:Hb; [|done].
    destruct (_ && _); [|done]. destruct Hquiet as [Hs Hl].
    apply nil_length_inv in Hs, Hl.
    split; [done|]. unfold under_way. cbn [landed sent state].
    rewrite Hs, Hl. cbn. split; [lia|].
    apply Forall_singleton. intros card Hin Hid. cbn [fst snd] in *.
    assert (Hc : c ∈ issues (state v)).
    { apply list_elem_of_lookup_2 in Hk. unfold listed in Hk.
      destruct (_ && _); [done|by apply elem_of_nil in Hk]. }
    destruct card as [id ix], c as [idc ic]. cbn [fst snd] in *. subst idc.
    rewrite (NoDup_ids_unique (issues (state v)) id ix ic) by done.
    by apply button_shown_progress.
  - destruct (sent v) as [|[id n] rest] eqn:Hs; [done|].
    unfold under_way in *. rewrite Hs in Hlen, Hfwd.
    rewrite length_app, length_fmap in Hlen. cbn in Hlen.
    destruct rest; [|cbn in Hlen; lia].
    destruct (landed v) as [|? ?] eqn:Hl; [|cbn in Hlen; lia].
    split; [done|]. unfold under_way.
    cbn [landed sent state app fmap list_fmap length fst update_issueId
         update_newStatus] in Hfwd |- *.
    split; [lia|]. exact Hfwd.
  - destruct (landed v) as [|[w db] rest] eqn:Hl; [done|].
    unfold under_way in *. rewrite Hl in Hlen, Hfwd.
    rewrite length_app, length_fmap in Hlen. cbn in Hlen.
    destruct rest; [|cbn in Hlen; lia].
    destruct (sent v) as [|? ?] eqn:Hs; [|cbn in Hlen; lia].
    split; [|by unfold under_way; cbn; split; [lia|constructor]].
    cbn [state issues]. by rewrite handleUpdateStatus_ids.
Qed.

Lemma unhurried_snoc ngoId v actions a :
  unhurried ngoId v (actions ++ [a]) →
  unhurried ngoId v actions
  ∧ match a with Press _ _ => quiet (view ngoId v actions) | _ => True end.
Proof.
  revert v. induction actions as [|b actions IH]; intros v.
  - cbn. intros [H _]. by split.
  - cbn [app unhurried view foldl]. intros [Hb Hrest].
    destruct (IH _ Hrest) as [H1 H2]. by repeat split.
Qed.

Lemma view_orderly ngoId v actions :
  orderly v → unhurried ngoId v actions → orderly (view ngoId v actions).
Proof.
  revert v. induction actions as [|a actions IH]; intros v Hv Hun; [done|].
  destruct Hun as [Ha Hrest]. cbn [view foldl]. apply IH; [|done].
  by apply act_orderly.
Qed.

(** X8: in one component, as long as every button is clicked while no
    earlier call is under way, no step takes a card back: the cards stay the
    same cards in the same order, and the status a card shows goes from
    pending to in progress to resolved only. *)
Theorem shown_status_never_goes_back ngoId ngo_profiles issues_db actions a :
  unhurried ngoId (opened ngoId ngo_profiles issues_db) (actions ++ [a]) →
  let before := view ngoId (opened ngoId ngo_profiles issues_db) actions in
  Forall2 not_behind (issues (state before))
    (issues (state (act ngoId before a))).
Proof.
  intros Hun before. apply act_not_behind. subst before.
  apply unhurried_snoc in Hun as [Hun _].
  apply view_orderly; [|done].
  split; [apply fetchData_NoDup_ids|]. split; [cbn; lia|constructor].
Qed.

Lemma shown_status_witness :
  let before := view "ngo-school"
                  (opened "ngo-school" Sample.ngo_profiles Example.two_issues)
                  Example.one_at_a_time in
  Forall2 not_behind (issues (state before))
    (issues (state (act "ngo-school" before Resume))).
Proof.
  apply (shown_status_never_goes_back "ngo-school" Sample.ngo_profiles
           Example.two_issues Example.one_at_a_time Resume).
  apply (bool_decide_unpack _). vm_compute. exact I.
Defined.

(** Without that, a card can go back: the reviewer confirms "Mark Resolved"
    on one card, clicks on another card, which enables the buttons of the
    former again, and clicks "Start Progress" on the former, still shown as
    pending.  That card becomes resolved, then in progress, in the store as
    on the page. *)
Lemma hurried_status_goes_back :
  let v0 := opened "ngo-school" Sample.ngo_profiles Example.two_issues in
  let resolved_shown := view "ngo-school" v0 Example.in_a_hurry in
  let at_the_end := view "ngo-school" resolved_shown [Resume; Resume] in
  (Issue.status ∘ snd) <$> issues (state resolved_shown)
  = [Issue.pending; Issue.resolved]
  ∧ (Issue.status ∘ snd) <$> issues (state at_the_end)
    = [Issue.in_progress; Issue.in_progress]
  ∧ Issue.status <$> stored at_the_end !! "i1" = Some Issue.in_progress.
Proof. cbv zeta. by vm_compute. Qed.

End IssueStatus.

(** ** The dashboard: the tabs of a restaurant *)

Section Tabs.
Import Dashboard.

Lemma tabs_partition myDonations :
  availableDonations myDonations ++ claimedDonations myDonations
    ++ unavailableDonations myDonations ≡ₚ myDonations.
Proof.
  unfold availableDonations, claimedDonations, unavailableDonations.
  induction myDonations as [|[id d] l IH]; [done|].
  destruct (FoodDonation.status d) eqn:Hst.
  - rewrite filter_cons_True by done.
    rewrite !filter_cons_False by (cbn; congruence).
    cbn [app]. by apply Permutation_skip.
  - rewrite (filter_cons_True (λ c : DonationCard,
               FoodDonation.status c.2 = FoodDonation.claimed)) by done.
    rewrite !filter_cons_False by (cbn; congruence).
    cbn [app]. rewrite <- Permutation_middle. by apply Permutation_skip.
  - rewrite (filter_cons_True (λ c : DonationCard,
               FoodDonation.status c.2 = FoodDonation.unavailable)) by done.
    rewrite !filter_cons_False by (cbn; congruence).
    rewrite app_assoc, <- Permutation_middle, <- app_assoc.
    by apply Permutation_skip.
Qed.

(** X9: the three tabs of the dashboard split the restaurant's donations:
    every loaded donation is on exactly one of them.  A successful "Mark as
    Unavailable" moves the card: afterwards no card with that id is on the
    Available or the Claimed tab, each is on the Unavailable tab, and each
    other card is on the tab it was on. *)
Theorem mark_unavailable_moves_card db myDonations donationId d :
  db !! donationId = Some d →
  let after := (markDonationUnavailable db myDonations donationId).1.2 in
  availableDonations after ++ claimedDonations after ++ unavailableDonations after
    ≡ₚ after
  ∧ (donationId ∉ (availableDonations after).*1)
  ∧ (donationId ∉ (claimedDonations after).*1)
  ∧ (∀ c, c ∈ myDonations → c.1 = donationId →
          (c.1, FoodDonation.set_status FoodDonation.unavailable c.2)
            ∈ unavailableDonations after)
  ∧ (∀ c, c.1 ≠ donationId →
          (c ∈ availableDonations after ↔ c ∈ availableDonations myDonations)
          ∧ (c ∈ claimedDonations after ↔ c ∈ claimedDonations myDonations)
          ∧ (c ∈ unavailableDonations after ↔ c ∈ unavailableDonations myDonations)).
Proof.
  intros Hd after. subst after. unfold markDonationUnavailable.
  rewrite (updateDoc_Some _ _ _ _ Hd). cbn [fst snd].
  assert (Hmoved : ∀ c, c ∈ unavailable_local donationId <$> myDonations →
                        c.1 = donationId →
                        FoodDonation.status c.2 = FoodDonation.unavailable).
  { intros c Hin Hid. apply list_elem_of_fmap in Hin as (c0 & -> & Hin).
    unfold unavailable_local in *. by case_bool_decide. }
  assert (Hkept : ∀ c, c.1 ≠ donationId →
                       (c ∈ unavailable_local donationId <$> myDonations
                        ↔ c ∈ myDonations)).
  { intros c Hne. rewrite list_elem_of_fmap. split.
    - intros (c0 & -> & Hin). unfold unavailable_local in *.
      by case_bool_decide.
    - intros Hin. exists c. split; [|done]. unfold unavailable_local.
      by rewrite bool_decide_eq_false_2. }
  split; [apply tabs_partition|]. split; [|split; [|split]].
  - intros Hin. apply list_elem_of_fmap in Hin as (c & -> & Hin).
    apply list_elem_of_filter in Hin as [Hst Hin].
    rewrite (Hmoved c Hin eq_refl) in Hst. discriminate.
  - intros Hin. apply list_elem_of_fmap in Hin as (c & -> & Hin).
    apply list_elem_of_filter in Hin as [Hst Hin].
    rewrite (Hmoved c Hin eq_refl) in Hst. discriminate.
  - intros c Hin Hid. apply list_elem_of_filter. split; [done|].
    apply list_elem_of_fmap. exists c. split; [|done].
    unfold unavailable_local. by rewrite bool_decide_eq_true_2.
  - intros c Hne. unfold availableDonations, claimedDonations, unavailableDonations.
    rewrite !list_elem_of_filter, (Hkept c Hne). tauto.
Qed.

Lemma mark_unavailable_witness :
  let after := (markDonationUnavailable Sample.listed_donations
                  [("d1", Sample.soup)] "d1").1.2 in
  ("d1" ∉ (availableDonations after).*1)
  ∧ ("d1", FoodDonation.set_status FoodDonation.unavailable Sample.soup)
      ∈ unavailableDonations after.
Proof.
  destruct (mark_unavailable_moves_card Sample.listed_donations
              [("d1", Sample.soup)] "d1" Sample.soup)
    as (_ & Hnot & _ & Hin & _); [reflexivity|].
  split; [exact Hnot|].
  apply (Hin ("d1", Sample.soup)); [apply list_elem_of_here|reflexivity].
Defined.

End Tabs.

(** ** The leaderboards *)

Section Leaderboards.
Import Leaderboard.

Lemma restaurantCounts_snoc snapshot doc :
  restaurantCounts (snapshot ++ [doc])
  = count_donation (restaurantCounts snapshot) doc.
Proof. unfold restaurantCounts. by rewrite foldl_app. Qed.

(** The aggregated count of a restaurant is the number of its documents in
    the snapshot; restaurants without a document, and the empty id, have no
    entry. *)
Lemma restaurantCounts_lookup snapshot id :
  restaurantCounts snapshot !! id
  = let n := length (filter (λ kv : string * FoodDonation.t,
                               FoodDonation.restaurantId kv.2 = id) snapshot) in
    if bool_decide (id = "" ∨ n = 0) then None else Some n.
Proof.
  cbv zeta. induction snapshot as [|[k d] l IH] using rev_ind.
  { rewrite filter_nil. cbn [length].
    rewrite bool_decide_eq_true_2 by (by right). apply lookup_empty. }
  rewrite restaurantCounts_snoc, filter_app, length_app.
  unfold count_donation. cbn [snd Js.truthy].
  destruct (decide (FoodDonation.restaurantId d = "")) as [Hempty|Hrid].
  - rewrite Hempty, (bool_decide_eq_true_2 ("" = "")) by done. cbn [negb].
    rewrite IH. destruct (decide (id = "")) as [->|Hid].
    + by rewrite !bool_decide_eq_true_2 by by left.
    + rewrite filter_cons_False, filter_nil by (cbn; congruence).
      cbn [length]. by rewrite Nat.add_0_r.
  - rewrite (bool_decide_eq_false_2 (_ = "")) by done. cbn [negb].
    destruct (decide (FoodDonation.restaurantId d = id)) as [<-|Hne].
    + rewrite lookup_insert_eq, IH, filter_cons_True, filter_nil by done.
      cbn [length]. rewrite (bool_decide_eq_false_2 (_ ∨ _ + 1 = 0)) by (intros [?|?]; [done|lia]).
      f_equal. case_bool_decide as Hz; cbn [default from_option id]; [|done].
      destruct Hz as [?|Hz]; [done|by rewrite Hz].
    + rewrite lookup_insert_ne, IH by done.
      rewrite filter_cons_False, filter_nil by (cbn; congruence).
      cbn [length]. by rewrite Nat.add_0_r.
Qed.

Lemma restaurant_name_nonempty users restaurant_profiles id :
  restaurant_name users restaurant_profiles id ≠ "".
Proof.
  unfold restaurant_name, Js.or_lit.
  destruct (Js.truthy (Firestore.getDoc users id ≫= name)) eqn:Hn.
  - destruct (Firestore.getDoc users id ≫= name) as [n|]; [|done].
    cbn in *. apply negb_true_iff, bool_decide_eq_false in Hn. done.
  - destruct (Firestore.getDoc restaurant_profiles id) as [p|]; [|done].
    destruct (Js.truthy (restName p)) eqn:Hr; [|done].
    destruct (restName p) as [n|]; [|done].
    cbn in *. apply negb_true_iff, bool_decide_eq_false in Hr. done.
Qed.

Lemma elem_of_restaurant_entries food_donations users restaurant_profiles e :
  e ∈ merge_sort more_donations
        (restaurant_entry users restaurant_profiles
           <$> map_to_list (restaurantCounts (claimedDonationsQuery food_donations)))
  ↔ r_id e ≠ "" ∧ 0 < donationCount e
    ∧ donationCount e = claimed_count food_donations (r_id e)
    ∧ e = restaurant_entry users restaurant_profiles (r_id e, donationCount e).
Proof.
  rewrite merge_sort_Permutation, list_elem_of_fmap. split.
  - intros ([id n] & -> & Hin). apply elem_of_map_to_list in Hin.
    rewrite restaurantCounts_lookup in Hin. cbv zeta in Hin.
    case_bool_decide as Hz; [done|]. injection Hin as <-.
    cbn [restaurant_entry r_id donationCount fst snd].
    unfold claimed_count. repeat split; [tauto|lia].
  - intros (Hid & Hpos & Hcount & Heq). exists (r_id e, donationCount e).
    split; [done|]. apply elem_of_map_to_list.
    rewrite restaurantCounts_lookup. cbv zeta. fold (claimed_count food_donations (r_id e)).
    rewrite <- Hcount. rewrite bool_decide_eq_false_2; [done|].
    intros [?|?]; [done|lia].
Qed.

#[local] Instance more_donations_total : Total more_donations.
Proof. intros a b. unfold more_donations. lia. Qed.

#[local] Instance more_donations_trans : Transitive more_donations.
Proof. intros a b c. unfold more_donations. lia. Qed.

Lemma StronglySorted_lookup {A} (R : relation A) (l : list A) i j x y :
  StronglySorted R l → l !! i = Some x → l !! j = Some y → i < j → R x y.
Proof.
  intros Hs. revert i j. induction Hs as [|a l Hs IH Hall]; intros i j Hi Hj Hlt.
  - by rewrite lookup_nil in Hi.
  - destruct j as [|j]; [lia|]. destruct i as [|i].
    + injection Hi as <-. rewrite Forall_forall in Hall.
      by apply Hall, (list_elem_of_lookup_2 _ j).
    + apply (IH i j); [done|done|lia].
Qed.

(** X10: on the restaurant board every entry stands for a different
    restaurant, carries a name that is not empty and a count that is the
    number of claimed donations of that restaurant in the store; there are at
    most ten entries, in descending order of count. *)
Theorem restaurant_board_counts food_donations users restaurant_profiles :
  let board := restaurant_board food_donations users restaurant_profiles in
  (∀ e, e ∈ board →
        r_id e ≠ "" ∧ r_name e ≠ ""
        ∧ 0 < donationCount e
        ∧ donationCount e = claimed_count food_donations (r_id e))
  ∧ NoDup (r_id <$> board)
  ∧ StronglySorted more_donations board
  ∧ length board ≤ 10.
Proof.
  cbv zeta. unfold restaurant_board. split; [|split; [|split]].
  - intros e Hin. apply subseteq_take in Hin.
    apply elem_of_restaurant_entries in Hin as (Hid & Hpos & Hcount & Heq).
    repeat split; try done. rewrite Heq. apply restaurant_name_nonempty.
  - eapply sublist_NoDup; [|apply fmap_sublist, sublist_take].
    rewrite merge_sort_Permutation, <- list_fmap_compose.
    apply NoDup_fst_map_to_list.
  - eapply StronglySorted_sublist; [apply sublist_take|].
    apply StronglySorted_merge_sort; apply _.
  - rewrite length_take. lia.
Qed.

(** X11: a restaurant with more claimed donations than one on the board is
    on the board too, above it. *)
Theorem restaurant_board_ranking food_donations users restaurant_profiles id j e :
  id ≠ "" →
  restaurant_board food_donations users restaurant_profiles !! j = Some e →
  donationCount e < claimed_count food_donations id →
  ∃ i e', i < j
    ∧ restaurant_board food_donations users restaurant_profiles !! i = Some e'
    ∧ r_id e' = id
    ∧ donationCount e' = claimed_count food_donations id.
Proof.
  intros Hid Hj Hmore. unfold restaurant_board in *.
  set (L := merge_sort more_donations _) in *.
  apply lookup_take_Some in Hj as [Hj Hj10].
  set (e' := restaurant_entry users restaurant_profiles
               (id, claimed_count food_donations id)).
  assert (Hin : e' ∈ L).
  { apply elem_of_restaurant_entries. subst e'.
    cbn [restaurant_entry r_id donationCount fst snd]. repeat split; [done|lia]. }
  apply list_elem_of_lookup in Hin as [i Hi].
  assert (Hsorted : StronglySorted more_donations L)
    by (apply StronglySorted_merge_sort; apply _).
  destruct (lt_eq_lt_dec i j) as [[Hlt| ->]|Hgt].
  - exists i, e'. repeat split; try done.
    rewrite lookup_take_lt by lia. done.
  - rewrite Hi in Hj. injection Hj as <-.
    subst e'. cbn [restaurant_entry donationCount snd] in Hmore. lia.
  - pose proof (StronglySorted_lookup _ _ _ _ _ _ Hsorted Hj Hi Hgt) as Hr.
    unfold more_donations in Hr. subst e'.
    cbn [restaurant_entry donationCount snd] in Hr. lia.
Qed.

Lemma restaurant_board_ranking_witness :
  ∃ i e', i < 1
    ∧ restaurant_board Example.given Example.accounts ∅ !! i = Some e'
    ∧ r_id e' = "restA"
    ∧ donationCount e' = claimed_count Example.given "restA".
Proof.
  apply (restaurant_board_ranking Example.given Example.accounts ∅ "restA" 1
           (mkRestaurantEntry "restB" "Restaurant (restB...)" 1 None)).
  - discriminate.
  - vm_compute. reflexivity.
  - vm_compute. lia.
Defined.

#[local] Existing Instance newer_total.
#[local] Existing Instance newer_trans.

(** What is cut off by the limit of a query is not above what is kept. *)
Lemma query_top {D} (db : gmap string D) P key n id d :
  db !! id = Some d → P d = true →
  (id, d) ∉ Firestore.query db P key n →
  length (Firestore.query db P key n) = n
  ∧ ∀ c, c ∈ Firestore.query db P key n → (key d ≤ key c.2)%Z.
Proof.
  intros Hd HP Hnot. unfold Firestore.query in *.
  set (L := merge_sort (Firestore.newer key) _) in *.
  assert (Hin : (id, d) ∈ L).
  { subst L. rewrite merge_sort_Permutation. apply list_elem_of_filter.
    split; [done|]. by apply elem_of_map_to_list. }
  assert (Hsorted : StronglySorted (Firestore.newer key) L).
  { subst L. apply StronglySorted_merge_sort; apply _. }
  rewrite <- (take_drop n L) in Hin, Hsorted.
  apply elem_of_app in Hin as [Hin|Hin]; [done|].
  split.
  - apply length_take_le. destruct (decide (n ≤ length L)); [done|].
    rewrite drop_ge in Hin by lia. by apply elem_of_nil in Hin.
  - intros c Hc.
    by apply (StronglySorted_app_1_elem_of _ _ _ _ _ Hsorted Hc Hin).
Qed.

Lemma donor_name_nonempty doc : d_name (donor_entry doc) ≠ "".
Proof.
  unfold donor_entry, Js.or_lit, Js.or. cbn [d_name].
  destruct (Js.truthy (name doc.2)) eqn:Hn.
  - rewrite Hn. destruct (name doc.2) as [n|]; [|done].
    cbn in *. by apply negb_true_iff, bool_decide_eq_false in Hn.
  - destruct (Js.truthy (email doc.2)) eqn:He; [|done].
    destruct (email doc.2) as [n|]; [|done].
    cbn in *. by apply negb_true_iff, bool_decide_eq_false in He.
Qed.

(** X12: the donor board lists at most ten users, each with a positive
    [totalDonated] and a name that is not empty, in descending order of
    [totalDonated]; a user with a positive total who is not on it is
    outdone or equalled by each of ten listed donors. *)
Theorem donor_board_top_ten users :
  let board := donor_board users in
  (∀ e, e ∈ board →
        (0 < d_totalDonated e)%Z ∧ d_name e ≠ ""
        ∧ ∃ doc, users !! d_id e = Some doc
                 ∧ totalDonated doc = Some (d_totalDonated e))
  ∧ StronglySorted (λ a b, (d_totalDonated b ≤ d_totalDonated a)%Z) board
  ∧ length board ≤ 10
  ∧ ∀ id doc t,
      users !! id = Some doc → totalDonated doc = Some t → (0 < t)%Z →
      (∃ e, e ∈ board ∧ d_id e = id ∧ d_totalDonated e = t)
      ∨ (length board = 10 ∧ ∀ e, e ∈ board → (t ≤ d_totalDonated e)%Z).
Proof.
  cbv zeta. unfold donor_board. split; [|split; [|split]].
  - intros e Hin. apply list_elem_of_fmap in Hin as ([id doc] & -> & Hin).
    apply elem_of_query in Hin as [Hl HP]. unfold has_donated in HP.
    cbn [donor_entry d_totalDonated d_id fst snd] in *.
    destruct (totalDonated doc) as [t|] eqn:Ht; [|done].
    apply bool_decide_eq_true in HP.
    split; [done|]. split; [apply donor_name_nonempty|]. by exists doc.
  - pose proof (query_sorted users has_donated
                  (λ d, default 0%Z (totalDonated d)) 10) as Hs.
    induction Hs as [|c l Hs IH Hall]; [constructor|].
    rewrite fmap_cons. constructor; [done|].
    rewrite Forall_fmap. eapply Forall_impl; [exact Hall|]. by intros c'.
  - rewrite length_fmap. apply length_query.
  - intros id doc t Hdoc Ht Hpos.
    assert (HP : has_donated doc = true).
    { unfold has_donated. rewrite Ht. by apply bool_decide_eq_true. }
    destruct (decide (id ∈ (Firestore.query users has_donated
                              (λ d, default 0%Z (totalDonated d)) 10).*1))
      as [Hin|Hnot].
    + left. apply list_elem_of_fmap in Hin as ([id' doc'] & -> & Hin).
      pose proof (elem_of_query _ _ _ _ _ _ Hin) as [Hl _]. cbn [fst] in *.
      rewrite Hdoc in Hl. injection Hl as <-.
      exists (donor_entry (id', doc)). split; [by apply list_elem_of_fmap_2|].
      cbn [donor_entry d_id d_totalDonated fst snd]. by rewrite Ht.
    + right.
      assert (Hnot' : (id, doc) ∉ Firestore.query users has_donated
                                    (λ d, default 0%Z (totalDonated d)) 10).
      { intros Hin. apply Hnot. apply list_elem_of_fmap. by exists (id, doc). }
      destruct (query_top _ _ _ _ _ _ Hdoc HP Hnot') as [Hlen Htop].
      rewrite length_fmap. split; [done|].
      intros e Hin. apply list_elem_of_fmap in Hin as (c & -> & Hin).
      specialize (Htop c Hin). cbn [donor_entry d_totalDonated] in *.
      by rewrite Ht in Htop.
Qed.

End Leaderboards.

(** ** From the donation page to the counter *)

Section DonationFlow.
Import Firestore Success.

Lemma priceIdMap_amounts donationAmount priceId :
  Donate.priceIdMap !! donationAmount = Some priceId →
  donationAmount ∈ ["25"; "50"; "100"; "250"; "500"].
Proof.
  unfold Donate.priceIdMap. intros H.
  repeat (rewrite lookup_insert in H; case_decide;
          [subst; apply (bool_decide_unpack _); by vm_compute|]).
  rewrite lookup_singleton in H. case_decide; [|done].
  subst. apply (bool_decide_unpack _). by vm_compute.
Qed.

(** X13: an amount for which the donation page goes to the checkout is
    always counted by the success page: it is one of 25, 50, 100, 250 and
    500, it reaches the success URL unchanged, and a load of that URL by the
    signed-in donor adds exactly that amount to [totalDonated]. *)
Theorem checkout_amount_is_counted
    authLoading user stripe checkout_error donationType donationAmount
    price mode amount checkout_session_id u db d :
  Donate.handleFinancialSubmit authLoading user stripe checkout_error
    donationType donationAmount = Donate.Checkout price mode amount →
  checkout_session_id ≠ "" →
  db !! uid u = Some d →
  amount = donationAmount
  ∧ is_Some user
  ∧ ∃ a, Js.Number amount = Js.Finite (inject_Z a)
         ∧ a ∈ [25; 50; 100; 250; 500]%Z
         ∧ visit (Donate.successUrl checkout_session_id amount) [(false, Some u)] db
           = <[uid u := mkUserDoc (name d) (role d)
                          (Some match totalDonated d with
                                | None => integerValue a
                                | Some (integerValue t) =>
                                    integerValue (saturate (t + a))
                                | Some (doubleValue x) =>
                                    doubleValue (Js.add x (Js.Finite (inject_Z a)))
                                end)
                          (photoURL d)]> db.
Proof.
  intros Hsubmit Hsid Hd. unfold Donate.handleFinancialSubmit in Hsubmit.
  destruct authLoading; [done|]. destruct user as [v|]; [|done].
  destruct stripe; [|done]. cbn [negb] in Hsubmit.
  destruct (Donate.priceIdMap !! donationAmount) as [p|] eqn:Hp; [|done].
  destruct (negb (Js.truthy (Some p))); [done|].
  destruct checkout_error; [done|]. injection Hsubmit as -> _ <-.
  split; [done|]. split; [done|].
  apply priceIdMap_amounts in Hp.
  assert (Hcases : ∃ a, Js.Number donationAmount = Js.Finite (inject_Z a)
                        ∧ a ∈ [25; 50; 100; 250; 500]%Z
                        ∧ toNumber (Js.Finite (inject_Z a)) = integerValue a
                        ∧ Js.of_Q (inject_Z a) = Js.Finite (inject_Z a)
                        ∧ (0 < a ≤ 2 ^ 53 - 1)%Z ∧ donationAmount ≠ "").
  { repeat (apply elem_of_cons in Hp as [->|Hp];
            [eexists; split; [vm_compute; reflexivity|];
             split; [apply (bool_decide_unpack _); by vm_compute|];
             split; [by vm_compute|]; split; [by vm_compute|];
             split; [lia|discriminate]|]).
    by apply elem_of_nil in Hp. }
  destruct Hcases as (a & Hnum & Hin & Hsend & Hdouble & Hpos & Hne).
  exists a. split; [done|]. split; [done|].
  rewrite (visit_increments u _ db d checkout_session_id donationAmount);
    try done.
  - unfold donation_payload. rewrite Hnum. do 3 f_equal.
    unfold increment. rewrite Hsend. cbn [toDouble]. rewrite Hdouble.
    by destruct (totalDonated d) as [[t|x]|].
  - by rewrite Hnum.
  - rewrite Hnum. cbn. apply bool_decide_eq_false_2. lia.
Qed.

Lemma checkout_amount_witness :
  "250" = "250"
  ∧ is_Some (Some Sample.alice)
  ∧ ∃ a, Js.Number "250" = Js.Finite (inject_Z a)
         ∧ a ∈ [25; 50; 100; 250; 500]%Z
         ∧ visit (Donate.successUrl "cs_test_9" "250") [(false, Some Sample.alice)]
             Sample.donors
           = <["alice" := mkUserDoc (Some "Alice") "citizen"
                            (Some (integerValue (saturate (100 + a)))) None]>
               Sample.donors.
Proof.
  apply (checkout_amount_is_counted false (Some Sample.alice) true None
           Donate.one_time "250" "price_1RAuEM07ioGuItlZ8DhnbHxv" "payment"
           "250" "cs_test_9" Sample.alice Sample.donors
           (mkUserDoc (Some "Alice") "citizen" (Some (integerValue 100)) None)).
  - vm_compute. reflexivity.
  - discriminate.
  - reflexivity.
Defined.

(** The URLs the success page refuses: no session id, no amount, or an
    amount that [Number] reads as NaN or as a number that is not positive. *)
Lemma updateDonationCount_bad_url authLoading user searchParams db st :
  Js.truthy (session_id searchParams) = false
  ∨ Js.truthy (Success.amount searchParams) = false
  ∨ (∃ amt, Success.amount searchParams = Some amt
            ∧ (Js.isNaN (Js.Number amt) = true
               ∨ Js.le_zero (Js.Number amt) = true)) →
  let r := updateDonationCount authLoading user searchParams db st in
  r.1.1 = db
  ∧ (updateStatus st = idle → authLoading = false → is_Some user →
     updateStatus r.1.2 = error ∧ is_Some (errorMessage r.1.2)).
Proof.
  intros Hbad r. subst r. unfold updateDonationCount.
  destruct user as [u|]; [|by split; [|intros _ _ [? ?]]].
  destruct authLoading; cbn [orb]; [by split|].
  case_bool_decide as Hidle; cbn [negb]; [|by split]. cbv zeta.
  destruct (Js.truthy (session_id searchParams)) eqn:Hs; cbn [negb];
    [|by split].
  destruct (Js.truthy (Success.amount searchParams)) eqn:Ha; cbn [negb orb];
    [|by split].
  destruct (Js.isNaN _) eqn:Hnan; [by split|].
  destruct (Js.le_zero _) eqn:Hle; [by split|].
  exfalso. destruct Hbad as [?|[?|(amt & Hamt & Hcase)]]; try done.
  rewrite Hamt in Hnan, Hle. cbn [default from_option id] in Hnan, Hle.
  destruct Hcase; congruence.
Qed.

(** X14: a success URL without a session id, without an amount, or with
    an amount that [Number] reads as NaN or as a number that is not positive
    never changes the store, whoever loads it and however often its effect
    runs; once the effect has run for a signed-in user, the page is in its
    error state and shows a message. *)
Theorem visit_with_bad_url_writes_nothing searchParams envs db :
  Js.truthy (session_id searchParams) = false
  ∨ Js.truthy (Success.amount searchParams) = false
  ∨ (∃ amt, Success.amount searchParams = Some amt
            ∧ (Js.isNaN (Js.Number amt) = true
               ∨ Js.le_zero (Js.Number amt) = true)) →
  visit searchParams envs db = db
  ∧ ∀ u, (false, Some u) ∈ envs →
         let shown := (effects searchParams envs db mount).2 in
         updateStatus shown = error ∧ is_Some (errorMessage shown).
Proof.
  intros Hbad. unfold visit.
  assert (Hgen : ∀ st,
             (effects searchParams envs db st).1 = db
             ∧ (updateStatus st = idle →
                ∀ u, (false, Some u) ∈ envs →
                     updateStatus (effects searchParams envs db st).2 = error
                     ∧ is_Some (errorMessage (effects searchParams envs db st).2))).
  { induction envs as [|[authLoading user] envs IH]; intros st.
    - split; [done|]. by intros _ u ?%elem_of_nil.
    - unfold effects. cbn [foldl fst snd].
      destruct (updateDonationCount_bad_url authLoading user searchParams
                  db st Hbad) as [H1 H2].
      destruct (updateDonationCount authLoading user searchParams db st)
        as [[db' st'] t] eqn:Hrun. cbn [fst snd] in H1, H2 |- *. subst db'.
      fold (effects searchParams envs db st').
      split; [apply IH|]. intros Hidle u Hin.
      destruct authLoading.
      { apply elem_of_cons in Hin as [?|Hin]; [done|].
        unfold updateDonationCount in Hrun.
        destruct user; cbn [orb] in Hrun; injection Hrun as <- _;
          by apply (proj2 (IH st) Hidle u). }
      destruct user as [v|].
      + destruct (H2 Hidle eq_refl (mk_is_Some _ _ eq_refl)) as [Herr Hmsg].
        rewrite effects_not_idle by by rewrite Herr. done.
      + apply elem_of_cons in Hin as [?|Hin]; [done|].
        unfold updateDonationCount in Hrun. injection Hrun as <- _.
        by apply (proj2 (IH st) Hidle u). }
  split; [apply Hgen|]. intros u Hin. by apply (proj2 (Hgen mount) eq_refl u).
Qed.

Lemma visit_with_bad_url_witness :
  visit (mkParams (Some "cs_test_9") (Some "-25")) Sample.renders Sample.donors
  = Sample.donors
  ∧ updateStatus (effects (mkParams (Some "cs_test_9") (Some "-25"))
                    Sample.renders Sample.donors mount).2 = error
  ∧ is_Some (errorMessage (effects (mkParams (Some "cs_test_9") (Some "-25"))
                             Sample.renders Sample.donors mount).2).
Proof.
  destruct (visit_with_bad_url_writes_nothing
              (mkParams (Some "cs_test_9") (Some "-25"))
              Sample.renders Sample.donors) as [Hstore Hshown].
  - right; right. exists "-25". split; [reflexivity|]. right. by vm_compute.
  - split; [exact Hstore|]. apply (Hshown Sample.alice).
    apply list_elem_of_further, list_elem_of_here.
Defined.

(** One run of the effect: no toast, never the success state, and a
    changed store only with the page left pending. *)
Lemma updateDonationCount_outcome authLoading user searchParams db st :
  let r := updateDonationCount authLoading user searchParams db st in
  r.2 = None
  ∧ (updateStatus st ≠ success → updateStatus r.1.2 ≠ success)
  ∧ (r.1.1 = db ∨ r.1.2 = mkState pending None).
Proof.
  cbv zeta. unfold updateDonationCount.
  destruct user as [u|]; [|by auto].
  destruct authLoading; cbn [orb]; [by auto|].
  case_bool_decide as Hidle; cbn [negb]; [|by auto]. cbv zeta.
  destruct (negb (Js.truthy (session_id searchParams))); [by auto|].
  destruct (_ || _); [by auto|].
  destruct (Js.le_zero _); [by auto|].
  unfold isMounted. cbn [updateStatus]. rewrite Hidle.
  rewrite (bool_decide_eq_false_2 (pending = idle)) by done.
  destruct (updateDoc _ _ _); cbn [fst snd]; by auto.
Qed.

(** X23: the page never reaches its success state and shows neither
    "Leaderboard Updated" nor "Leaderboard Update Failed": the update leaves
    [idle] before it awaits the write, which re-renders the component and
    cleans the effect up, so that the call finds [isMounted] false when it
    resumes.  A load that has counted a donation leaves the page pending. *)
Theorem counted_donation_stays_pending searchParams envs db :
  updateStatus (effects searchParams envs db mount).2 ≠ success
  ∧ (visit searchParams envs db ≠ db →
     (effects searchParams envs db mount).2 = mkState pending None)
  ∧ ∀ authLoading user st,
      (updateDonationCount authLoading user searchParams db st).2 = None.
Proof.
  split; [|split].
  - assert (Hgen : ∀ db st, updateStatus st ≠ success →
                            updateStatus (effects searchParams envs db st).2 ≠ success).
    { induction envs as [|[authLoading user] envs IH]; intros db0 st Hst; [done|].
      unfold effects. cbn [foldl fst snd].
      destruct (updateDonationCount_outcome authLoading user searchParams db0 st)
        as (_ & Hns & _).
      destruct (updateDonationCount authLoading user searchParams db0 st)
        as [[db' st'] t]. cbn [fst snd] in *. apply IH. by apply Hns. }
    by apply Hgen.
  - unfold visit.
    assert (Hgen : ∀ st, (effects searchParams envs db st).1 ≠ db →
                         (effects searchParams envs db st).2 = mkState pending None).
    { induction envs as [|[authLoading user] envs IH]; intros st Hne; [done|].
      unfold effects in *. cbn [foldl fst snd] in *.
      destruct (updateDonationCount_outcome authLoading user searchParams db st)
        as (_ & _ & Hw).
      destruct (updateDonationCount authLoading user searchParams db st)
        as [[db' st'] t]. cbn [fst snd] in *.
      destruct Hw as [->| ->]; [by apply IH|].
      fold (effects searchParams envs db' (mkState pending None)).
      by rewrite effects_not_idle. }
    apply Hgen.
  - intros authLoading user st.
    apply (updateDonationCount_outcome authLoading user searchParams db st).
Qed.

Lemma counted_donation_witness :
  (effects Sample.paid_25 Sample.renders Sample.donors mount).2
  = mkState pending None.
Proof.
  apply (counted_donation_stays_pending Sample.paid_25 Sample.renders
           Sample.donors).
  intros Heq.
  apply (f_equal (λ m : gmap string UserDoc, totalDonated <$> m !! "alice")) in Heq.
  vm_compute in Heq. discriminate.
Defined.

End DonationFlow.

(** ** The focus areas of a registration *)

Section FocusAreas.
Import Login.

Lemma handleFocusAreaChange_NoDup area prev :
  NoDup prev → NoDup (handleFocusAreaChange area prev).
Proof.
  intros Hnd. unfold handleFocusAreaChange. case_bool_decide as Hin.
  - by apply NoDup_filter.
  - apply NoDup_app. split; [done|]. split; [|apply NoDup_singleton].
    intros x Hx Hx'. apply list_elem_of_singleton in Hx'. by subst x.
Qed.

Lemma handleFocusAreaChange_elem_of area prev x :
  x ∈ handleFocusAreaChange area prev → x ∈ prev ∨ x = area.
Proof.
  unfold handleFocusAreaChange. case_bool_decide.
  - intros [_ Hx]%list_elem_of_filter. by left.
  - intros [Hx|Hx]%elem_of_app; [by left|].
    right. by apply list_elem_of_singleton in Hx.
Qed.

(** X15: the boxes of the registration form toggle: ticking a box adds its
    area at the end, ticking it again removes it, so that two clicks on a
    box that was not ticked give back the same list, and two clicks on a
    ticked box give the same areas with that one moved to the end. *)
Theorem handleFocusAreaChange_twice area prev :
  NoDup prev →
  (area ∉ prev →
   handleFocusAreaChange area (handleFocusAreaChange area prev) = prev)
  ∧ (area ∈ prev →
     handleFocusAreaChange area (handleFocusAreaChange area prev)
     = filter (λ a, a ≠ area) prev ++ [area])
  ∧ handleFocusAreaChange area (handleFocusAreaChange area prev) ≡ₚ prev.
Proof.
  intros Hnd.
  assert (Habsent : area ∉ prev →
            handleFocusAreaChange area (handleFocusAreaChange area prev) = prev).
  { intros Hnot. unfold handleFocusAreaChange at 2.
    rewrite bool_decide_eq_false_2 by done. unfold handleFocusAreaChange.
    rewrite bool_decide_eq_true_2 by set_solver.
    by apply filter_out_appended. }
  assert (Hpresent : area ∈ prev →
            handleFocusAreaChange area (handleFocusAreaChange area prev)
            = filter (λ a, a ≠ area) prev ++ [area]).
  { intros Hin. unfold handleFocusAreaChange at 2.
    rewrite bool_decide_eq_true_2 by done. unfold handleFocusAreaChange.
    rewrite bool_decide_eq_false_2; [done|].
    intros [Hne _]%list_elem_of_filter. done. }
  split; [done|]. split; [done|].
  destruct (decide (area ∈ prev)) as [Hin|Hnot]; [|by rewrite Habsent].
  rewrite Hpresent by done.
  apply NoDup_Permutation; [|done|].
  - apply NoDup_app. split; [by apply NoDup_filter|].
    split; [|apply NoDup_singleton].
    intros x [Hne _]%list_elem_of_filter Hx%list_elem_of_singleton. done.
  - intros x. rewrite elem_of_app, list_elem_of_filter, list_elem_of_singleton.
    split; [intros [[_ ?]| ->]; done|].
    intros Hx. destruct (decide (x = area)); [by right|by left].
Qed.

Lemma handleFocusAreaChange_witness :
  handleFocusAreaChange "education"
    (handleFocusAreaChange "education" ["health"; "education"; "other"])
  = ["health"; "other"; "education"].
Proof.
  destruct (handleFocusAreaChange_twice "education"
              ["health"; "education"; "other"]) as (_ & H & _).
  - apply (bool_decide_unpack _). by vm_compute.
  - apply H. apply (bool_decide_unpack _). by vm_compute.
Defined.

(** X16: whatever boxes are clicked, the focus areas a registration holds
    are distinct areas of the form, at most eleven; the issue feed of an NGO
    registered with them queries every one of them, and nothing is cut off
    by the limit of 30. *)
Theorem registered_focus_areas_all_queried clicks :
  NoDup (orgFocusAreas clicks)
  ∧ orgFocusAreas clicks ⊆ focusAreasOptions
  ∧ length (orgFocusAreas clicks) ≤ 11
  ∧ NgoIssuesView.areasToQuery (orgFocusAreas clicks) = orgFocusAreas clicks.
Proof.
  assert (H : NoDup (orgFocusAreas clicks)
              ∧ orgFocusAreas clicks ⊆ focusAreasOptions).
  { unfold orgFocusAreas.
    induction clicks as [|k clicks [IHnd IHsub]] using rev_ind.
    - split; [apply NoDup_nil_2|]. by intros x ?%elem_of_nil.
    - rewrite foldl_app. cbn [foldl]. unfold click_box at 1 3.
      destruct (focusAreasOptions !! k) as [area|] eqn:Hk; [|done].
      split; [by apply handleFocusAreaChange_NoDup|].
      intros x [Hx| ->]%handleFocusAreaChange_elem_of; [by apply IHsub|].
      by apply (list_elem_of_lookup_2 _ k). }
  destruct H as [Hnd Hsub].
  assert (Hlen : length (orgFocusAreas clicks) ≤ 11).
  { change 11 with (length focusAreasOptions).
    by apply submseteq_length, NoDup_submseteq. }
  repeat split; try done.
  unfold NgoIssuesView.areasToQuery, NgoIssuesView.in_limit.
  rewrite bool_decide_eq_false_2; [done|lia].
Qed.

End FocusAreas.

(** ** The reporter's own issues *)

Section OwnIssues.
Import MyReportedIssues.

#[local] Existing Instance newer_total.
#[local] Existing Instance newer_trans.

(** X17: a signed-in reporter is shown exactly the stored issues that
    carry their uid as [reporterId] and have a title and a location,
    whatever their status (resolved ones too, none is cut off), newest
    first. *)
Theorem own_issues_exactly user issues_db :
  let st := fetchMyIssues (Some user) issues_db mount in
  (∀ card, card ∈ shown st ↔
           issues_db !! card.1 = Some card.2
           ∧ Issue.reporterId card.2 = uid user
           ∧ Issue.title card.2 ≠ "" ∧ Issue.location card.2 ≠ "")
  ∧ StronglySorted (Firestore.newer Issue.timestamp) (shown st).
Proof.
  cbv zeta. unfold fetchMyIssues, shown. cbn [loading error negb andb myIssues].
  rewrite bool_decide_eq_false_2 by (by intros [? ?]). cbn [negb].
  unfold Firestore.query_all. split.
  - intros [id i]. rewrite list_elem_of_filter, merge_sort_Permutation,
      list_elem_of_filter, elem_of_map_to_list. cbn [fst snd].
    unfold valid. rewrite andb_true_iff, !negb_true_iff, !bool_decide_eq_false,
      bool_decide_eq_true. tauto.
  - eapply StronglySorted_sublist; [apply sublist_filter|].
    apply StronglySorted_merge_sort; apply _.
Qed.

End OwnIssues.

(** ** Listing a donation and claiming it *)

Section DonationLifecycle.
Import AddFoodDonationForm.

(** X18: a form without food type, quantity or pickup location is
    refused and writes nothing.  A complete form creates an available
    donation of the restaurant and touches no other document; the first
    volunteer to claim that donation gets it, and the claimed document still
    carries what the restaurant entered. *)
Theorem listed_donation_is_claimable
    restaurantId restaurantName now new_id db formData bestBeforeDate
    volunteer userProfile claimed_at st notes phone :
  let submitted := handleSubmit restaurantId restaurantName now new_id db
                     formData bestBeforeDate in
  let r := Volunteer.handleClaimFood (Some volunteer) userProfile claimed_at
             submitted.1.1.1 st new_id notes phone in
  (foodType formData = "" ∨ quantity formData = "" ∨ pickupLocation formData = "" →
   submitted = (db, formData, bestBeforeDate,
                toast_d "Missing Information"
                  "Please fill Food Type, Quantity, and Pickup Location."))
  ∧ (foodType formData ≠ "" → quantity formData ≠ "" →
     pickupLocation formData ≠ "" →
     submitted.1.1.1 !! new_id
     = Some (FoodDonation.mk restaurantId restaurantName (foodType formData)
               (quantity formData) (pickupLocation formData)
               (Some (pickupInstructions formData)) bestBeforeDate
               FoodDonation.available now None None None None None)
     ∧ (∀ id, id ≠ new_id → submitted.1.1.1 !! id = db !! id)
     ∧ submitted.1.1.2 = empty_form
     ∧ r.2 = toast_d "Donation Claimed!" "Please arrange pickup as per instructions."
     ∧ r.1.1 !! new_id
       = Some (FoodDonation.mk restaurantId restaurantName (foodType formData)
                 (quantity formData) (pickupLocation formData)
                 (Some (pickupInstructions formData)) bestBeforeDate
                 FoodDonation.claimed now (Some (uid volunteer))
                 (Some (Volunteer.claimant_name volunteer userProfile))
                 (Some claimed_at) (Some notes) (Some phone))).
Proof.
  cbv zeta. unfold handleSubmit. split.
  - intros Hmissing.
    destruct Hmissing as [-> | [-> | ->]];
      rewrite ?(bool_decide_eq_true_2 ("" = "")) by done;
      by rewrite ?orb_true_r.
  - intros H1 H2 H3. rewrite !bool_decide_eq_false_2 by done.
    cbn [orb fst snd]. unfold Firestore.addDoc.
    split; [apply lookup_insert_eq|].
    split; [by intros id Hne; rewrite lookup_insert_ne|].
    split; [done|].
    rewrite (handleClaimFood_available _ _ _ _ _ _ _ _
               (donationData restaurantId restaurantName now formData bestBeforeDate))
      by (apply lookup_insert_eq || done).
    cbn [fst snd]. split; [done|]. by rewrite lookup_insert_eq.
Qed.

Lemma listed_donation_witness :
  let submitted := handleSubmit "rest1" "Corner Bistro" 700 "d9"
                     Sample.listed_donations Example.bread_form None in
  let r := Volunteer.handleClaimFood (Some Sample.bob) None 800
             submitted.1.1.1 Sample.dialog "d9" "by bike" "555-0123" in
  r.2 = toast_d "Donation Claimed!" "Please arrange pickup as per instructions."
  ∧ r.1.1 !! "d9"
    = Some (FoodDonation.mk "rest1" "Corner Bistro" "Bread" "5 loaves"
              "12 Main St" (Some "After 9 PM") None FoodDonation.claimed 700
              (Some "bob") (Some "bob@example.org") (Some 800%Z)
              (Some "by bike") (Some "555-0123")).
Proof.
  cbv zeta.
  destruct (listed_donation_is_claimable "rest1" "Corner Bistro" 700 "d9"
              Sample.listed_donations Example.bread_form None
              Sample.bob None 800 Sample.dialog "by bike" "555-0123")
    as [_ H].
  destruct H as (_ & _ & _ & Htoast & Hdoc); [discriminate..|].
  split; [exact Htoast|exact Hdoc].
Defined.

End DonationLifecycle.

(** ** The route guards *)

Section Guards.
Import Routes.

(** X19: a guarded route shows its page only to a signed-in user once the
    auth state has loaded, the NGO food-request page only to an NGO and the
    administration panel only to a super-administrator; while the auth state
    loads every guarded route shows a spinner, and a signed-out user is sent
    to the login page. *)
Theorem guarded_routes auth path :
  (∀ page, route auth path = Some (Children page) →
           loading auth = false ∧ is_Some (user auth)
           ∧ (page = NgoFoodRequest → userRole auth = Some ngo)
           ∧ (page = SuperAdminPanel → userRole auth = Some superadmin))
  ∧ (loading auth = true → is_Some (route auth path) →
     route auth path = Some (Spinner "Loading User..."))
  ∧ (loading auth = false → user auth = None → is_Some (route auth path) →
     route auth path = Some (NavigateTo "/login")).
Proof.
  unfold route, RequireAuth, RequireNgo, RequireAdmin.
  destruct auth as [u role l]. cbn [loading user userRole].
  split; [|split].
  - intros page. destruct l.
    + repeat (case_bool_decide; [done|]). done.
    + destruct u as [u|].
      * rewrite (bool_decide_eq_true_2 (is_Some (Some u))) by eauto. cbn [negb].
        repeat (case_bool_decide; [intros [= <-]; by repeat split; eauto|]).
        case_bool_decide.
        { destruct (bool_decide (role = Some ngo)) eqn:Hr; cbn [negb]; [|done].
          apply bool_decide_eq_true in Hr. intros [= <-]. by repeat split; eauto. }
        case_bool_decide; [|done].
        destruct (bool_decide (role = Some superadmin)) eqn:Hr; cbn [negb]; [|done].
        apply bool_decide_eq_true in Hr. intros [= <-]. by repeat split; eauto.
      * rewrite (bool_decide_eq_false_2 (is_Some None)) by (by intros [? ?]).
        cbn [negb]. repeat (case_bool_decide; [done|]). done.
  - intros -> Hsome. repeat (case_bool_decide; [done|]). by destruct Hsome.
  - intros -> -> Hsome.
    rewrite (bool_decide_eq_false_2 (is_Some None)) by (by intros [? ?]).
    cbn [negb]. repeat (case_bool_decide; [done|]). by destruct Hsome.
Qed.

End Guards.

(** ** Initials *)

Section InitialsFacts.
Import Initials.

Lemma length_toUpperCase s : String.length (toUpperCase s) = String.length s.
Proof. induction s as [|a s IH]; [done|]. cbn. by rewrite IH. Qed.

Lemma split_not_nil s : split s ≠ [].
Proof.
  destruct s as [|a s]; [done|]. cbn. case_bool_decide; [done|].
  by destruct (split s).
Qed.

Lemma first_nonempty w : w ≠ "" → ∃ a, first (Some w) = Some a.
Proof. destruct w as [|a w]; [done|]. by exists a. Qed.

(** X20: the variant of the dashboard and of the navbar never fails: for
    every name, missing, blank or with blanks anywhere, it answers with one
    or two characters. *)
Theorem getInitials_trimmed_one_or_two placeholder name :
  String.length placeholder = 1 →
  ∃ s, getInitials_trimmed placeholder name = Some s
       ∧ (String.length s = 1 ∨ String.length s = 2).
Proof.
  intros Hp. unfold getInitials_trimmed.
  destruct (negb (Js.truthy name)); [by eauto|]. cbv zeta.
  set (names := filter (λ n, n ≠ "") _).
  assert (Hall : Forall (λ n, n ≠ "") names)
    by (apply Forall_forall; intros w Hw; by apply list_elem_of_filter in Hw as [? _]).
  case_bool_decide as Hlen; [by eauto|].
  unfold initials_of. destruct names as [|w [|w' ws]]; [done| |].
  - apply Forall_cons in Hall as [Hw _].
    destruct (first_nonempty w Hw) as [a Ha]. cbn [length lookup list_lookup].
    rewrite (bool_decide_eq_true_2 (1 = 1)) by done. rewrite Ha. cbn.
    eexists. split; [done|]. by left.
  - rewrite bool_decide_eq_false_2 by (cbn; lia).
    pose proof Hall as Hall'. apply Forall_cons in Hall as [Hw _].
    destruct (first_nonempty w Hw) as [a Ha]. cbn [lookup list_lookup]. rewrite Ha.
    assert (Hlast : ∃ z, last (w :: w' :: ws) = Some z ∧ z ≠ "").
    { destruct (last (w :: w' :: ws)) as [z|] eqn:Hz; [|by apply last_None in Hz].
      exists z. split; [done|]. rewrite Forall_forall in Hall'.
      apply Hall'. apply last_Some in Hz as [l' ->]. set_solver. }
    destruct Hlast as (z & -> & Hz).
    destruct (first_nonempty z Hz) as [b Hb]. rewrite Hb. cbn.
    eexists. split; [done|]. by right.
Qed.

Lemma getInitials_trimmed_witness :
  ∃ s, getInitials_dashboard (Some "  corner   bistro ") = Some s
       ∧ (String.length s = 1 ∨ String.length s = 2).
Proof. apply getInitials_trimmed_one_or_two. reflexivity. Defined.

Lemma filter_all {A} (P : A → Prop) `{∀ x, Decision (P x)} (l : list A) :
  Forall P l → filter P l = l.
Proof.
  induction 1 as [|x l Hx Hl IH]; [done|].
  rewrite filter_cons_True by done. by rewrite IH.
Qed.

(** X21: on a name without white space at its ends and without two blanks
    in a row (no empty word), the plain variant gives what the trimming
    variants give. *)
Theorem getInitials_plain_agrees placeholder name :
  name ≠ "" → trim name = name → Forall (λ n, n ≠ "") (split name) →
  getInitials_plain (Some name) = getInitials_trimmed placeholder (Some name).
Proof.
  intros Hne Htrim Hall. unfold getInitials_plain, getInitials_trimmed.
  cbn [Js.truthy default from_option id]. rewrite (bool_decide_eq_false_2 _ Hne).
  cbn [negb]. cbv zeta. rewrite Htrim, filter_all by done.
  rewrite bool_decide_eq_false_2; [done|].
  intros Hz. apply nil_length_inv in Hz. by apply split_not_nil in Hz.
Qed.

Lemma getInitials_plain_agrees_witness :
  getInitials_plain (Some "corner bistro")
  = getInitials_trimmed "?" (Some "corner bistro").
Proof.
  apply getInitials_plain_agrees.
  - discriminate.
  - reflexivity.
  - apply (bool_decide_unpack _). by vm_compute.
Defined.

Lemma split_blank_end s : ∃ l, l ≠ [] ∧ split (s +:+ " ") = l ++ [""].
Proof.
  induction s as [|a s (l & Hl & IH)].
  - by exists [""].
  - change (String a s +:+ " ") with (String a (s +:+ " ")).
    cbn [split]. rewrite IH. case_bool_decide.
    + by exists ("" :: l).
    + destruct l as [|w l]; [done|]. by exists (String a w :: l).
Qed.

(** X22: the plain variant of the leaderboard and of the restaurant
    dashboard fails on a name that begins and ends with a blank (a single
    blank included): both end words are empty, their first characters are
    [undefined], and [toUpperCase] is called on NaN. *)
Theorem getInitials_plain_fails_between_blanks s :
  String.get 0 (s +:+ " ") = Some " "%char →
  getInitials_plain (Some (s +:+ " ")) = None.
Proof.
  intros Hget. destruct s as [|a s]; [done|].
  cbn in Hget. injection Hget as ->.
  unfold getInitials_plain. cbn [Js.truthy default from_option id].
  rewrite bool_decide_eq_false_2 by done.
  change (String " " s +:+ " ") with (String " " (s +:+ " ")).
  cbn [negb split].
  rewrite (bool_decide_eq_true_2 (" "%char = " "%char)) by done.
  destruct (split_blank_end s) as (l & Hl & ->).
  unfold initials_of. rewrite bool_decide_eq_false_2.
  - change ("" :: l ++ [""]) with (("" :: l) ++ [""]). by rewrite last_snoc.
  - cbn. rewrite length_app. cbn. lia.
Qed.

Lemma getInitials_plain_fails_witness :
  getInitials_plain (Some " corner bistro ") = None.
Proof.
  apply (getInitials_plain_fails_between_blanks " corner bistro"). reflexivity.
Defined.

End InitialsFacts.
